(** * wealist-advanced-go-pkg: a shallow embedding and its verified properties

    The repository is a utility library for Go services built on the gin web
    framework: a configuration loader ([config]), response helpers
    ([response]), health probes ([health]) and HTTP middleware
    ([middleware]).  The embedding follows the packages, one module each.
    What the packages import from elsewhere is modelled first: the Go
    runtime ([go]), the standard packages [time], [strings], [strconv],
    [net/url] and [os], and gin's [Context] with its handler chain ([gin]).
    The clock, the entropy pool and the connections the probes talk to are
    the world [W] the handlers thread through. *)

From Stdlib Require Import ZArith Lia Ascii.
From stdpp Require Import base strings gmap list pretty.

Set Warnings "-register-all".

Local Open Scope string_scope.
Local Open Scope Z_scope.

(** ** The Go runtime: machine integers, panics, dynamic values *)

Module go.

(** A call either returns or panics; a panic unwinds to the caller. *)
Inductive outcome (A : Type) : Type :=
| Returned (a : A)
| Panicked (reason : string).
Arguments Returned {A} a.
Arguments Panicked {A} reason.

Definition and_then {A B : Type} (m : outcome A) (k : A -> outcome B) : outcome B :=
  match m with
  | Returned a => k a
  | Panicked reason => Panicked reason
  end.

(** [x ← m; k] runs [k] on what [m] returned and passes a panic on. *)
#[global] Instance outcome_ret : MRet outcome := @Returned.
#[global] Instance outcome_bind : MBind outcome := λ A B k m, and_then m k.

(** Two's complement wrap-around of a [bits]-wide signed integer. *)
Definition wrap (bits : Z) (x : Z) : Z :=
  (x + 2 ^ (bits - 1)) mod 2 ^ bits - 2 ^ (bits - 1).

(** [int] is 64 bits wide on the platforms the services are built for
    (amd64, arm64); [int64] is 64 bits everywhere. *)
Definition int_bits : Z := 64.
Definition MaxInt : Z := 2 ^ (int_bits - 1) - 1.
Definition MinInt : Z := - 2 ^ (int_bits - 1).
Definition MaxInt64 : Z := 2 ^ 63 - 1.
Definition MinInt64 : Z := - 2 ^ 63.

Definition is_int (x : Z) : Prop := MinInt <= x <= MaxInt.
Definition is_int64 (x : Z) : Prop := MinInt64 <= x <= MaxInt64.

(** The conversion [int(x)]. *)
Definition int (x : Z) : Z := wrap int_bits x.

Definition divide_error : string := "runtime error: integer divide by zero".

(** [a / b] on [int]: truncated towards zero, panics on a zero divisor. *)
Definition quo (a b : Z) : outcome Z :=
  if b =? 0 then Panicked divide_error else Returned (int (Z.quot a b)).

(** [a % b] on [int]: the sign follows the dividend. *)
Definition rem (a b : Z) : outcome Z :=
  if b =? 0 then Panicked divide_error else Returned (int (Z.rem a b)).

(** [x++] on [int]. *)
Definition incr (x : Z) : Z := int (x + 1).

(** Values of type [interface{}], as far as the packages look into them. *)
Inductive any : Type :=
| any_nil
| any_string (s : string)
| any_int (n : Z)
| any_bool (b : bool)
| any_slice (elems : list any)
| any_struct (fields : list (string * any)).

(** The type assertion [v.(string)] in its two-result form. *)
Definition as_string (v : any) : option string :=
  match v with
  | any_string s => Some s
  | _ => None
  end.

End go.

(** ** [time.Duration] values, in nanoseconds *)

Module time.

Definition Second : Z := 1000000000.
Definition Minute : Z := 60 * Second.
Definition Hour : Z := 60 * Minute.

End time.

(** ** Package strings of the Go standard library

    Go strings are byte sequences; so are Rocq's. *)

Module strings.

Definition len (s : string) : nat := String.length s.

(** [s[:n]] and [s[n:]] *)
Definition take (n : nat) (s : string) : string := String.substring 0 n s.
Definition drop (n : nat) (s : string) : string :=
  String.substring n (String.length s - n) s.

Definition HasPrefix (s prefix : string) : bool := String.prefix prefix s.

Definition find (s substr : string) : option nat := String.index 0 substr s.

(** [strings.Index]: the first occurrence, [-1] when there is none. *)
Definition Index (s substr : string) : Z :=
  match find s substr with
  | Some i => Z.of_nat i
  | None => -1
  end.

Definition Contains (s substr : string) : bool :=
  match find s substr with
  | Some _ => true
  | None => false
  end.

(** [strings.Cut]: around the first occurrence of [sep]. *)
Definition Cut (s sep : string) : string * string * bool :=
  match find s sep with
  | Some i => (take i s, drop (i + len sep) s, true)
  | None => (s, "", false)
  end.

Definition TrimPrefix (s prefix : string) : string :=
  if HasPrefix s prefix then drop (len prefix) s else s.

Definition HasSuffix (s suffix : string) : bool :=
  (len suffix <=? len s)%nat
  && bool_decide (drop (len s - len suffix) s = suffix).

(** The last occurrence of [substr], scanning the start positions from
    [from] down to [0]. *)
Fixpoint rfind (s substr : string) (from : nat) : option nat :=
  if HasPrefix (drop from s) substr then Some from
  else match from with
       | O => None
       | S from' => rfind s substr from'
       end.

Definition LastIndex (s substr : string) : Z :=
  match rfind s substr (len s) with
  | Some i => Z.of_nat i
  | None => -1
  end.

(** [strings.Split] and [strings.Count] for a separator that is not empty
    (the packages split on [":"] and count ["?"]); [budget] bounds the
    number of pieces and [len s] always suffices. *)
Fixpoint split_at (budget : nat) (s sep : string) : list string :=
  match budget with
  | O => [s]
  | S budget' =>
      match find s sep with
      | Some i => take i s :: split_at budget' (drop (i + len sep) s) sep
      | None => [s]
      end
  end.

Definition Split (s sep : string) : list string := split_at (len s) s sep.

Definition Count (s substr : string) : Z :=
  Z.of_nat (length (Split s substr)) - 1.

Definition Join (elems : list string) (sep : string) : string :=
  String.concat sep elems.

Definition byte (a : Ascii.ascii) : Z := Z.of_N (Ascii.N_of_ascii a).

Definition between (lo hi : Ascii.ascii) (c : Ascii.ascii) : bool :=
  (byte lo <=? byte c) && (byte c <=? byte hi).

Definition lower (c : Ascii.ascii) : Ascii.ascii :=
  if between "A"%char "Z"%char c then Ascii.ascii_of_N (Ascii.N_of_ascii c + 32) else c.

(** [strings.ToLower] on ASCII text. *)
Fixpoint ToLower (s : string) : string :=
  match s with
  | EmptyString => EmptyString
  | String c rest => String (lower c) (ToLower rest)
  end.

(** [strings.TrimSpace].  White space is what [unicode.IsSpace] holds of:
    the code points below.  Go takes the leading white space off rune by
    rune from the front and the trailing white space rune by rune from the
    back; decoding rejects every encoding of a rune but the shortest, so the
    bytes at either end decode to a white space rune exactly when they are
    its UTF-8 encoding. *)
Definition White_Space : list Z :=
  [9; 10; 11; 12; 13; 32; 133; 160; 5760;
   8192; 8193; 8194; 8195; 8196; 8197; 8198; 8199; 8200; 8201; 8202;
   8232; 8233; 8239; 8287; 12288].

Definition chr (n : Z) : Ascii.ascii := Ascii.ascii_of_N (Z.to_N n).

(** [utf8.EncodeRune], for the runes of one, two and three bytes. *)
Definition EncodeRune (r : Z) : string :=
  if r <? 128 then String (chr r) EmptyString
  else if r <? 2048 then
    String (chr (192 + r / 64)) (String (chr (128 + r mod 64)) EmptyString)
  else
    String (chr (224 + r / 4096))
      (String (chr (128 + (r / 64) mod 64))
         (String (chr (128 + r mod 64)) EmptyString)).

Definition is_space (encoded : string) : bool :=
  bool_decide (encoded ∈ EncodeRune <$> White_Space).

(** Take white space off the front of [s]; [reads] gives the bytes taken
    off in the order they stand in the string. *)
Fixpoint trim_front (reads : string -> string) (s : string) : string :=
  match s with
  | EmptyString => EmptyString
  | String a rest1 =>
      if is_space (reads (String a EmptyString)) then trim_front reads rest1
      else
        match rest1 with
        | EmptyString => s
        | String b rest2 =>
            if is_space (reads (String a (String b EmptyString)))
            then trim_front reads rest2
            else
              match rest2 with
              | EmptyString => s
              | String c rest3 =>
                  if is_space
                       (reads (String a (String b (String c EmptyString))))
                  then trim_front reads rest3
                  else s
              end
        end
  end.

Definition TrimLeft_space (s : string) : string := trim_front (fun e => e) s.

(** From the back: the front of the string read backwards. *)
Definition TrimRight_space (s : string) : string :=
  String.rev (trim_front String.rev (String.rev s)).

Definition TrimSpace (s : string) : string := TrimRight_space (TrimLeft_space s).

End strings.

(** ** strconv.Atoi *)

Module strconv.

Definition digit (c : Ascii.ascii) : option Z :=
  if strings.between "0"%char "9"%char c then Some (strings.byte c - 48) else None.

Fixpoint digits (s : string) (acc : Z) : option Z :=
  match s with
  | EmptyString => Some acc
  | String c rest =>
      match digit c with
      | Some d => digits rest (10 * acc + d)
      | None => None
      end
  end.

(** [None] stands for the [*NumError] (syntax or range). *)
Definition Atoi (s : string) : option Z :=
  let '(negative, body) :=
    match s with
    | String "-"%char rest => (true, rest)
    | String "+"%char rest => (false, rest)
    | _ => (false, s)
    end in
  if decide (body = "") then None
  else match digits body 0 with
       | Some n =>
           let v := if negative then - n else n in
           if (go.MinInt <=? v) && (v <=? go.MaxInt) then Some v else None
       | None => None
       end.

(** [strconv.Itoa]: the decimal digits, with a minus sign for a negative
    number. *)
Definition Itoa (n : Z) : string := pretty n.

End strconv.

(** ** Package net/url of the Go standard library

    [Parse] follows the library's [Parse], [parse], [getScheme],
    [parseAuthority], [parseHost] and [unescape] step by step.  [None]
    stands for a returned error.  Left out: [RawPath], [RawFragment],
    [ForceQuery] and [OmitHost] (the packages never read them) and the
    separate treatment of IPv6 zone identifiers. *)

Module url.

Record Userinfo : Type := mkUserinfo {
  username : string;
  password : string;
  passwordSet : bool
}.

Definition Username (u : Userinfo) : string := username u.
Definition Password (u : Userinfo) : string * bool := (password u, passwordSet u).

Record URL : Type := mkURL {
  Scheme : string;
  Opaque : string;
  User : option Userinfo;
  Host : string;
  Path : string;
  RawQuery : string;
  Fragment : string
}.

Inductive encoding : Type :=
| encodePath
| encodeHost
| encodeUserPassword
| encodeQueryComponent
| encodeFragment.

Definition one_of (set : string) (c : ascii) : bool :=
  existsb (Ascii.eqb c) (String.list_ascii_of_string set).

Definition letter (c : ascii) : bool :=
  strings.between "a"%char "z"%char c || strings.between "A"%char "Z"%char c.

Definition decimal (c : ascii) : bool := strings.between "0"%char "9"%char c.

Definition ishex (c : ascii) : bool :=
  decimal c || strings.between "a"%char "f"%char c
  || strings.between "A"%char "F"%char c.

Definition unhex (c : ascii) : Z :=
  if decimal c then strings.byte c - 48
  else if strings.between "a"%char "f"%char c then strings.byte c - 97 + 10
  else if strings.between "A"%char "F"%char c then strings.byte c - 65 + 10
  else 0.

(** The bytes [shouldEscape(c, encodeHost)] lets through: unreserved
    characters, sub-delimiters, [: [ ] < >] and the double quote. *)
Definition host_byte (c : ascii) : bool :=
  letter c || decimal c || one_of "!$&'()*+,;=:[]<>" c
  || (strings.byte c =? 34) || one_of "-_.~" c.

Fixpoint unescape (mode : encoding) (s : string) : option string :=
  match s with
  | EmptyString => Some EmptyString
  | String c rest =>
      if Ascii.eqb c "%" then
        match rest with
        | String a (String b rest') =>
            if ishex a && ishex b then
              if match mode with
                 | encodeHost =>
                     (unhex a <? 8) && negb (Ascii.eqb a "2" && Ascii.eqb b "5")
                 | _ => false
                 end
              then None
              else
                String (Ascii.ascii_of_N (Z.to_N (16 * unhex a + unhex b)))
                  <$> unescape mode rest'
            else None
        | _ => None
        end
      else if Ascii.eqb c "+" then
        String (match mode with
                | encodeQueryComponent => " "%char
                | _ => c
                end) <$> unescape mode rest
      else if match mode with
              | encodeHost => (strings.byte c <? 128) && negb (host_byte c)
              | _ => false
              end
      then None
      else String c <$> unescape mode rest
  end.

Definition QueryUnescape (s : string) : option string :=
  unescape encodeQueryComponent s.

Definition stringContainsCTLByte (s : string) : bool :=
  existsb (fun c => (strings.byte c <? 32) || (strings.byte c =? 127))
    (String.list_ascii_of_string s).

(** [getScheme]: [rest] is [rawURL[i:]]. *)
Fixpoint getScheme_from (rawURL rest : string) (i : nat)
  : option (string * string) :=
  match rest with
  | EmptyString => Some ("", rawURL)
  | String c rest' =>
      if letter c then getScheme_from rawURL rest' (S i)
      else if decimal c || one_of "+-." c then
        match i with
        | O => Some ("", rawURL)
        | _ => getScheme_from rawURL rest' (S i)
        end
      else if Ascii.eqb c ":" then
        match i with
        | O => None
        | _ => Some (strings.take i rawURL, rest')
        end
      else Some ("", rawURL)
  end.

Definition getScheme (rawURL : string) : option (string * string) :=
  getScheme_from rawURL rawURL 0.

Definition validOptionalPort (port : string) : bool :=
  match port with
  | EmptyString => true
  | String c rest =>
      Ascii.eqb c ":" && forallb decimal (String.list_ascii_of_string rest)
  end.

Definition parseHost (host : string) : option string :=
  if strings.HasPrefix host "[" then
    match strings.rfind host "]" (strings.len host) with
    | None => None
    | Some i =>
        if validOptionalPort (strings.drop (i + 1) host)
        then unescape encodeHost host else None
    end
  else
    match strings.rfind host ":" (strings.len host) with
    | Some i =>
        if validOptionalPort (strings.drop i host)
        then unescape encodeHost host else None
    | None => unescape encodeHost host
    end.

Definition validUserinfo (s : string) : bool :=
  forallb (fun c => letter c || decimal c || one_of "-._:~!$&'()*+,;=%@" c)
    (String.list_ascii_of_string s).

Definition parseAuthority (authority : string)
  : option (option Userinfo * string) :=
  match strings.rfind authority "@" (strings.len authority) with
  | None => host ← parseHost authority; Some (None, host)
  | Some i =>
      host ← parseHost (strings.drop (i + 1) authority);
      let userinfo := strings.take i authority in
      if negb (validUserinfo userinfo) then None
      else if negb (strings.Contains userinfo ":") then
        userinfo ← unescape encodeUserPassword userinfo;
        Some (Some (mkUserinfo userinfo "" false), host)
      else
        let '(username, password, _) := strings.Cut userinfo ":" in
        username ← unescape encodeUserPassword username;
        password ← unescape encodeUserPassword password;
        Some (Some (mkUserinfo username password true), host)
  end.

(** [parse(rawURL, viaRequest = false)] *)
Definition parse (rawURL : string) : option URL :=
  if stringContainsCTLByte rawURL then None
  else if decide (rawURL = "*") then Some (mkURL "" "" None "" "*" "" "")
  else
    '(scheme, rest) ← getScheme rawURL;
    let scheme := strings.ToLower scheme in
    let '(rest, rawQuery) :=
      if strings.HasSuffix rest "?" && (strings.Count rest "?" =? 1)
      then (strings.take (strings.len rest - 1) rest, "")
      else let '(before, after, _) := strings.Cut rest "?" in (before, after) in
    if negb (strings.HasPrefix rest "/") && negb (bool_decide (scheme = ""))
    then Some (mkURL scheme rest None "" "" rawQuery "")
    else if negb (strings.HasPrefix rest "/")
            && strings.Contains (strings.Cut rest "/").1.1 ":"
    then None
    else if (negb (bool_decide (scheme = ""))
             || negb (strings.HasPrefix rest "///"))
            && strings.HasPrefix rest "//"
    then
      let authority := strings.drop 2 rest in
      let '(authority, rest) :=
        match strings.find authority "/" with
        | Some i => (strings.take i authority, strings.drop i authority)
        | None => (authority, "")
        end in
      '(user, host) ← parseAuthority authority;
      path ← unescape encodePath rest;
      Some (mkURL scheme "" user host path rawQuery "")
    else
      path ← unescape encodePath rest;
      Some (mkURL scheme "" None "" path rawQuery "").

Definition Parse (rawURL : string) : option URL :=
  let '(u, frag, _) := strings.Cut rawURL "#" in
  url ← parse u;
  if decide (frag = "") then Some url
  else
    fragment ← unescape encodeFragment frag;
    Some (mkURL (Scheme url) (Opaque url) (User url) (Host url) (Path url)
            (RawQuery url) fragment).

(** [url.Values] and [ParseQuery]; pairs that do not parse are skipped, as
    [URL.Query] drops the error. *)
Fixpoint parseQuery (budget : nat) (query : string)
    (m : gmap string (list string)) : gmap string (list string) :=
  match budget with
  | O => m
  | S budget' =>
      if decide (query = "") then m
      else
        let '(key, query, _) := strings.Cut query "&" in
        if strings.Contains key ";" then parseQuery budget' query m
        else if decide (key = "") then parseQuery budget' query m
        else
          let '(key, value, _) := strings.Cut key "=" in
          match QueryUnescape key, QueryUnescape value with
          | Some key, Some value =>
              parseQuery budget' query
                (<[key := (default [] (m !! key) ++ [value])%list]> m)
          | _, _ => parseQuery budget' query m
          end
  end.

Definition Query (u : URL) : gmap string (list string) :=
  parseQuery (S (strings.len (RawQuery u))) (RawQuery u) ∅.

Definition Get (v : gmap string (list string)) (key : string) : string :=
  match v !! key with
  | Some (value :: _) => value
  | _ => ""
  end.

End url.

(** ** gin: the request context, its response writer and the handler chain *)

Module gin.

(** [http.Header]; only canonical keys are used by the packages. *)
Definition Header_Get (h : gmap string (list string)) (key : string) : string :=
  match h !! key with
  | Some (v :: _) => v
  | _ => ""
  end.

Definition Header_Set (h : gmap string (list string)) (key value : string)
  : gmap string (list string) := <[key := [value]]> h.

Definition Header_Del (h : gmap string (list string)) (key : string)
  : gmap string (list string) := delete key h.

Record Request : Type := mkRequest {
  Method : string;
  Header : gmap string (list string);
(** deadline of [Request.Context()], nanoseconds since the epoch *)
  Deadline : option Z
}.

(** gin's [responseWriter].  [B] is the type of the values handed to the
    JSON renderer; [body] collects them in the order they were written.
    [written] stands for [size != noWritten]. *)
Record ResponseWriter (B : Type) : Type := mkWriter {
  status : Z;
  written : bool;
  header : gmap string (list string);
  body : list B
}.
Arguments mkWriter {B}.
Arguments status {B}.
Arguments written {B}.
Arguments header {B}.
Arguments body {B}.

Definition abortIndex : Z := 63.

Record Context (B : Type) : Type := mkContext {
  Request_ : Request;
  Writer : ResponseWriter B;
  index : Z;
  Keys : gmap string go.any
}.
Arguments mkContext {B}.
Arguments Request_ {B}.
Arguments Writer {B}.
Arguments index {B}.
Arguments Keys {B}.

Section Writer.
Context {B : Type}.

Definition with_Writer (c : Context B) (w : ResponseWriter B) : Context B :=
  mkContext (Request_ c) w (index c) (Keys c).

Definition with_index (c : Context B) (i : Z) : Context B :=
  mkContext (Request_ c) (Writer c) i (Keys c).

(** [responseWriter.WriteHeader]: a status set after the headers went
    out is dropped (gin only prints a warning). *)
Definition WriteHeader (w : ResponseWriter B) (code : Z) : ResponseWriter B :=
  if (0 <? code) && negb (status w =? code) then
    if written w then w
    else mkWriter code (written w) (header w) (body w)
  else w.

Definition WriteHeaderNow (w : ResponseWriter B) : ResponseWriter B :=
  if written w then w
  else mkWriter (status w) true (header w) (body w).

Definition Write (w : ResponseWriter B) (data : B) : ResponseWriter B :=
  let w := WriteHeaderNow w in
  mkWriter (status w) (written w) (header w) (body w ++ [data]).

(** The engine's [reset]: what a handler chain starts from. *)
Definition fresh (req : Request) : Context B :=
  mkContext req (mkWriter 200 false ∅ []) (-1) ∅.

Definition Status (c : Context B) (code : Z) : Context B :=
  with_Writer c (WriteHeader (Writer c) code).

(** [c.Header(key, value)]: an empty value deletes the header. *)
Definition SetHeader (c : Context B) (key value : string) : Context B :=
  let w := Writer c in
  let h := if decide (value = "") then Header_Del (header w) key
           else Header_Set (header w) key value in
  with_Writer c (mkWriter (status w) (written w) h (body w)).

Definition Abort (c : Context B) : Context B := with_index c abortIndex.

Definition IsAborted (c : Context B) : bool := abortIndex <=? index c.

Definition AbortWithStatus (c : Context B) (code : Z) : Context B :=
  let c := Status c code in
  let c := with_Writer c (WriteHeaderNow (Writer c)) in
  Abort c.

Definition bodyAllowedForStatus (code : Z) : bool :=
  if (100 <=? code) && (code <=? 199) then false
  else if code =? 204 then false
  else if code =? 304 then false
  else true.

Definition writeContentType (w : ResponseWriter B) (value : string)
  : ResponseWriter B :=
  match header w !! "Content-Type" with
  | Some (_ :: _) => w
  | _ => mkWriter (status w) (written w)
                  (<["Content-Type" := [value]]> (header w)) (body w)
  end.

(** [c.JSON(code, obj)]; marshalling the packages' own response structs
    cannot fail, so the renderer's error branch is left out. *)
Definition JSON (c : Context B) (code : Z) (obj : B) : Context B :=
  let c := Status c code in
  let w := writeContentType (Writer c) "application/json; charset=utf-8" in
  if bodyAllowedForStatus code then with_Writer c (Write w obj)
  else with_Writer c (WriteHeaderNow w).

(** [c.Get(key)] *)
Definition Get (c : Context B) (key : string) : option go.any := Keys c !! key.

(** What the client sees: the status line and the last object written. *)
Definition code (c : Context B) : Z := status (Writer c).
Definition reply (c : Context B) : option B := last (body (Writer c)).

End Writer.

(** A handler mutates the context and may act on the world [W] outside the
    process.  [c.Next()] refers back to the chain the handler sits in, so a
    handler receives it as its first argument. *)
Definition HandlerFunc (B W : Type) : Type :=
  (Context B * W -> Context B * W) -> Context B * W -> Context B * W.

Section Chain.
Context {B W : Type}.

(** [c.index] is an [int8]. *)
Definition int8 (x : Z) : Z := go.wrap 8 x.

(** [c.index++] *)
Definition bump (s : Context B * W) : Context B * W :=
  (with_index (fst s) (int8 (index (fst s) + 1)), snd s).

(** [c.handlers[i]]; an index outside the slice would panic, and the loop
    below never asks for one at or above its length. *)
Definition handler_at (handlers : list (HandlerFunc B W)) (i : Z)
  : option (HandlerFunc B W) :=
  if i <? 0 then None else handlers !! Z.to_nat i.

(** [for c.index < int8(len(c.handlers)) { c.handlers[c.index](c); c.index++ }]
    Every round takes one unit of [rounds]. *)
Fixpoint loop (next : Context B * W -> Context B * W)
    (handlers : list (HandlerFunc B W)) (rounds : nat)
    (s : Context B * W) : Context B * W :=
  match rounds with
  | O => s
  | S rounds' =>
      if index (fst s) <? int8 (Z.of_nat (length handlers)) then
        match handler_at handlers (index (fst s)) with
        | Some h => loop next handlers rounds' (bump (h next s))
        | None => s
        end
      else s
  end.

(** [c.Next()]: [depth] bounds how deep handlers nest their own calls of
    [c.Next()].  Handlers that move the index only through [Next] and
    [Abort] raise it in every round, so [S (length handlers)] rounds and as
    many levels are enough for any chain of them. *)
Fixpoint Next (depth : nat) (handlers : list (HandlerFunc B W))
    (s : Context B * W) : Context B * W :=
  match depth with
  | O => s
  | S depth' =>
      loop (Next depth' handlers) handlers (S (length handlers)) (bump s)
  end.

(** The engine serving one request: reset, run the chain, flush the
    status line. *)
Definition ServeHTTP (handlers : list (HandlerFunc B W)) (req : Request)
    (w : W) : Context B * W :=
  let s := Next (S (length handlers)) handlers (fresh req, w) in
  (with_Writer (fst s) (WriteHeaderNow (Writer (fst s))), snd s).

End Chain.

Section Store.
Context {B : Type}.

(** [c.Set(key, value)] *)
Definition Set_ (c : Context B) (key : string) (value : go.any) : Context B :=
  mkContext (Request_ c) (Writer c) (index c) (<[key := value]> (Keys c)).

(** [c.AbortWithStatusJSON(code, obj)]: [c.Abort()], then [c.JSON]. *)
Definition AbortWithStatusJSON (c : Context B) (code : Z) (obj : B) : Context B :=
  JSON (Abort c) code obj.

End Store.

(** What a request and its context hold besides, and the packages only
    read: the parts of the URL, the route that matched, the client address
    gin works out, the number of bytes written and the errors handlers
    attached. *)
Class Details (B : Type) : Type := {
  (** [c.Request.URL.Path] *)
  URL_Path : Request -> string;
  (** [c.Request.URL.RawQuery] *)
  URL_RawQuery : Request -> string;
  (** [c.FullPath()]: the matched route, empty when none matched *)
  FullPath : Context B -> string;
  (** [c.ClientIP()] *)
  ClientIP : Context B -> string;
  (** [c.Writer.Size()] *)
  Size : ResponseWriter B -> Z;
  (** [c.Errors], by their messages *)
  Errors : Context B -> list string;
  (** [c.Errors.String()] *)
  Errors_String : list string -> string
}.

(** *** Handlers that may panic

    A handler either returns or panics with a value; in both cases the
    context and the world are left as they were at that moment, which is
    what a deferred function of a handler further up finds. *)
Inductive run (S : Type) : Type :=
| Done (s : S)
| Panic (value : go.any) (s : S).
Arguments Done {S} s.
Arguments Panic {S} value s.

Definition PanickingFunc (B W : Type) : Type :=
  (Context B * W -> run (Context B * W)) -> Context B * W -> run (Context B * W).

Section PanickingChain.
Context {B W : Type}.

Definition panicking_at (handlers : list (PanickingFunc B W)) (i : Z)
  : option (PanickingFunc B W) :=
  if i <? 0 then None else handlers !! Z.to_nat i.

(** The loop of [c.Next()] again; a panic of a handler ends it. *)
Fixpoint panicking_loop (next : Context B * W -> run (Context B * W))
    (handlers : list (PanickingFunc B W)) (rounds : nat)
    (s : Context B * W) : run (Context B * W) :=
  match rounds with
  | O => Done s
  | S rounds' =>
      if index (fst s) <? int8 (Z.of_nat (length handlers)) then
        match panicking_at handlers (index (fst s)) with
        | Some h =>
            match h next s with
            | Done s' => panicking_loop next handlers rounds' (bump s')
            | Panic value s' => Panic value s'
            end
        | None => Done s
        end
      else Done s
  end.

Fixpoint panicking_Next (depth : nat) (handlers : list (PanickingFunc B W))
    (s : Context B * W) : run (Context B * W) :=
  match depth with
  | O => Done s
  | S depth' =>
      panicking_loop (panicking_Next depth' handlers) handlers
        (S (length handlers)) (bump s)
  end.

End PanickingChain.

End gin.

(** ** Package os, as far as the loader uses it *)

Module os.

Record OS : Type := mkOS {
  environ : gmap string string;
(** the files that can be read, by path; reading any other path fails *)
  files : gmap string string
}.

(** [os.Getenv]: the empty string for a variable that is not set. *)
Definition Getenv (env : gmap string string) (key : string) : string :=
  default "" (env !! key).

Definition ReadFile (o : OS) (name : string) : option string := files o !! name.

End os.

(** ** Package config *)

Module config.

Module ServerConfig.
Record t : Type := mk {
  Port : Z;
  Mode : string;
  BasePath : string;
  ReadTimeout : Z;
  WriteTimeout : Z;
  ShutdownTimeout : Z
}.
Definition set_Port (v : Z) (s : t) : t :=
  mk v (Mode s) (BasePath s) (ReadTimeout s) (WriteTimeout s) (ShutdownTimeout s).
Definition set_Mode (v : string) (s : t) : t :=
  mk (Port s) v (BasePath s) (ReadTimeout s) (WriteTimeout s) (ShutdownTimeout s).
Definition set_BasePath (v : string) (s : t) : t :=
  mk (Port s) (Mode s) v (ReadTimeout s) (WriteTimeout s) (ShutdownTimeout s).
End ServerConfig.

Module DatabaseConfig.
Record t : Type := mk {
  Host : string;
  Port : string;
  User : string;
  Password : string;
  DBName : string;
  SSLMode : string;
  URL : string;
  MaxOpenConns : Z;
  MaxIdleConns : Z;
  ConnMaxLifetime : Z
}.
Definition set_Host (v : string) (s : t) : t :=
  mk v (Port s) (User s) (Password s) (DBName s) (SSLMode s) (URL s) (MaxOpenConns s) (MaxIdleConns s) (ConnMaxLifetime s).
Definition set_Port (v : string) (s : t) : t :=
  mk (Host s) v (User s) (Password s) (DBName s) (SSLMode s) (URL s) (MaxOpenConns s) (MaxIdleConns s) (ConnMaxLifetime s).
Definition set_User (v : string) (s : t) : t :=
  mk (Host s) (Port s) v (Password s) (DBName s) (SSLMode s) (URL s) (MaxOpenConns s) (MaxIdleConns s) (ConnMaxLifetime s).
Definition set_Password (v : string) (s : t) : t :=
  mk (Host s) (Port s) (User s) v (DBName s) (SSLMode s) (URL s) (MaxOpenConns s) (MaxIdleConns s) (ConnMaxLifetime s).
Definition set_DBName (v : string) (s : t) : t :=
  mk (Host s) (Port s) (User s) (Password s) v (SSLMode s) (URL s) (MaxOpenConns s) (MaxIdleConns s) (ConnMaxLifetime s).
Definition set_SSLMode (v : string) (s : t) : t :=
  mk (Host s) (Port s) (User s) (Password s) (DBName s) v (URL s) (MaxOpenConns s) (MaxIdleConns s) (ConnMaxLifetime s).
Definition set_URL (v : string) (s : t) : t :=
  mk (Host s) (Port s) (User s) (Password s) (DBName s) (SSLMode s) v (MaxOpenConns s) (MaxIdleConns s) (ConnMaxLifetime s).
End DatabaseConfig.

Module RedisConfig.
Record t : Type := mk {
  Host : string;
  Port : Z;
  Password : string;
  DB : Z;
  URL : string;
  TLS : bool
}.
Definition set_Host (v : string) (s : t) : t :=
  mk v (Port s) (Password s) (DB s) (URL s) (TLS s).
Definition set_Port (v : Z) (s : t) : t :=
  mk (Host s) v (Password s) (DB s) (URL s) (TLS s).
Definition set_Password (v : string) (s : t) : t :=
  mk (Host s) (Port s) v (DB s) (URL s) (TLS s).
Definition set_URL (v : string) (s : t) : t :=
  mk (Host s) (Port s) (Password s) (DB s) v (TLS s).
End RedisConfig.

Module JWTConfig.
Record t : Type := mk {
  Secret : string;
  ExpireTime : Z
}.
Definition set_Secret (v : string) (s : t) : t :=
  mk v (ExpireTime s).
End JWTConfig.

Module ServicesConfig.
Record t : Type := mk {
  AuthServiceURL : string;
  UserServiceURL : string;
  BoardServiceURL : string;
  ChatServiceURL : string;
  NotiServiceURL : string;
  StorageServiceURL : string;
  VideoServiceURL : string;
  Timeout : Z
}.
Definition set_AuthServiceURL (v : string) (s : t) : t :=
  mk v (UserServiceURL s) (BoardServiceURL s) (ChatServiceURL s) (NotiServiceURL s) (StorageServiceURL s) (VideoServiceURL s) (Timeout s).
Definition set_UserServiceURL (v : string) (s : t) : t :=
  mk (AuthServiceURL s) v (BoardServiceURL s) (ChatServiceURL s) (NotiServiceURL s) (StorageServiceURL s) (VideoServiceURL s) (Timeout s).
Definition set_BoardServiceURL (v : string) (s : t) : t :=
  mk (AuthServiceURL s) (UserServiceURL s) v (ChatServiceURL s) (NotiServiceURL s) (StorageServiceURL s) (VideoServiceURL s) (Timeout s).
Definition set_ChatServiceURL (v : string) (s : t) : t :=
  mk (AuthServiceURL s) (UserServiceURL s) (BoardServiceURL s) v (NotiServiceURL s) (StorageServiceURL s) (VideoServiceURL s) (Timeout s).
Definition set_NotiServiceURL (v : string) (s : t) : t :=
  mk (AuthServiceURL s) (UserServiceURL s) (BoardServiceURL s) (ChatServiceURL s) v (StorageServiceURL s) (VideoServiceURL s) (Timeout s).
Definition set_StorageServiceURL (v : string) (s : t) : t :=
  mk (AuthServiceURL s) (UserServiceURL s) (BoardServiceURL s) (ChatServiceURL s) (NotiServiceURL s) v (VideoServiceURL s) (Timeout s).
Definition set_VideoServiceURL (v : string) (s : t) : t :=
  mk (AuthServiceURL s) (UserServiceURL s) (BoardServiceURL s) (ChatServiceURL s) (NotiServiceURL s) (StorageServiceURL s) v (Timeout s).
End ServicesConfig.

Module CORSConfig.
Record t : Type := mk {
  AllowedOrigins : string
}.
Definition set_AllowedOrigins (v : string) (s : t) : t :=
  mk v.
End CORSConfig.

Module S3Config.
Record t : Type := mk {
  Bucket : string;
  Region : string;
  AccessKey : string;
  SecretKey : string;
  Endpoint : string
}.
Definition set_Bucket (v : string) (s : t) : t :=
  mk v (Region s) (AccessKey s) (SecretKey s) (Endpoint s).
Definition set_Region (v : string) (s : t) : t :=
  mk (Bucket s) v (AccessKey s) (SecretKey s) (Endpoint s).
Definition set_AccessKey (v : string) (s : t) : t :=
  mk (Bucket s) (Region s) v (SecretKey s) (Endpoint s).
Definition set_SecretKey (v : string) (s : t) : t :=
  mk (Bucket s) (Region s) (AccessKey s) v (Endpoint s).
Definition set_Endpoint (v : string) (s : t) : t :=
  mk (Bucket s) (Region s) (AccessKey s) (SecretKey s) v.
End S3Config.

Module LoggerConfig.
Record t : Type := mk {
  Level : string;
  OutputPath : string
}.
Definition set_Level (v : string) (s : t) : t :=
  mk v (OutputPath s).
End LoggerConfig.

Record Config : Type := mkConfig {
  Server : ServerConfig.t;
  Database : DatabaseConfig.t;
  Redis : RedisConfig.t;
  JWT : JWTConfig.t;
  Services : ServicesConfig.t;
  CORS : CORSConfig.t;
  S3 : S3Config.t;
  Logger : LoggerConfig.t
}.

(** Assignments to a field of a nested struct, [c.Database.Host = host]. *)
Definition in_Server (f : ServerConfig.t -> ServerConfig.t) (c : Config) : Config :=
  mkConfig (f (Server c)) (Database c) (Redis c) (JWT c) (Services c) (CORS c) (S3 c) (Logger c).
Definition in_Database (f : DatabaseConfig.t -> DatabaseConfig.t) (c : Config) : Config :=
  mkConfig (Server c) (f (Database c)) (Redis c) (JWT c) (Services c) (CORS c) (S3 c) (Logger c).
Definition in_Redis (f : RedisConfig.t -> RedisConfig.t) (c : Config) : Config :=
  mkConfig (Server c) (Database c) (f (Redis c)) (JWT c) (Services c) (CORS c) (S3 c) (Logger c).
Definition in_JWT (f : JWTConfig.t -> JWTConfig.t) (c : Config) : Config :=
  mkConfig (Server c) (Database c) (Redis c) (f (JWT c)) (Services c) (CORS c) (S3 c) (Logger c).
Definition in_Services (f : ServicesConfig.t -> ServicesConfig.t) (c : Config) : Config :=
  mkConfig (Server c) (Database c) (Redis c) (JWT c) (f (Services c)) (CORS c) (S3 c) (Logger c).
Definition in_CORS (f : CORSConfig.t -> CORSConfig.t) (c : Config) : Config :=
  mkConfig (Server c) (Database c) (Redis c) (JWT c) (Services c) (f (CORS c)) (S3 c) (Logger c).
Definition in_S3 (f : S3Config.t -> S3Config.t) (c : Config) : Config :=
  mkConfig (Server c) (Database c) (Redis c) (JWT c) (Services c) (CORS c) (f (S3 c)) (Logger c).
Definition in_Logger (f : LoggerConfig.t -> LoggerConfig.t) (c : Config) : Config :=
  mkConfig (Server c) (Database c) (Redis c) (JWT c) (Services c) (CORS c) (S3 c) (f (Logger c)).

Definition DefaultConfig : Config :=
  mkConfig
    (ServerConfig.mk 8080 "debug" ""
       (10 * time.Second) (10 * time.Second) (30 * time.Second))
    (DatabaseConfig.mk "localhost" "5432" "postgres" "" "" "disable" ""
       25 5 (5 * time.Minute))
    (RedisConfig.mk "localhost" 6379 "" 0 "" false)
    (JWTConfig.mk "" (24 * time.Hour))
    (ServicesConfig.mk "" "" "" "" "" "" "" (5 * time.Second))
    (CORSConfig.mk "*")
    (S3Config.mk "" "" "" "" "")
    (LoggerConfig.mk "info" "stdout").

(** [parts[i]] of the slice [strings.Split] returned. *)
Definition at_index (parts : list string) (i : nat) : string :=
  default "" (parts !! i).

(** [parseDatabaseURL] *)
Definition parseDatabaseURL (databaseURL : string) (c : Config) : Config :=
  match url.Parse databaseURL with
  | None => c
  | Some u =>
      let c :=
        match url.User u with
        | Some user =>
            let c := in_Database (DatabaseConfig.set_User (url.Username user)) c in
            in_Database (DatabaseConfig.set_Password (url.Password user).1) c
        | None => c
        end in
      let c :=
        if decide (url.Host u = "") then c
        else
          let hostPort := url.Host u in
          if strings.Contains hostPort ":" then
            let parts := strings.Split hostPort ":" in
            let c := in_Database (DatabaseConfig.set_Host (at_index parts 0)) c in
            in_Database (DatabaseConfig.set_Port (at_index parts 1)) c
          else
            let c := in_Database (DatabaseConfig.set_Host hostPort) c in
            in_Database (DatabaseConfig.set_Port "5432") c in
      let c :=
        in_Database (DatabaseConfig.set_DBName (strings.TrimPrefix (url.Path u) "/")) c in
      let sslmode := url.Get (url.Query u) "sslmode" in
      if decide (sslmode = "") then c
      else in_Database (DatabaseConfig.set_SSLMode sslmode) c
  end.

(** [if v := os.Getenv(key); v != "" { ... }] *)
Definition override (env : gmap string string) (key : string)
    (assign : string -> Config -> Config) (c : Config) : Config :=
  let v := os.Getenv env key in
  if decide (v = "") then c else assign v c.

(** [if p, err := strconv.Atoi(port); err == nil { ... }] *)
Definition if_number (assign : Z -> Config -> Config) (s : string) (c : Config)
  : Config :=
  match strconv.Atoi s with
  | Some p => assign p c
  | None => c
  end.

(** [LoadFromEnv], one [override] per [if] of the method, in its order. *)
Definition LoadFromEnv (env : gmap string string) (c : Config) : Config :=
  (* Server *)
  let c := override env "PORT"
             (if_number (fun p => in_Server (ServerConfig.set_Port p))) c in
  let c := override env "SERVER_PORT"
             (if_number (fun p => in_Server (ServerConfig.set_Port p))) c in
  let c := override env "SERVER_MODE"
             (fun mode => in_Server (ServerConfig.set_Mode mode)) c in
  let c := override env "GIN_MODE"
             (fun mode => in_Server (ServerConfig.set_Mode mode)) c in
  let c := override env "ENV"
             (fun env_ =>
                if decide (env_ = "dev") then in_Server (ServerConfig.set_Mode "debug")
                else if decide (env_ = "prod") then in_Server (ServerConfig.set_Mode "release")
                else in_Server (ServerConfig.set_Mode env_)) c in
  let c := override env "SERVER_BASE_PATH"
             (fun basePath => in_Server (ServerConfig.set_BasePath basePath)) c in
  (* Database - DATABASE_URL takes precedence *)
  let c := override env "DATABASE_URL"
             (fun dbURL c =>
                parseDatabaseURL dbURL (in_Database (DatabaseConfig.set_URL dbURL) c)) c in
  let c := override env "DB_HOST"
             (fun host => in_Database (DatabaseConfig.set_Host host)) c in
  let c := override env "DB_PORT"
             (fun port => in_Database (DatabaseConfig.set_Port port)) c in
  let c := override env "DB_USER"
             (fun user => in_Database (DatabaseConfig.set_User user)) c in
  let c := override env "DB_PASSWORD"
             (fun password => in_Database (DatabaseConfig.set_Password password)) c in
  let c := override env "DB_NAME"
             (fun dbname => in_Database (DatabaseConfig.set_DBName dbname)) c in
  (* Redis *)
  let c := override env "REDIS_HOST"
             (fun host => in_Redis (RedisConfig.set_Host host)) c in
  let c := override env "REDIS_PORT"
             (if_number (fun p => in_Redis (RedisConfig.set_Port p))) c in
  let c := override env "REDIS_PASSWORD"
             (fun password => in_Redis (RedisConfig.set_Password password)) c in
  let c := override env "REDIS_URL"
             (fun redisURL => in_Redis (RedisConfig.set_URL redisURL)) c in
  (* JWT *)
  let c := override env "JWT_SECRET"
             (fun secret => in_JWT (JWTConfig.set_Secret secret)) c in
  let c := override env "SECRET_KEY"
             (fun secret => in_JWT (JWTConfig.set_Secret secret)) c in
  (* Services *)
  let c := override env "AUTH_SERVICE_URL"
             (fun u => in_Services (ServicesConfig.set_AuthServiceURL u)) c in
  let c := override env "USER_SERVICE_URL"
             (fun u => in_Services (ServicesConfig.set_UserServiceURL u)) c in
  let c := override env "BOARD_SERVICE_URL"
             (fun u => in_Services (ServicesConfig.set_BoardServiceURL u)) c in
  let c := override env "CHAT_SERVICE_URL"
             (fun u => in_Services (ServicesConfig.set_ChatServiceURL u)) c in
  let c := override env "NOTI_SERVICE_URL"
             (fun u => in_Services (ServicesConfig.set_NotiServiceURL u)) c in
  let c := override env "STORAGE_SERVICE_URL"
             (fun u => in_Services (ServicesConfig.set_StorageServiceURL u)) c in
  let c := override env "VIDEO_SERVICE_URL"
             (fun u => in_Services (ServicesConfig.set_VideoServiceURL u)) c in
  (* CORS *)
  let c := override env "CORS_ORIGINS"
             (fun origins => in_CORS (CORSConfig.set_AllowedOrigins origins)) c in
  let c := override env "CORS_ALLOWED_ORIGINS"
             (fun origins => in_CORS (CORSConfig.set_AllowedOrigins origins)) c in
  (* S3 *)
  let c := override env "S3_BUCKET"
             (fun bucket => in_S3 (S3Config.set_Bucket bucket)) c in
  let c := override env "S3_REGION"
             (fun region => in_S3 (S3Config.set_Region region)) c in
  let c := override env "S3_ACCESS_KEY"
             (fun accessKey => in_S3 (S3Config.set_AccessKey accessKey)) c in
  let c := override env "S3_SECRET_KEY"
             (fun secretKey => in_S3 (S3Config.set_SecretKey secretKey)) c in
  let c := override env "S3_ENDPOINT"
             (fun endpoint => in_S3 (S3Config.set_Endpoint endpoint)) c in
  (* Logger *)
  override env "LOG_LEVEL"
    (fun level => in_Logger (LoggerConfig.set_Level level)) c.

Section Loader.

(** [yaml.Unmarshal(data, cfg)] of gopkg.in/yaml.v3: [inl] carries the
    error text, [inr] the struct after decoding into it. *)
Variable yaml_Unmarshal : string -> Config -> string + Config.

(** [Load(configPath)]: [inl] is the returned error, [inr] the
    configuration. *)
Definition Load (o : os.OS) (configPath : string) : string + Config :=
  let cfg := DefaultConfig in
  let decoded :=
    if decide (configPath = "") then inr cfg
    else match os.ReadFile o configPath with
         | Some data =>
             match yaml_Unmarshal data cfg with
             | inl err => inl ("failed to parse config file: " +:+ err)
             | inr cfg => inr cfg
             end
         | None => inr cfg
         end in
  match decoded with
  | inl err => inl err
  | inr cfg => inr (LoadFromEnv (os.environ o) cfg)
  end.

End Loader.

(** A decoder for the documents [{database: {host: H}}] (YAML flow style),
    the kind of file the precedence property speaks of; every other
    document is rejected. *)
Definition decode_database_host (data : string) (cfg : Config) : string + Config :=
  let opening := "{database: {host: " in
  let closing := "}}" in
  if strings.HasPrefix data opening && strings.HasSuffix data closing then
    let host :=
      strings.take (strings.len data - strings.len opening - strings.len closing)
        (strings.drop (strings.len opening) data) in
    inr (in_Database (DatabaseConfig.set_Host host) cfg)
  else inl "yaml: unsupported document".

(** The connection URL of the spec's example. *)
Definition example_DATABASE_URL : string :=
  "postgres://u:p@host:5432/dbname?sslmode=require".


(** The database host of what [Load] returned. *)
Definition loaded_host (r : string + Config) : option string :=
  match r with
  | inr cfg => Some (DatabaseConfig.Host (Database cfg))
  | inl _ => None
  end.



(** The environment variables [LoadFromEnv] reads, in the order it reads
    them. *)
Definition variables : list string :=
  ["PORT"; "SERVER_PORT"; "SERVER_MODE"; "GIN_MODE"; "ENV"; "SERVER_BASE_PATH";
   "DATABASE_URL"; "DB_HOST"; "DB_PORT"; "DB_USER"; "DB_PASSWORD"; "DB_NAME";
   "REDIS_HOST"; "REDIS_PORT"; "REDIS_PASSWORD"; "REDIS_URL";
   "JWT_SECRET"; "SECRET_KEY";
   "AUTH_SERVICE_URL"; "USER_SERVICE_URL"; "BOARD_SERVICE_URL";
   "CHAT_SERVICE_URL"; "NOTI_SERVICE_URL"; "STORAGE_SERVICE_URL";
   "VIDEO_SERVICE_URL";
   "CORS_ORIGINS"; "CORS_ALLOWED_ORIGINS";
   "S3_BUCKET"; "S3_REGION"; "S3_ACCESS_KEY"; "S3_SECRET_KEY"; "S3_ENDPOINT";
   "LOG_LEVEL"].

(** [GetDSN]; the format has [%s] verbs only. *)
Definition GetDSN (d : DatabaseConfig.t) : string :=
  if decide (DatabaseConfig.URL d = "") then
    let sslmode :=
      if decide (DatabaseConfig.SSLMode d = "") then "disable"
      else DatabaseConfig.SSLMode d in
    "host=" +:+ DatabaseConfig.Host d +:+ " port=" +:+ DatabaseConfig.Port d
    +:+ " user=" +:+ DatabaseConfig.User d
    +:+ " password=" +:+ DatabaseConfig.Password d
    +:+ " dbname=" +:+ DatabaseConfig.DBName d +:+ " sslmode=" +:+ sslmode
  else DatabaseConfig.URL d.

(** [settled P c c' X X']: two runs of the same assignments, from [c] and
    from [c'], have reached [X] and [X']; what [P] reads is by now the same
    in both, or neither run has touched it. *)
Definition settled {A : Type} (P : Config -> A) (c c' X X' : Config) : Prop :=
  P X = P X' ∨ (P X = P c ∧ P X' = P c').

(** The mode the [ENV] alias stands for. *)
Definition mode_of_ENV (env_ : string) : string :=
  if decide (env_ = "dev") then "debug"
  else if decide (env_ = "prod") then "release"
  else env_.

End config.

(** ** What the packages reach outside the process for

    [W] is the state of the world around the process (the clock, the entropy
    pool, connection pools and sockets).  The functions below are the ones of
    the Go standard library and of google/uuid that the packages call; they
    are parameters of the embedding. *)

Class Platform (W : Type) : Type := {
  (** [time.Now()], nanoseconds since the epoch *)
  time_Now : W -> Z;
  (** [t.UTC().Format(time.RFC3339)] *)
  Format_RFC3339 : Z -> string;
  (** [d.String()] for a [time.Duration] in nanoseconds *)
  Duration_String : Z -> string;
  (** [uuid.New().String()] *)
  uuid_NewString : W -> string * W
}.

(** A platform to run the embedding on: the world is the reading of the
    clock, times and durations print as their nanosecond count, and the
    identifiers drawn are numbered by the clock, which they advance. *)
#[local] Instance clock_platform : Platform Z := {|
  time_Now := fun w => w;
  Format_RFC3339 := fun t => pretty t;
  Duration_String := fun d => pretty d +:+ "ns";
  uuid_NewString := fun w => ("uuid-" +:+ pretty w, w + 1)
|}.

(** ** zap, as far as the packages use it *)

Module zap.

Inductive Level : Type := DebugLevel | InfoLevel | WarnLevel | ErrorLevel.

#[global] Instance Level_eq_dec : EqDecision Level.
Proof. solve_decision. Defined.

(** One call of [logger.Error], [logger.Warn] or [logger.Info]: the level,
    the message and the fields in the order they were given.
    [zap.String], [zap.Int], [zap.Duration] (nanoseconds) and [zap.Any]
    pair a key with a value. *)
Record Entry : Type := mkEntry {
  level : Level;
  message : string;
  fields : list (string * go.any)
}.

(** A [*zap.Logger], by what logging an entry does to the world. *)
Record Logger (W : Type) : Type := mkLogger {
  write : Entry -> W -> W
}.
Arguments mkLogger {W}.
Arguments write {W}.

Section Calls.
Context {W : Type}.

Definition Error (logger : Logger W) (msg : string)
    (fields : list (string * go.any)) (w : W) : W :=
  write logger (mkEntry ErrorLevel msg fields) w.

Definition Warn (logger : Logger W) (msg : string)
    (fields : list (string * go.any)) (w : W) : W :=
  write logger (mkEntry WarnLevel msg fields) w.

Definition Info (logger : Logger W) (msg : string)
    (fields : list (string * go.any)) (w : W) : W :=
  write logger (mkEntry InfoLevel msg fields) w.

End Calls.

End zap.

(** ** Package logger *)

Module logger.

Record Config : Type := mkConfig {
  Level : string;
  OutputPath : string;
  Format : string
}.

Definition DefaultConfig : Config := mkConfig "info" "stdout" "json".

Definition parseLevel (level : string) : zap.Level :=
  let lowered := strings.ToLower level in
  if decide (lowered = "debug") then zap.DebugLevel
  else if decide (lowered = "info") then zap.InfoLevel
  else if decide (lowered = "warn" ∨ lowered = "warning") then zap.WarnLevel
  else if decide (lowered = "error") then zap.ErrorLevel
  else zap.InfoLevel.

(** What [New] puts together: the encoder and its level encoder, the
    writer the entries go to and the level below which they are dropped.
    (The time key, the time encoder and the options are the same for every
    logger.) *)
Inductive Encoder : Type := JSONEncoder | ConsoleEncoder.
Inductive LevelEncoder : Type := LowercaseLevelEncoder | CapitalColorLevelEncoder.
Inductive Output : Type := Stdout | Stderr | File (name : string).

Record Core : Type := mkCore {
  encoder : Encoder;
  EncodeLevel : LevelEncoder;
  output : Output;
  level : zap.Level
}.

(** [os.OpenFile(name, O_APPEND|O_CREATE|O_WRONLY, 0644)]: the error, if
    any, and the world with the file opened. *)
Class Files (W : Type) : Type := {
  os_OpenFile : string -> W -> option string * W
}.

Section Building.
Context {W : Type} {files : Files W}.

Definition New (cfg : Config) (w : W) : (string + Core) * W :=
  let level := parseLevel (Level cfg) in
  let '(encoder, encodeLevel) :=
    if decide (Format cfg = "console")
    then (ConsoleEncoder, CapitalColorLevelEncoder)
    else (JSONEncoder, LowercaseLevelEncoder) in
  let lowered := strings.ToLower (OutputPath cfg) in
  if decide (lowered = "stdout" ∨ lowered = "") then
    (inr (mkCore encoder encodeLevel Stdout level), w)
  else if decide (lowered = "stderr") then
    (inr (mkCore encoder encodeLevel Stderr level), w)
  else
    match os_OpenFile (OutputPath cfg) w with
    | (Some err, w) => (inl err, w)
    | (None, w) =>
        (inr (mkCore encoder encodeLevel (File (OutputPath cfg)) level), w)
    end.

Definition NewDevelopment (w : W) : (string + Core) * W :=
  New (mkConfig "debug" "stdout" "console") w.

Definition NewProduction (w : W) : (string + Core) * W :=
  New (mkConfig "info" "stdout" "json") w.

Definition FromEnv (env : gmap string string) (w : W) : (string + Core) * W :=
  let cfg := DefaultConfig in
  let cfg :=
    let level := os.Getenv env "LOG_LEVEL" in
    if decide (level ≠ "") then mkConfig level (OutputPath cfg) (Format cfg)
    else cfg in
  let cfg :=
    let output := os.Getenv env "LOG_OUTPUT" in
    if decide (output ≠ "") then mkConfig (Level cfg) output (Format cfg)
    else cfg in
  let cfg :=
    let format := os.Getenv env "LOG_FORMAT" in
    if decide (format ≠ "") then mkConfig (Level cfg) (OutputPath cfg) format
    else cfg in
  let cfg :=
    let env := os.Getenv env "ENV" in
    if decide (env = "dev" ∨ env = "development")
    then mkConfig (Level cfg) (OutputPath cfg) "console"
    else cfg in
  New cfg w.

End Building.

End logger.

(** ** Package response *)

Module response.

Record SuccessResponse : Type := mkSuccess {
  Success_Data : go.any;
  Success_RequestID : string
}.

Record ErrorDetail : Type := mkErrorDetail {
  Code : string;
  Message : string;
  Details : go.any
}.

Record ErrorResponse : Type := mkError {
  Error_Error : ErrorDetail;
  Error_RequestID : string
}.

Record PaginationMeta : Type := mkMeta {
  Page : Z;
  PerPage : Z;
  Total : Z;
  TotalPages : Z
}.

Record PaginatedResponse : Type := mkPaginated {
  Data : go.any;
  Pagination : PaginationMeta;
  RequestID : string
}.

(** The objects this package hands to [c.JSON]. *)
Inductive Body : Type :=
| SuccessBody (r : SuccessResponse)
| ErrorBody (r : ErrorResponse)
| PaginatedBody (r : PaginatedResponse).

Section Helpers.
Context {W : Type} `{Platform W}.

Definition getRequestID (c : gin.Context Body) (w : W) : string * W :=
  match gin.Get c "request_id" with
  | Some requestID =>
      match go.as_string requestID with
      | Some id => (id, w)
      | None => uuid_NewString w
      end
  | None => uuid_NewString w
  end.

(** [Paginated(c, data, page, perPage, total)]; [page] and [perPage] are
    [int], [total] is [int64]. *)
Definition Paginated (c : gin.Context Body) (data : go.any)
    (page perPage : Z) (total : Z) (w : W)
  : go.outcome (gin.Context Body * W) :=
  totalPages ← go.quo (go.int total) perPage;
  remainder ← go.rem (go.int total) perPage;
  let totalPages := if 0 <? remainder then go.incr totalPages else totalPages in
  let '(requestID, w) := getRequestID c w in
  mret
    (gin.JSON c 200
       (PaginatedBody
          (mkPaginated data (mkMeta page perPage total totalPages) requestID)),
     w).

(** The [totalPages] field of the response [Paginated] wrote, if any. *)
Definition totalPages_of (r : go.outcome (gin.Context Body * W)) : option Z :=
  match r with
  | go.Returned (c, _) =>
      match gin.reply c with
      | Some (PaginatedBody p) => Some (TotalPages (Pagination p))
      | _ => None
      end
  | go.Panicked _ => None
  end.

End Helpers.

(** Ceiling of [total / perPage], in the spec's words: the rational
    quotient rounded up, i.e. the least [n] with [total <= n * perPage]. *)
Definition ceiling_div (total perPage : Z) : Z := - ((- total) / perPage).

Section Envelopes.
Context {W : Type} {platform : Platform W}.

Definition Success (c : gin.Context Body) (statusCode : Z) (data : go.any)
    (w : W) : gin.Context Body * W :=
  let '(requestID, w) := getRequestID c w in
  (gin.JSON c statusCode (SuccessBody (mkSuccess data requestID)), w).

Definition OK (c : gin.Context Body) (data : go.any) (w : W)
  : gin.Context Body * W := Success c 200 data w.

Definition Created (c : gin.Context Body) (data : go.any) (w : W)
  : gin.Context Body * W := Success c 201 data w.

Definition NoContent (c : gin.Context Body) : gin.Context Body :=
  gin.Status c 204.

(** [Details] is left out of [Error]'s literal, so it is [nil]. *)
Definition Error (c : gin.Context Body) (statusCode : Z) (code message : string)
    (w : W) : gin.Context Body * W :=
  let '(requestID, w) := getRequestID c w in
  (gin.JSON c statusCode
     (ErrorBody (mkError (mkErrorDetail code message go.any_nil) requestID)), w).

Definition ErrorWithDetails (c : gin.Context Body) (statusCode : Z)
    (code message : string) (details : go.any) (w : W)
  : gin.Context Body * W :=
  let '(requestID, w) := getRequestID c w in
  (gin.JSON c statusCode
     (ErrorBody (mkError (mkErrorDetail code message details) requestID)), w).

Definition BadRequest (c : gin.Context Body) (message : string) (w : W)
  : gin.Context Body * W := Error c 400 "BAD_REQUEST" message w.

Definition Unauthorized (c : gin.Context Body) (message : string) (w : W)
  : gin.Context Body * W := Error c 401 "UNAUTHORIZED" message w.

Definition Forbidden (c : gin.Context Body) (message : string) (w : W)
  : gin.Context Body * W := Error c 403 "FORBIDDEN" message w.

Definition NotFound (c : gin.Context Body) (message : string) (w : W)
  : gin.Context Body * W := Error c 404 "NOT_FOUND" message w.

Definition Conflict (c : gin.Context Body) (message : string) (w : W)
  : gin.Context Body * W := Error c 409 "CONFLICT" message w.

Definition InternalError (c : gin.Context Body) (message : string) (w : W)
  : gin.Context Body * W := Error c 500 "INTERNAL_ERROR" message w.

End Envelopes.

(** The [requestId] of an envelope. *)
Definition requestId (b : Body) : string :=
  match b with
  | SuccessBody r => Success_RequestID r
  | ErrorBody r => Error_RequestID r
  | PaginatedBody r => RequestID r
  end.

End response.

(** ** Package health *)

Module health.

Definition Status : Type := string.

Definition StatusHealthy : Status := "healthy".
Definition StatusUnhealthy : Status := "unhealthy".
Definition StatusDegraded : Status := "degraded".

Module ComponentCheck.
Record t : Type := mk {
  Status : health.Status;
  Message : string;
  Latency : string
}.
End ComponentCheck.

Module HealthResponse.
(** A nil [Checks] map and an empty one are both [∅]: the field is
    [omitempty]. *)
Record t : Type := mk {
  Status : health.Status;
  Timestamp : string;
  Checks : gmap string ComponentCheck.t
}.
End HealthResponse.

(** [context.Context], as far as the probes use it: a deadline. *)
Record context : Type := mkContext { deadline : option Z }.

Definition WithTimeout (parent : option Z) (timeout now : Z) : context :=
  match parent with
  | Some d => mkContext (Some (Z.min d (now + timeout)))
  | None => mkContext (Some (now + timeout))
  end.

(** A Go [error] value, by the text [err.Error()] returns. *)
Record error : Type := mkError { Error : string }.

Section Probes.
Context {W : Type} `{Platform W}.

(** The [Checker] interface: a value with the two methods. *)
Record Checker : Type := mkChecker {
  Name : string;
  Check : context -> W -> ComponentCheck.t * W
}.

(** The registry.  The [sync.RWMutex] serialises [AddChecker] against the
    snapshot [ReadyHandler] takes; in this sequential embedding a handler
    sees the list as it is when the request arrives. *)
Record Handler : Type := mkHandler { checkers : list Checker }.

Definition NewHandler : Handler := mkHandler [].

Definition AddChecker (h : Handler) (checker : Checker) : Handler :=
  mkHandler (checkers h ++ [checker]).

Definition HealthHandler (h : Handler)
    (c : gin.Context HealthResponse.t) (w : W)
  : gin.Context HealthResponse.t * W :=
  (gin.JSON c 200
     (HealthResponse.mk StatusHealthy (Format_RFC3339 (time_Now w)) ∅),
   w).

(** One round of the loop in [ReadyHandler]. *)
Definition escalate (overallStatus : Status) (check : ComponentCheck.t) : Status :=
  if decide (ComponentCheck.Status check = StatusUnhealthy) then StatusUnhealthy
  else if decide (ComponentCheck.Status check = StatusDegraded
                  ∧ overallStatus = StatusHealthy) then StatusDegraded
  else overallStatus.

(** [for _, checker := range checkers { ... }] *)
Fixpoint runCheckers (checkers : list Checker) (ctx : context)
    (checks : gmap string ComponentCheck.t) (overallStatus : Status) (w : W)
  : gmap string ComponentCheck.t * Status * W :=
  match checkers with
  | [] => (checks, overallStatus, w)
  | checker :: rest =>
      let '(check, w) := Check checker ctx w in
      let checks := <[Name checker := check]> checks in
      runCheckers rest ctx checks (escalate overallStatus check) w
  end.

Definition ReadyHandler (h : Handler)
    (c : gin.Context HealthResponse.t) (w : W)
  : gin.Context HealthResponse.t * W :=
  let checkers := checkers h in
  let ctx := WithTimeout (gin.Deadline (gin.Request_ c)) (5 * time.Second) (time_Now w) in
  let '(checks, overallStatus, w) := runCheckers checkers ctx ∅ StatusHealthy w in
  let statusCode :=
    if decide (overallStatus = StatusUnhealthy) then 503 else 200 in
  (gin.JSON c statusCode
     (HealthResponse.mk overallStatus (Format_RFC3339 (time_Now w)) checks),
   w).

(** [*sql.DB] and [*gorm.DB], by the two calls the checker makes. *)
Record sql_DB : Type := mkSqlDB {
  PingContext : context -> W -> option error * W
}.

Record gorm_DB : Type := mkGormDB {
  DB : W -> (error + sql_DB) * W
}.

Record DatabaseChecker : Type := NewDatabaseChecker { db : gorm_DB }.

Definition DatabaseChecker_Name (d : DatabaseChecker) : string := "database".

Definition DatabaseChecker_Check (d : DatabaseChecker) (ctx : context) (w : W)
  : ComponentCheck.t * W :=
  let start := time_Now w in
  let '(r, w) := DB (db d) w in
  match r with
  | inl err =>
      (ComponentCheck.mk StatusUnhealthy
         ("Failed to get database connection: " +:+ Error err) "", w)
  | inr sqlDB =>
      let '(err, w) := PingContext sqlDB ctx w in
      match err with
      | Some err =>
          (ComponentCheck.mk StatusUnhealthy
             ("Database ping failed: " +:+ Error err) "", w)
      | None =>
          (ComponentCheck.mk StatusHealthy "Database connection OK"
             (Duration_String (time_Now w - start)), w)
      end
  end.

Record RedisChecker : Type := NewRedisChecker {
  pingFunc : context -> W -> option error * W
}.

Definition RedisChecker_Name (r : RedisChecker) : string := "redis".

Definition RedisChecker_Check (r : RedisChecker) (ctx : context) (w : W)
  : ComponentCheck.t * W :=
  let start := time_Now w in
  let '(err, w) := pingFunc r ctx w in
  match err with
  | Some err =>
      (ComponentCheck.mk StatusUnhealthy
         ("Redis ping failed: " +:+ Error err) "", w)
  | None =>
      (ComponentCheck.mk StatusHealthy "Redis connection OK"
         (Duration_String (time_Now w - start)), w)
  end.

(** The two checkers as values of the interface. *)
Definition DatabaseChecker_Checker (d : DatabaseChecker) : Checker :=
  mkChecker (DatabaseChecker_Name d) (DatabaseChecker_Check d).

Definition RedisChecker_Checker (r : RedisChecker) : Checker :=
  mkChecker (RedisChecker_Name r) (RedisChecker_Check r).

(** The checks the registered checkers report during one probe, in
    registration order, each run in the world its predecessors left. *)
Fixpoint reports (checkers : list Checker) (ctx : context) (w : W)
  : list ComponentCheck.t :=
  match checkers with
  | [] => []
  | checker :: rest =>
      let '(check, w) := Check checker ctx w in
      check :: reports rest ctx w
  end.

(** The world the next checker runs in. *)
Fixpoint world_after (checkers : list Checker) (ctx : context) (w : W) : W :=
  match checkers with
  | [] => w
  | checker :: rest => world_after rest ctx (snd (Check checker ctx w))
  end.

(** The context [ReadyHandler] hands to every checker. *)
Definition probe_context (c : gin.Context HealthResponse.t) (w : W) : context :=
  WithTimeout (gin.Deadline (gin.Request_ c)) (5 * time.Second) (time_Now w).

(** The statuses [S1..Sn] the registered checkers report to the probe that
    serves [c] in world [w]. *)
Definition reported_statuses (h : Handler)
    (c : gin.Context HealthResponse.t) (w : W) : list Status :=
  ComponentCheck.Status <$> reports (checkers h) (probe_context c w) w.

(** [errors_with checker ctx w err]: run in world [w], the operation
    under the checker returns the error [err]. *)
Inductive errors_with : Checker -> context -> W -> error -> Prop :=
| connection_error d ctx w err w' :
    DB (db d) w = (inl err, w') ->
    errors_with (DatabaseChecker_Checker d) ctx w err
| database_ping_error d ctx w sqlDB w1 err w2 :
    DB (db d) w = (inr sqlDB, w1) ->
    PingContext sqlDB ctx w1 = (Some err, w2) ->
    errors_with (DatabaseChecker_Checker d) ctx w err
| redis_ping_error r ctx w err w' :
    pingFunc r ctx w = (Some err, w') ->
    errors_with (RedisChecker_Checker r) ctx w err.

End Probes.

Arguments Checker W : clear implicits.
Arguments Handler W : clear implicits.
Arguments sql_DB W : clear implicits.
Arguments gorm_DB W : clear implicits.
Arguments DatabaseChecker W : clear implicits.
Arguments RedisChecker W : clear implicits.

(** *** The severity order of the spec: unhealthy > degraded > healthy *)

Definition known (s : Status) : Prop :=
  s = StatusHealthy ∨ s = StatusDegraded ∨ s = StatusUnhealthy.

Definition severity (s : Status) : nat :=
  if decide (s = StatusUnhealthy) then 2%nat
  else if decide (s = StatusDegraded) then 1%nat
  else 0%nat.

Definition more_severe (a b : Status) : Status :=
  if (severity a <? severity b)%nat then b else a.

(** The most severe of [S1..Sn]; [healthy] when there is none. *)
Definition max_severity (statuses : list Status) : Status :=
  foldr more_severe StatusHealthy statuses.

#[global] Instance known_dec (s : Status) : Decision (known s).
Proof. unfold known. apply _. Defined.

(** [s] contains [sub]. *)
Definition contains (s sub : string) : Prop :=
  ∃ before after, s = before +:+ sub +:+ after.

End health.

(** ** Package middleware: CORS *)

Module middleware.

Record CORSConfig : Type := mkCORSConfig {
  AllowedOrigins : list string;
  AllowedMethods : list string;
  AllowedHeaders : list string;
  ExposedHeaders : list string;
  AllowCredentials : bool;
  MaxAge : Z
}.

Definition DefaultCORSConfig : CORSConfig :=
  mkCORSConfig ["*"]
    ["GET"; "POST"; "PUT"; "PATCH"; "DELETE"; "OPTIONS"]
    ["Origin"; "Content-Type"; "Accept"; "Authorization"; "X-Request-ID";
     "X-Workspace-Id"]
    ["X-Request-ID"] true 86400.

(** [for _, allowed := range origins { if allowed == origin { ...; break } }] *)
Fixpoint listed (origins : list string) (origin : string) : bool :=
  match origins with
  | [] => false
  | allowed :: rest => if decide (allowed = origin) then true else listed rest origin
  end.

Section CORS.
Context {B W : Type}.

Definition CORS (config : CORSConfig) : gin.HandlerFunc B W :=
  fun next s =>
    let '(c, w) := s in
    let origin := gin.Header_Get (gin.Header (gin.Request_ c)) "Origin" in
    let allowOrigin :=
      match AllowedOrigins config with
      | first :: _ =>
          if decide (first = "*") then
            if decide (origin = "") then "*" else origin
          else if listed (AllowedOrigins config) origin then origin else "*"
      | [] => if decide (origin = "") then "*" else origin
      end in
    let c := gin.SetHeader c "Access-Control-Allow-Origin" allowOrigin in
    let c := gin.SetHeader c "Access-Control-Allow-Methods"
               (strings.Join (AllowedMethods config) ", ") in
    let c := gin.SetHeader c "Access-Control-Allow-Headers"
               (strings.Join (AllowedHeaders config) ", ") in
    let c := gin.SetHeader c "Access-Control-Expose-Headers"
               (strings.Join (ExposedHeaders config) ", ") in
    let c := if AllowCredentials config
             then gin.SetHeader c "Access-Control-Allow-Credentials" "true"
             else c in
    if decide (gin.Method (gin.Request_ c) = "OPTIONS") then
      (gin.AbortWithStatus c 204, w)
    else next (c, w).

Definition DefaultCORS : gin.HandlerFunc B W := CORS DefaultCORSConfig.

End CORS.

Section CORSWithOrigins.
Context {B W : Type}.

(** [CORSWithOrigins(origins)]: a comma-separated allow-list. *)
Definition CORSWithOrigins (origins : string) : gin.HandlerFunc B W :=
  let config := DefaultCORSConfig in
  let config :=
    if decide (origins ≠ "" ∧ origins ≠ "*") then
      mkCORSConfig (strings.TrimSpace <$> strings.Split origins ",")
        (AllowedMethods config) (AllowedHeaders config) (ExposedHeaders config)
        (AllowCredentials config) (MaxAge config)
    else config in
  CORS config.

End CORSWithOrigins.

(** A configuration answers to every origin when it has no allow-list or
    its allow-list starts with the wildcard. *)
Definition open_to_all (config : CORSConfig) : Prop :=
  match AllowedOrigins config with
  | [] => True
  | first :: _ => first = "*"
  end.

(** The response headers the CORS middleware sets. *)
Definition CORS_headers : list string :=
  ["Access-Control-Allow-Origin"; "Access-Control-Allow-Methods";
   "Access-Control-Allow-Headers"; "Access-Control-Expose-Headers";
   "Access-Control-Allow-Credentials"].


#[global] Instance open_to_all_dec config : Decision (open_to_all config).
Proof. unfold open_to_all. destruct (AllowedOrigins config); apply _. Defined.

(** [differs_in_headers keys c c']: [c'] is [c] but for the response
    headers among [keys]. *)
Definition differs_in_headers {B : Type} (keys : list string)
    (c c' : gin.Context B) : Prop :=
  gin.Request_ c' = gin.Request_ c ∧ gin.index c' = gin.index c
  ∧ gin.Keys c' = gin.Keys c
  ∧ gin.status (gin.Writer c') = gin.status (gin.Writer c)
  ∧ gin.written (gin.Writer c') = gin.written (gin.Writer c)
  ∧ gin.body (gin.Writer c') = gin.body (gin.Writer c)
  ∧ ∀ key, key ∉ keys ->
      gin.header (gin.Writer c') !! key = gin.header (gin.Writer c) !! key.


(** *** Request logging *)

Definition RequestIDKey : string := "request_id".

Section Logging.
Context {B W : Type} {platform : Platform W} {details : gin.Details B}.

Definition Logger (logger : zap.Logger W) : gin.HandlerFunc B W :=
  fun next s =>
    let '(c, w) := s in
    let '(requestID, w) := uuid_NewString w in
    let c := gin.Set_ c RequestIDKey (go.any_string requestID) in
    let c := gin.SetHeader c "X-Request-ID" requestID in
    let start := time_Now w in
    let path := gin.URL_Path (gin.Request_ c) in
    let query := gin.URL_RawQuery (gin.Request_ c) in
    let '(c, w) := next (c, w) in
    let duration := time_Now w - start in
    let statusCode := gin.status (gin.Writer c) in
    let fields :=
      [("request_id", go.any_string requestID);
       ("method", go.any_string (gin.Method (gin.Request_ c)));
       ("path", go.any_string path);
       ("query", go.any_string query);
       ("status", go.any_int statusCode);
       ("duration", go.any_int duration);
       ("client_ip", go.any_string (gin.ClientIP c));
       ("user_agent",
        go.any_string (gin.Header_Get (gin.Header (gin.Request_ c)) "User-Agent"));
       ("body_size", go.any_int (gin.Size (gin.Writer c)))] in
    let fields :=
      match gin.Get c "user_id" with
      | Some userID => (fields ++ [("user_id", userID)])%list
      | None => fields
      end in
    let fields :=
      match gin.Errors c with
      | [] => fields
      | errors =>
          (fields ++ [("error", go.any_string (gin.Errors_String errors))])%list
      end in
    if 500 <=? statusCode then (c, zap.Error logger "Server error" fields w)
    else if 400 <=? statusCode then (c, zap.Warn logger "Client error" fields w)
    else (c, zap.Info logger "Request completed" fields w).

(** [skipMap[path]] of a [map[string]bool]: [false] for a missing key. *)
Definition SkipPathLogger (logger : zap.Logger W) (skipPaths : list string)
  : gin.HandlerFunc B W :=
  let skipMap : gmap string bool :=
    foldl (fun m path => <[path := true]> m) ∅ skipPaths in
  fun next s =>
    let path := gin.URL_Path (gin.Request_ (fst s)) in
    if default false (skipMap !! path) then next s
    else Logger logger next s.

Definition GetRequestID (c : gin.Context B) (w : W) : string * W :=
  match gin.Get c RequestIDKey with
  | Some requestID =>
      match go.as_string requestID with
      | Some id => (id, w)
      | None => uuid_NewString w
      end
  | None => uuid_NewString w
  end.

End Logging.


(** *** Recovery *)

(** [runtime/debug.Stack()] *)
Class Runtime (W : Type) : Type := {
  debug_Stack : W -> string
}.

Section Recovering.
Context {W : Type} {platform : Platform W} {runtime : Runtime W}
  {details : gin.Details go.any}.

(** [gin.H] and [map[string]interface{}] are rendered with their keys in
    order; the fields below are in that order. *)
Definition internal_error (requestID : string) : go.any :=
  go.any_struct
    [("error",
      go.any_struct [("code", go.any_string "INTERNAL_ERROR");
                     ("message", go.any_string "Internal server error")]);
     ("requestId", go.any_string requestID)].

(** The deferred function runs when [c.Next()] panicked, on the context
    and the world as the panic left them; [value] is what [recover()]
    returns.  When that is [nil] the panic is swallowed and nothing is
    answered. *)
Definition Recovery (logger : zap.Logger W) : gin.PanickingFunc go.any W :=
  fun next s =>
    match next s with
    | gin.Done s' => gin.Done s'
    | gin.Panic go.any_nil s' => gin.Done s'
    | gin.Panic err (c, w) =>
        let '(requestID, w) := GetRequestID c w in
        let w :=
          zap.Error logger "Panic recovered"
            [("request_id", go.any_string requestID);
             ("error", err);
             ("stack", go.any_string (debug_Stack w));
             ("path", go.any_string (gin.URL_Path (gin.Request_ c)));
             ("method", go.any_string (gin.Method (gin.Request_ c)))] w in
        gin.Done (gin.AbortWithStatusJSON c 500 (internal_error requestID), w)
    end.

End Recovering.

(** *** Metrics *)

(** The package's collectors by their label values (method, path, status):
    the counter [httpRequestsTotal], the observations of the histogram
    [httpRequestDuration] in the order they were made (as nanoseconds; the
    code observes them in seconds), and the gauge [httpRequestsInFlight]. *)
Record Collectors : Type := mkCollectors {
  httpRequestsTotal : gmap (string * string * string) Z;
  httpRequestDuration : gmap (string * string * string) (list Z);
  httpRequestsInFlight : Z
}.

Definition Gauge_Inc (m : Collectors) : Collectors :=
  mkCollectors (httpRequestsTotal m) (httpRequestDuration m)
    (httpRequestsInFlight m + 1).

Definition Gauge_Dec (m : Collectors) : Collectors :=
  mkCollectors (httpRequestsTotal m) (httpRequestDuration m)
    (httpRequestsInFlight m - 1).

(** [httpRequestsTotal.WithLabelValues(...).Inc()] *)
Definition Counter_Inc (labels : string * string * string) (m : Collectors)
  : Collectors :=
  mkCollectors
    (<[labels := default 0 (httpRequestsTotal m !! labels) + 1]>
       (httpRequestsTotal m))
    (httpRequestDuration m) (httpRequestsInFlight m).

(** [httpRequestDuration.WithLabelValues(...).Observe(duration)] *)
Definition Histogram_Observe (labels : string * string * string) (value : Z)
    (m : Collectors) : Collectors :=
  mkCollectors (httpRequestsTotal m)
    (<[labels := (default [] (httpRequestDuration m !! labels) ++ [value])%list]>
       (httpRequestDuration m))
    (httpRequestsInFlight m).

Definition normalizePath (path : string) : string :=
  if decide (path = "") then "unknown" else path.

Section Measuring.
Context {B W : Type} {platform : Platform W} {details : gin.Details B}.

(** The collectors are part of the world a handler acts on. *)
Definition Metrics : gin.PanickingFunc B (Collectors * W) :=
  fun next s =>
    let '(c, (m, w)) := s in
    if decide (gin.URL_Path (gin.Request_ c) = "/metrics") then next s
    else
      let m := Gauge_Inc m in
      let start := time_Now w in
      match next (c, (m, w)) with
      | gin.Panic value s' => gin.Panic value s'
      | gin.Done (c, (m, w)) =>
          let m := Gauge_Dec m in
          let duration := time_Now w - start in
          let status := strconv.Itoa (gin.status (gin.Writer c)) in
          let path := normalizePath (gin.FullPath c) in
          let path :=
            if decide (path = "") then gin.URL_Path (gin.Request_ c) else path in
          let m := Counter_Inc (gin.Method (gin.Request_ c), path, status) m in
          let m :=
            Histogram_Observe (gin.Method (gin.Request_ c), path, status)
              duration m in
          gin.Done (c, (m, w))
      end.

End Measuring.


(** Logging, the clock, the identifiers and the stack trace have nothing to
    do with the collectors: a logger and the platform of a world [W] serve
    the world that holds the collectors beside [W]. *)
Section Beside.
Context {W : Type}.

Definition logger_beside (logger : zap.Logger W) : zap.Logger (Collectors * W) :=
  zap.mkLogger (fun entry s => (fst s, zap.write logger entry (snd s))).

Definition platform_beside (platform : Platform W) : Platform (Collectors * W) := {|
  time_Now := fun s => time_Now (snd s);
  Format_RFC3339 := Format_RFC3339;
  Duration_String := Duration_String;
  uuid_NewString := fun s =>
    let '(id, w) := uuid_NewString (snd s) in (id, (fst s, w))
|}.

Definition runtime_beside (runtime : Runtime W) : Runtime (Collectors * W) := {|
  debug_Stack := fun s => debug_Stack (snd s)
|}.

End Beside.

End middleware.

(** ** Concrete inputs the properties are exercised on *)

Module sample.

Definition request (method : string) : gin.Request := gin.mkRequest method ∅ None.

(** A checker that always reports [status]; every check costs a tick. *)
Definition constant_checker (name : string) (status : health.Status)
  : health.Checker Z :=
  health.mkChecker name (fun _ w => (health.ComponentCheck.mk status "" "", w + 1)).

Definition registry : health.Handler Z :=
  health.AddChecker
    (health.AddChecker
       (health.AddChecker health.NewHandler
          (constant_checker "cache" health.StatusHealthy))
       (constant_checker "queue" health.StatusDegraded))
    (constant_checker "store" health.StatusUnhealthy).

Definition refused : health.error := health.mkError "connection refused".

Definition redis_down : health.RedisChecker Z :=
  health.NewRedisChecker (fun _ w => (Some refused, w + 1)).

(** Only [DATABASE_URL] is set. *)
Definition url_env : gmap string string :=
  {[ "DATABASE_URL" := config.example_DATABASE_URL ]}.

(** [DATABASE_URL] and all five individual variables are set. *)
Definition full_env : gmap string string :=
  <["DB_HOST" := "db.internal"]>
    (<["DB_PORT" := "6432"]>
       (<["DB_USER" := "svc"]>
          (<["DB_PASSWORD" := "s3cret"]>
             (<["DB_NAME" := "orders"]> url_env)))).

Definition yaml_document : string := "{database: {host: a}}".

(** A machine with [config.yaml] and [DB_HOST] set to [b]. *)
Definition machine (b : string) : os.OS :=
  os.mkOS {[ "DB_HOST" := b ]} {[ "config.yaml" := yaml_document ]}.

(** A handler behind the CORS middleware: it answers and leaves a mark on
    the world. *)
Definition downstream : gin.HandlerFunc string Z :=
  fun next s => (gin.JSON s.1 200 "handled", s.2 + 1).

(** A connection URL with an IPv6 literal for a host. *)
Definition ipv6_DATABASE_URL : string := "postgres://u@[::1]:5432/db".

(** Two checkers registered under one name: the first reports unhealthy,
    the second healthy. *)
Definition same_name_twice : health.Handler Z :=
  health.mkHandler
    [constant_checker "db" health.StatusUnhealthy;
     constant_checker "db" health.StatusHealthy].

(** The sample registry, registered the other way round. *)
Definition registry_reversed : health.Handler Z :=
  health.mkHandler (rev (health.checkers registry)).


(** A request's details, for requests that matched a route [/items]. *)
Definition details {B : Type} : gin.Details B := {|
  gin.URL_Path := fun _ => "/items";
  gin.URL_RawQuery := fun _ => "";
  gin.FullPath := fun _ => "/items";
  gin.ClientIP := fun _ => "192.0.2.1";
  gin.Size := fun w => Z.of_nat (length (gin.body w));
  gin.Errors := fun _ => [];
  gin.Errors_String := fun _ => ""
|}.

Definition runtime : middleware.Runtime Z := {|
  middleware.debug_Stack := fun _ => "goroutine 1 [running]"
|}.

(** A logger whose every entry costs a tick. *)
Definition ticking : zap.Logger Z := zap.mkLogger (fun _ w => w + 1).

(** A handler that panics as soon as it is called. *)
Definition boom {W : Type} : gin.PanickingFunc go.any W :=
  fun _ s => gin.Panic (go.any_string "boom") s.

(** A handler that answers and returns. *)
Definition answering {W : Type} : gin.PanickingFunc go.any W :=
  fun _ s => gin.Done (gin.JSON s.1 200 (go.any_string "handled"), s.2).


(** An environment that sets none of the variables the loader reads. *)
Definition unrelated_env : gmap string string := {[ "HOME" := "/root" ]}.

(** An allow-list as it is written in a deployment, with blanks; the third
    entry starts with a no-break space (U+00A0, the bytes 194 and 160). *)
Definition allow_list : list string :=
  [" https://a.example"; "https://b.example ";
   String (strings.chr 194) (String (strings.chr 160) "https://c.example")].


(** Collectors that have seen no request. *)
Definition no_metrics : middleware.Collectors := middleware.mkCollectors ∅ ∅ 0.

(** Opening a file succeeds and costs a tick. *)
Definition files : logger.Files Z := {|
  logger.os_OpenFile := fun _ w => (None, w + 1)
|}.

(** A development machine that also asks for JSON logs. *)
Definition dev_env : gmap string string :=
  <["ENV" := "dev"]> {[ "LOG_FORMAT" := "json" ]}.


(** The sample registry without its unhealthy checker. *)
Definition registry_without_store : health.Handler Z :=
  health.mkHandler
    [constant_checker "cache" health.StatusHealthy;
     constant_checker "queue" health.StatusDegraded].

End sample.

(** * Verified properties *)

(** ** Go integers *)

Lemma int_of_int (x : Z) : go.is_int x -> go.int x = x.
Proof.
  unfold go.is_int, go.MinInt, go.MaxInt, go.int, go.wrap, go.int_bits.
  intros Hx. rewrite Z.mod_small; lia.
Qed.

Lemma int_of_int64 (x : Z) : go.is_int64 x -> go.int x = x.
Proof. intros Hx. apply int_of_int. exact Hx. Qed.

Lemma string_app_empty_r (s : string) : s +:+ "" = s.
Proof.
  induction s as [|a s IH]; [reflexivity|].
  change (String a (s +:+ "") = String a s). rewrite IH. reflexivity.
Qed.

(** ** gin's response writer *)

Section GinWriter.
Context {B : Type}.
Implicit Types (c : gin.Context B) (obj : B).

Lemma JSON_reply c code obj :
  gin.bodyAllowedForStatus code = true ->
  gin.reply (gin.JSON c code obj) = Some obj.
Proof.
  intros Hallowed. unfold gin.reply, gin.JSON. rewrite Hallowed. simpl.
  apply last_snoc.
Qed.

Lemma writeContentType_status (w : gin.ResponseWriter B) value :
  gin.status (gin.writeContentType w value) = gin.status w.
Proof.
  unfold gin.writeContentType.
  destruct (gin.header w !! "Content-Type") as [[|? ?]|]; reflexivity.
Qed.

Lemma WriteHeaderNow_status (w : gin.ResponseWriter B) :
  gin.status (gin.WriteHeaderNow w) = gin.status w.
Proof. unfold gin.WriteHeaderNow. destruct (gin.written w); reflexivity. Qed.

Lemma WriteHeaderNow_written (w : gin.ResponseWriter B) :
  gin.written (gin.WriteHeaderNow w) = true.
Proof. unfold gin.WriteHeaderNow. destruct (gin.written w) eqn:Hw; done. Qed.

Lemma WriteHeaderNow_body (w : gin.ResponseWriter B) :
  gin.body (gin.WriteHeaderNow w) = gin.body w.
Proof. unfold gin.WriteHeaderNow. destruct (gin.written w); reflexivity. Qed.

Lemma WriteHeader_body (w : gin.ResponseWriter B) code :
  gin.body (gin.WriteHeader w code) = gin.body w.
Proof.
  unfold gin.WriteHeader.
  destruct (_ && _); [destruct (gin.written w)|]; reflexivity.
Qed.

Lemma WriteHeader_status (w : gin.ResponseWriter B) code :
  gin.written w = false -> 0 < code ->
  gin.status (gin.WriteHeader w code) = code.
Proof.
  intros Hfresh Hpos. unfold gin.WriteHeader. rewrite Hfresh.
  destruct (Z.ltb_spec 0 code); [|lia].
  destruct (Z.eqb_spec (gin.status w) code); simpl; congruence.
Qed.

Lemma JSON_code c code obj :
  gin.written (gin.Writer c) = false -> 0 < code ->
  gin.code (gin.JSON c code obj) = code.
Proof.
  intros Hfresh Hpos. unfold gin.code, gin.JSON.
  destruct (gin.bodyAllowedForStatus code); simpl;
    rewrite ?WriteHeaderNow_status, writeContentType_status;
    apply WriteHeader_status; assumption.
Qed.

End GinWriter.

(** ** Package response: pagination *)

Section Pagination.
Context {W : Type} `{Platform W}.

(** [ceiling_div] is the ceiling: the least multiple count covering [total]. *)
Lemma ceiling_div_spec (total perPage : Z) :
  0 < perPage ->
  perPage * (response.ceiling_div total perPage - 1) < total
  <= perPage * response.ceiling_div total perPage.
Proof.
  intros Hpos. unfold response.ceiling_div.
  pose proof (Z.div_mod (- total) perPage ltac:(lia)) as Hdm.
  pose proof (Z.mod_pos_bound (- total) perPage Hpos) as Hb.
  nia.
Qed.

Lemma ceiling_div_unique (total perPage n : Z) :
  0 < perPage ->
  perPage * (n - 1) < total <= perPage * n ->
  n = response.ceiling_div total perPage.
Proof.
  intros Hpos Hn. pose proof (ceiling_div_spec total perPage Hpos) as Hc.
  nia.
Qed.

Lemma Paginated_returns c data page perPage total (w : W) :
  perPage ≠ 0 ->
  response.Paginated c data page perPage total w =
  let q := go.int (Z.quot (go.int total) perPage) in
  let r := go.int (Z.rem (go.int total) perPage) in
  let totalPages := if 0 <? r then go.incr q else q in
  let '(requestID, w') := response.getRequestID c w in
  go.Returned
    (gin.JSON c 200
       (response.PaginatedBody
          (response.mkPaginated data
             (response.mkMeta page perPage total totalPages) requestID)),
     w').
Proof.
  intros Hnz. unfold response.Paginated, go.quo, go.rem.
  destruct (Z.eqb_spec perPage 0); [contradiction|]. reflexivity.
Qed.

(** C7: for [perPage > 0] and [total >= 0] (both in the range of their Go
    types) the response [Paginated] writes carries
    [totalPages = ceiling (total / perPage)], the least [n] with
    [total <= n * perPage]. *)
Theorem Paginated_totalPages_is_ceiling c data page perPage total (w : W) :
  0 < perPage -> go.is_int perPage ->
  0 <= total -> go.is_int64 total ->
  response.totalPages_of (response.Paginated c data page perPage total w)
    = Some (response.ceiling_div total perPage)
  ∧ perPage * (response.ceiling_div total perPage - 1) < total
    <= perPage * response.ceiling_div total perPage.
Proof.
  intros Hpos HperPage Htotal Htotal64.
  split; [|apply ceiling_div_spec; assumption].
  rewrite Paginated_returns by lia. simpl.
  destruct (response.getRequestID c w) as [requestID w'].
  unfold response.totalPages_of.
  rewrite JSON_reply by reflexivity. simpl. f_equal.
  rewrite (int_of_int64 total Htotal64).
  assert (Hq : 0 <= Z.quot total perPage <= total).
  { split; [apply Z.quot_pos; lia|].
    rewrite Z.quot_div_nonneg by lia.
    apply Z.div_le_upper_bound; nia. }
  assert (Hr : 0 <= Z.rem total perPage < perPage)
    by (apply Z.rem_bound_pos; lia).
  assert (Hqr : total = perPage * Z.quot total perPage + Z.rem total perPage)
    by (apply Z.quot_rem'; lia).
  unfold go.is_int, go.is_int64, go.MinInt, go.MaxInt, go.MinInt64,
    go.MaxInt64, go.int_bits in *.
  rewrite !int_of_int
    by (unfold go.is_int, go.MinInt, go.MaxInt, go.int_bits; lia).
  apply ceiling_div_unique; [assumption|].
  destruct (Z.ltb_spec 0 (Z.rem total perPage)).
  - unfold go.incr. rewrite int_of_int
      by (unfold go.is_int, go.MinInt, go.MaxInt, go.int_bits; nia).
    nia.
  - nia.
Qed.

(** C9: [Paginated] panics with an integer division by zero exactly when
    [perPage = 0]; with [perPage ≠ 0] it returns. *)
Theorem Paginated_panics_iff_perPage_zero c data page perPage total (w : W) :
  (response.Paginated c data page perPage total w
     = go.Panicked go.divide_error ↔ perPage = 0)
  ∧ ((∃ s, response.Paginated c data page perPage total w = go.Returned s)
     ↔ perPage ≠ 0).
Proof.
  destruct (decide (perPage = 0)) as [->|Hnz].
  - assert (Hp : response.Paginated c data page 0 total w
                 = go.Panicked go.divide_error) by reflexivity.
    split; split; try done.
    intros [s Hs]. rewrite Hp in Hs. discriminate.
  - rewrite Paginated_returns by assumption. simpl.
    destruct (response.getRequestID c w) as [requestID w'].
    split; split; try done. eauto.
Qed.

End Pagination.

(** ** Package health: the severity order *)

Lemma more_severe_known (a b : health.Status) :
  health.known a -> health.known b -> health.known (health.more_severe a b).
Proof.
  intros Ha Hb. unfold health.more_severe.
  destruct (health.severity a <? health.severity b)%nat; assumption.
Qed.

Lemma max_severity_known (statuses : list health.Status) :
  Forall health.known statuses -> health.known (health.max_severity statuses).
Proof.
  induction 1 as [|s statuses Hs _ IH]; simpl.
  - left. reflexivity.
  - apply more_severe_known; assumption.
Qed.

(** [max_severity] bounds every status of the list from above ... *)
Lemma max_severity_upper_bound (statuses : list health.Status) (s : health.Status) :
  s ∈ statuses ->
  (health.severity s <= health.severity (health.max_severity statuses))%nat.
Proof.
  induction statuses as [|s' statuses IH]; intros Hin.
  - inversion Hin.
  - simpl. unfold health.more_severe at 1.
    destruct (Nat.ltb_spec (health.severity s')
                (health.severity (health.max_severity statuses)));
      apply elem_of_cons in Hin as [->|Hin]; try lia;
      specialize (IH Hin); lia.
Qed.

(** ... and is one of them, unless there is none. *)
Lemma max_severity_attained (statuses : list health.Status) :
  statuses ≠ [] -> health.max_severity statuses ∈ statuses.
Proof.
  induction statuses as [|s statuses IH]; [done|intros _].
  simpl. unfold health.more_severe.
  destruct (health.severity s <? health.severity (health.max_severity statuses))%nat
    eqn:Hlt.
  - destruct statuses as [|s' statuses].
    + simpl in Hlt. unfold health.severity at 2 in Hlt. simpl in Hlt.
      apply Nat.ltb_lt in Hlt. lia.
    + right. apply IH. done.
  - left.
Qed.

Section Probes.
Context {W : Type} `{Platform W}.
Implicit Types (h : health.Handler W) (c : gin.Context health.HealthResponse.t)
  (w : W) (ctx : health.context) (checker : health.Checker W).

Lemma escalate_known overall check :
  health.known overall ->
  health.known (health.ComponentCheck.Status check) ->
  health.escalate overall check
  = health.more_severe overall (health.ComponentCheck.Status check).
Proof.
  unfold health.escalate.
  intros [-> | [-> | ->]] [-> | [-> | ->]]; reflexivity.
Qed.

Lemma more_severe_assoc (a b m : health.Status) :
  health.known a -> health.known b -> health.known m ->
  health.more_severe (health.more_severe a b) m
  = health.more_severe a (health.more_severe b m).
Proof. intros [-> | [-> | ->]] [-> | [-> | ->]] [-> | [-> | ->]]; reflexivity. Qed.

(** The loop of [ReadyHandler]: the map of checks, the running overall
    status and the world, in terms of what the checkers report. *)
Lemma runCheckers_overall checkers ctx checks overall w :
  (health.runCheckers checkers ctx checks overall w).1.2
  = foldl health.escalate overall (health.reports checkers ctx w).
Proof.
  revert checks overall w.
  induction checkers as [|checker rest IH]; intros checks overall w; simpl.
  - reflexivity.
  - destruct (health.Check checker ctx w) as [check w']. simpl. apply IH.
Qed.

Lemma runCheckers_world checkers ctx checks overall w :
  (health.runCheckers checkers ctx checks overall w).2
  = health.world_after checkers ctx w.
Proof.
  revert checks overall w.
  induction checkers as [|checker rest IH]; intros checks overall w; simpl.
  - reflexivity.
  - destruct (health.Check checker ctx w) as [check w']. simpl. apply IH.
Qed.

Lemma foldl_escalate_known overall (checks : list health.ComponentCheck.t) :
  health.known overall ->
  Forall health.known (health.ComponentCheck.Status <$> checks) ->
  foldl health.escalate overall checks
  = health.more_severe overall
      (health.max_severity (health.ComponentCheck.Status <$> checks)).
Proof.
  revert overall.
  induction checks as [|check checks IH]; intros overall Ho Hall; simpl.
  - destruct Ho as [-> | [-> | ->]]; reflexivity.
  - apply Forall_cons in Hall as [Hc Hall].
    rewrite IH, escalate_known by
      (try rewrite escalate_known by assumption;
       try apply more_severe_known; assumption).
    apply more_severe_assoc; [assumption..|].
    apply max_severity_known. assumption.
Qed.

(** A status that is none of the three never moves the overall status. *)
Lemma escalate_unknown overall check :
  ¬ health.known (health.ComponentCheck.Status check) ->
  health.escalate overall check = overall.
Proof.
  intros Hunknown. unfold health.escalate, health.known in *.
  repeat case_decide; try reflexivity; exfalso; apply Hunknown;
    destruct_and?; auto.
Qed.

Lemma foldl_escalate_ignores_unknown overall (checks : list health.ComponentCheck.t) :
  foldl health.escalate overall checks
  = foldl health.escalate overall
      (filter (λ check, health.known (health.ComponentCheck.Status check)) checks).
Proof.
  revert overall. induction checks as [|check checks IH]; intros overall; simpl.
  - reflexivity.
  - rewrite filter_cons. case_decide as Hknown; simpl.
    + apply IH.
    + rewrite escalate_unknown by assumption. apply IH.
Qed.

(** The response of a readiness probe, read back from the context. *)
Lemma ReadyHandler_reply h c w :
  let ctx := health.probe_context c w in
  let out := health.runCheckers (health.checkers h) ctx ∅ health.StatusHealthy w in
  gin.reply (health.ReadyHandler h c w).1
  = Some (health.HealthResponse.mk out.1.2
            (Format_RFC3339 (time_Now out.2)) out.1.1).
Proof.
  simpl. unfold health.ReadyHandler. fold (health.probe_context c w).
  destruct (health.runCheckers _ _ _ _ _) as [[checks overall] w']. simpl.
  apply JSON_reply. case_decide; reflexivity.
Qed.

Lemma ReadyHandler_code h c w :
  gin.written (gin.Writer c) = false ->
  let ctx := health.probe_context c w in
  let out := health.runCheckers (health.checkers h) ctx ∅ health.StatusHealthy w in
  gin.code (health.ReadyHandler h c w).1
  = if decide (out.1.2 = health.StatusUnhealthy) then 503 else 200.
Proof.
  intros Hfresh. simpl. unfold health.ReadyHandler.
  fold (health.probe_context c w).
  destruct (health.runCheckers _ _ _ _ _) as [[checks overall] w']. simpl.
  apply JSON_code; [assumption|]. case_decide; lia.
Qed.

(** C1: the overall status of a readiness response is the most severe of
    the statuses [S1..Sn] the registered checkers report, under
    unhealthy > degraded > healthy; for an empty registry it is healthy. *)
Theorem ReadyHandler_overall_is_max_severity h c w :
  Forall health.known (health.reported_statuses h c w) ->
  ∃ r, gin.reply (health.ReadyHandler h c w).1 = Some r
     ∧ health.HealthResponse.Status r
       = health.max_severity (health.reported_statuses h c w)
     ∧ (health.checkers h = [] ->
        health.HealthResponse.Status r = health.StatusHealthy).
Proof.
  intros Hknown. eexists. split; [apply ReadyHandler_reply|].
  simpl. rewrite runCheckers_overall.
  rewrite foldl_escalate_known by (assumption || (left; reflexivity)).
  fold (health.reported_statuses h c w).
  assert (Hmax : health.more_severe health.StatusHealthy
                   (health.max_severity (health.reported_statuses h c w))
                 = health.max_severity (health.reported_statuses h c w)).
  { destruct (max_severity_known _ Hknown) as [-> | [-> | ->]]; reflexivity. }
  split; [exact Hmax|].
  intros Hempty. rewrite Hmax. unfold health.reported_statuses.
  rewrite Hempty. reflexivity.
Qed.

(** Without the assumption on the statuses: those that are none of the
    three count for nothing, and the overall status is the most severe of
    the others. *)
Lemma ReadyHandler_overall_ignores_unknown h c w :
  let reported :=
    health.reports (health.checkers h) (health.probe_context c w) w in
  ∃ r, gin.reply (health.ReadyHandler h c w).1 = Some r
     ∧ health.HealthResponse.Status r
       = health.max_severity
           (health.ComponentCheck.Status
              <$> filter (λ check, health.known (health.ComponentCheck.Status check))
                    reported).
Proof.
  intros reported. eexists. split; [apply ReadyHandler_reply|].
  simpl. rewrite runCheckers_overall. fold reported.
  rewrite foldl_escalate_ignores_unknown.
  assert (Hknown : Forall health.known
            (health.ComponentCheck.Status
               <$> filter (λ check, health.known (health.ComponentCheck.Status check))
                     reported)).
  { apply Forall_fmap, Forall_forall. intros check Hin.
    apply list_elem_of_filter in Hin as [Hknown _]. exact Hknown. }
  rewrite foldl_escalate_known by (assumption || (left; reflexivity)).
  destruct (max_severity_known _ Hknown) as [-> | [-> | ->]]; reflexivity.
Qed.

(** The loop ends in unhealthy exactly when it started there or one of the
    checks is unhealthy. *)
Lemma foldl_escalate_unhealthy overall (checks : list health.ComponentCheck.t) :
  foldl health.escalate overall checks = health.StatusUnhealthy
  ↔ overall = health.StatusUnhealthy
    ∨ health.StatusUnhealthy ∈ health.ComponentCheck.Status <$> checks.
Proof.
  revert overall.
  induction checks as [|check checks IH]; intros overall; cbn [foldl fmap list_fmap].
  - split; [intros Heq; left; exact Heq|].
    intros [Heq | Hin]; [exact Heq|]. apply elem_of_nil in Hin. contradiction.
  - rewrite IH, elem_of_cons. unfold health.escalate.
    destruct (decide (health.ComponentCheck.Status check = health.StatusUnhealthy))
      as [Hbad|Hgood].
    + rewrite Hbad. split; intros _; [right; left; reflexivity|left; reflexivity].
    + assert (Hstep : (if decide (health.ComponentCheck.Status check
                                  = health.StatusDegraded
                                  ∧ overall = health.StatusHealthy)
                       then health.StatusDegraded else overall)
                      = health.StatusUnhealthy
                      ↔ overall = health.StatusUnhealthy).
      { case_decide as Hdegraded; [|reflexivity].
        destruct Hdegraded as [_ ->]. split; discriminate. }
      rewrite Hstep. split.
      * intros [Heq | Hin]; [left; exact Heq|right; right; exact Hin].
      * intros [Heq | [Heq | Hin]];
          [left; exact Heq|symmetry in Heq; contradiction|right; exact Hin].
Qed.

(** C2: a readiness probe answers 503 exactly when the overall status it
    has aggregated is unhealthy, and 200 for every other overall status.
    The overall status is the one the loop over the checkers ends with and
    the response carries; it is unhealthy exactly when one of the registered
    checkers reported unhealthy, so the probe answers 503 exactly then and
    200 when none did. *)
Theorem ReadyHandler_503_iff_unhealthy h c w :
  gin.written (gin.Writer c) = false ->
  ∃ r, gin.reply (health.ReadyHandler h c w).1 = Some r
     ∧ (gin.code (health.ReadyHandler h c w).1 = 503
        ↔ health.HealthResponse.Status r = health.StatusUnhealthy)
     ∧ (health.HealthResponse.Status r ≠ health.StatusUnhealthy ->
        gin.code (health.ReadyHandler h c w).1 = 200)
     ∧ health.HealthResponse.Status r
       = foldl health.escalate health.StatusHealthy
           (health.reports (health.checkers h) (health.probe_context c w) w)
     ∧ (health.HealthResponse.Status r = health.StatusUnhealthy
        ↔ health.StatusUnhealthy ∈ health.reported_statuses h c w)
     ∧ (gin.code (health.ReadyHandler h c w).1 = 503
        ↔ health.StatusUnhealthy ∈ health.reported_statuses h c w)
     ∧ (health.StatusUnhealthy ∉ health.reported_statuses h c w ->
        gin.code (health.ReadyHandler h c w).1 = 200).
Proof.
  intros Hfresh. eexists. split; [apply ReadyHandler_reply|].
  rewrite ReadyHandler_code by assumption. cbn [health.HealthResponse.Status].
  rewrite runCheckers_overall.
  set (reported := health.reports (health.checkers h) (health.probe_context c w) w).
  assert (Hagg : foldl health.escalate health.StatusHealthy reported
                 = health.StatusUnhealthy
                 ↔ health.StatusUnhealthy ∈ health.reported_statuses h c w).
  { rewrite foldl_escalate_unhealthy. unfold health.reported_statuses.
    fold reported. split; [|intros Hin; right; exact Hin].
    intros [Heq | Hin]; [discriminate Heq|exact Hin]. }
  split; [|split; [|split; [reflexivity|split; [exact Hagg|]]]].
  - case_decide; split; try done.
  - intros Hother. rewrite decide_False by exact Hother. reflexivity.
  - rewrite <- Hagg. split.
    + case_decide; split; try done.
    + intros Hother. rewrite decide_False by exact Hother. reflexivity.
Qed.

(** C4: whatever the registry holds, the liveness probe answers 200 with
    status healthy, leaves the world as it found it (no checker ran) and
    gives the same answer for every registry. *)
Theorem HealthHandler_always_healthy h c w :
  gin.written (gin.Writer c) = false ->
  (∃ r, gin.reply (health.HealthHandler h c w).1 = Some r
      ∧ health.HealthResponse.Status r = health.StatusHealthy
      ∧ health.HealthResponse.Checks r = ∅)
  ∧ gin.code (health.HealthHandler h c w).1 = 200
  ∧ (health.HealthHandler h c w).2 = w
  ∧ ∀ h', health.HealthHandler h' c w = health.HealthHandler h c w.
Proof.
  intros Hfresh. unfold health.HealthHandler. simpl.
  split; [|split; [|split]]; try reflexivity.
  - eexists. split; [apply JSON_reply; reflexivity|]. split; reflexivity.
  - apply JSON_code; [assumption|lia].
Qed.

End Probes.

(** ** Package health: checkers that fail *)

Section FailingCheckers.
Context {W : Type} `{Platform W}.
Implicit Types (h : health.Handler W) (c : gin.Context health.HealthResponse.t)
  (w : W) (ctx : health.context) (checker : health.Checker W).

Lemma runCheckers_app before after ctx checks overall w :
  health.runCheckers (before ++ after) ctx checks overall w
  = let out := health.runCheckers before ctx checks overall w in
    health.runCheckers after ctx out.1.1 out.1.2 out.2.
Proof.
  revert checks overall w.
  induction before as [|checker rest IH]; intros checks overall w; simpl.
  - reflexivity.
  - destruct (health.Check checker ctx w) as [check w']. apply IH.
Qed.

(** A name no later checker carries keeps its entry. *)
Lemma runCheckers_lookup_other checkers ctx checks overall w (name : string) :
  name ∉ health.Name <$> checkers ->
  (health.runCheckers checkers ctx checks overall w).1.1 !! name
  = checks !! name.
Proof.
  revert checks overall w.
  induction checkers as [|checker rest IH]; intros checks overall w Hnotin;
    simpl.
  - reflexivity.
  - rewrite fmap_cons in Hnotin. apply not_elem_of_cons in Hnotin as [Hne Hnotin].
    destruct (health.Check checker ctx w) as [check w'].
    rewrite IH by assumption. apply lookup_insert_ne. congruence.
Qed.

(** Once unhealthy, the overall status stays unhealthy. *)
Lemma runCheckers_unhealthy_sticks checkers ctx checks w :
  (health.runCheckers checkers ctx checks health.StatusUnhealthy w).1.2
  = health.StatusUnhealthy.
Proof.
  revert checks w.
  induction checkers as [|checker rest IH]; intros checks w; simpl.
  - reflexivity.
  - destruct (health.Check checker ctx w) as [check w'].
    replace (health.escalate health.StatusUnhealthy check)
      with health.StatusUnhealthy; [apply IH|].
    unfold health.escalate. repeat case_decide; try reflexivity.
    destruct_and!. discriminate.
Qed.

Lemma errors_with_check checker ctx w err :
  health.errors_with checker ctx w err ->
  ∃ prefix, prefix ≠ ""
    ∧ (health.Check checker ctx w).1
      = health.ComponentCheck.mk health.StatusUnhealthy
          (prefix +:+ health.Error err) "".
Proof.
  destruct 1 as [d ctx w err w' Hdb|d ctx w sqlDB w1 err w2 Hdb Hping
                |r ctx w err w' Hping]; simpl.
  - exists "Failed to get database connection: ". split; [done|].
    unfold health.DatabaseChecker_Check. rewrite Hdb. reflexivity.
  - exists "Database ping failed: ". split; [done|].
    unfold health.DatabaseChecker_Check. rewrite Hdb, Hping. reflexivity.
  - exists "Redis ping failed: ". split; [done|].
    unfold health.RedisChecker_Check. rewrite Hping. reflexivity.
Qed.

(** C3: a checker whose underlying operation returns an error reports
    status unhealthy with a non-empty message that contains the error text;
    the readiness probe it is registered in still answers: with 503,
    overall status unhealthy, and that check under the checker's name. *)
Theorem failing_checker_is_reported_unhealthy checker ctx w err :
  health.errors_with checker ctx w err ->
  let check := (health.Check checker ctx w).1 in
  health.ComponentCheck.Status check = health.StatusUnhealthy
  ∧ health.ComponentCheck.Message check ≠ ""
  ∧ health.contains (health.ComponentCheck.Message check) (health.Error err)
  ∧ ∀ before after c w0,
      gin.written (gin.Writer c) = false ->
      ctx = health.probe_context c w0 ->
      w = health.world_after before ctx w0 ->
      let probe :=
        health.ReadyHandler (health.mkHandler (before ++ checker :: after)) c w0 in
      ∃ r, gin.reply probe.1 = Some r
         ∧ gin.code probe.1 = 503
         ∧ health.HealthResponse.Status r = health.StatusUnhealthy
         ∧ (health.Name checker ∉ health.Name <$> after ->
            health.HealthResponse.Checks r !! health.Name checker = Some check).
Proof.
  intros Herr check.
  destruct (errors_with_check _ _ _ _ Herr) as (prefix & Hprefix & Hcheck).
  subst check. rewrite Hcheck. simpl.
  split; [reflexivity|]. split.
  { destruct prefix; [done|discriminate]. }
  split.
  { exists prefix, "". unfold health.contains.
    rewrite string_app_empty_r. reflexivity. }
  intros before after c w0 Hfresh -> ->. simpl.
  eexists. split; [apply ReadyHandler_reply|].
  rewrite ReadyHandler_code by assumption. simpl.
  set (ctx := health.probe_context c w0) in *.
  rewrite runCheckers_app. simpl.
  rewrite runCheckers_world.
  destruct (health.Check checker ctx (health.world_after before ctx w0))
    as [check w'] eqn:Hrun.
  simpl in Hcheck. subst check.
  assert (Hesc : ∀ overall,
             health.escalate overall
               (health.ComponentCheck.mk health.StatusUnhealthy
                  (prefix +:+ health.Error err) "")
             = health.StatusUnhealthy) by reflexivity.
  rewrite Hesc, runCheckers_unhealthy_sticks.
  split; [reflexivity|]. split; [reflexivity|].
  intros Hlast. rewrite runCheckers_lookup_other by assumption.
  apply lookup_insert_eq.
Qed.

End FailingCheckers.

(** ** Package config *)

Section Overrides.
Import config.
Implicit Types (env : gmap string string) (c : Config).

Lemma override_sets env key assign c :
  os.Getenv env key ≠ "" ->
  override env key assign c = assign (os.Getenv env key) c.
Proof. intros Hset. unfold override. case_decide; [contradiction|reflexivity]. Qed.

Lemma override_skips env key assign c :
  os.Getenv env key = "" -> override env key assign c = c.
Proof. intros Hunset. unfold override. case_decide; [reflexivity|contradiction]. Qed.

(** An override that never touches what [P] reads leaves [P] as it was. *)
Lemma override_keeps {A : Type} (P : Config -> A) env key assign c (x : A) :
  (∀ v c', P (assign v c') = P c') ->
  P c = x ->
  P (override env key assign c) = x.
Proof.
  intros Hassign Hc. unfold override. case_decide; [assumption|].
  rewrite Hassign. assumption.
Qed.

Lemma if_number_keeps {A : Type} (P : Config -> A) assign s c :
  (∀ p c', P (assign p c') = P c') -> P (if_number assign s c) = P c.
Proof. intros Hassign. unfold if_number. destruct (strconv.Atoi s); auto. Qed.

End Overrides.

(** Peels the overrides of [LoadFromEnv] that leave the projection [P]
    alone, from the last one inwards. *)
Ltac peel_overrides P :=
  repeat (apply (override_keeps P);
          [ intros ? ?; first [ reflexivity
                              | apply (if_number_keeps P); reflexivity
                              | repeat case_decide; reflexivity ] | ]).

Section LoadFromEnv.
Import config.
Implicit Types (env : gmap string string) (c : Config).

Lemma at_index_Split_in_range (s : string) :
  strings.Contains s ":" = true ->
  (2 <= length (strings.Split s ":"))%nat.
Proof.
  unfold strings.Contains, strings.Split, strings.find.
  destruct s as [|a s]; [discriminate|].
  destruct (String.index 0 ":" (String a s)) as [i|] eqn:Hi; [|discriminate].
  intros _. change (strings.len (String a s)) with (S (strings.len s)).
  simpl. unfold strings.find. rewrite Hi.
  destruct (strings.len s); simpl; [lia|].
  destruct (strings.find _ _); simpl; lia.
Qed.


End LoadFromEnv.

Section Precedence.
Import config.
Implicit Types (env : gmap string string) (c : Config) (o : os.OS).


(** [Load] fails only on a file that is there and does not parse. *)
Lemma Load_returns yaml o configPath :
  (configPath = "" ∨ os.ReadFile o configPath = None
   ∨ ∃ data decoded, os.ReadFile o configPath = Some data
                     ∧ yaml data DefaultConfig = inr decoded) ->
  ∃ cfg, Load yaml o configPath = inr cfg.
Proof.
  unfold Load. intros [->|[Hnone|(data & decoded & Hread & Hyaml)]].
  - simpl. eauto.
  - rewrite Hnone. case_decide; eauto.
  - rewrite Hread, Hyaml. case_decide; eauto.
Qed.



(** C10: with [DATABASE_URL] set, an individual database variable that is
    set to a non-empty value decides its field of the loaded configuration,
    whatever the URL said. *)
Theorem individual_DB_variables_win_over_DATABASE_URL env c :
  os.Getenv env "DATABASE_URL" ≠ "" ->
  let d := Database (LoadFromEnv env c) in
  (os.Getenv env "DB_HOST" ≠ "" ->
     DatabaseConfig.Host d = os.Getenv env "DB_HOST")
  ∧ (os.Getenv env "DB_PORT" ≠ "" ->
     DatabaseConfig.Port d = os.Getenv env "DB_PORT")
  ∧ (os.Getenv env "DB_USER" ≠ "" ->
     DatabaseConfig.User d = os.Getenv env "DB_USER")
  ∧ (os.Getenv env "DB_PASSWORD" ≠ "" ->
     DatabaseConfig.Password d = os.Getenv env "DB_PASSWORD")
  ∧ (os.Getenv env "DB_NAME" ≠ "" ->
     DatabaseConfig.DBName d = os.Getenv env "DB_NAME").
Proof.
  intros _ d. subst d. unfold LoadFromEnv. cbv zeta.
  split; [|split; [|split; [|split]]]; intros Hset.
  - peel_overrides (fun c => DatabaseConfig.Host (Database c)).
    rewrite override_sets by assumption. reflexivity.
  - peel_overrides (fun c => DatabaseConfig.Port (Database c)).
    rewrite override_sets by assumption. reflexivity.
  - peel_overrides (fun c => DatabaseConfig.User (Database c)).
    rewrite override_sets by assumption. reflexivity.
  - peel_overrides (fun c => DatabaseConfig.Password (Database c)).
    rewrite override_sets by assumption. reflexivity.
  - peel_overrides (fun c => DatabaseConfig.DBName (Database c)).
    rewrite override_sets by assumption. reflexivity.
Qed.

(** C6, as amended: when the YAML file sets the database host to [a] and
    [DB_HOST] is set to a non-empty [b], the loaded configuration has
    database host [b]. *)
Theorem nonempty_DB_HOST_wins_over_yaml yaml o configPath data decoded
    (a b : string) :
  configPath ≠ "" ->
  os.ReadFile o configPath = Some data ->
  yaml data DefaultConfig = inr decoded ->
  DatabaseConfig.Host (Database decoded) = a ->
  os.environ o !! "DB_HOST" = Some b ->
  b ≠ "" ->
  ∃ cfg, Load yaml o configPath = inr cfg
       ∧ DatabaseConfig.Host (Database cfg) = b.
Proof.
  intros Hpath Hread Hyaml _ Henv Hb.
  unfold Load. rewrite Hread, Hyaml. case_decide; [contradiction|].
  eexists. split; [reflexivity|].
  assert (Hget : os.Getenv (os.environ o) "DB_HOST" = b)
    by (unfold os.Getenv; rewrite Henv; reflexivity).
  unfold LoadFromEnv. cbv zeta.
  peel_overrides (fun c => DatabaseConfig.Host (Database c)).
  rewrite override_sets by (rewrite Hget; assumption).
  simpl. exact Hget.
Qed.

(** The lower levels of the precedence: without [DB_HOST] and
    [DATABASE_URL], the host of the YAML file stands ... *)
Lemma yaml_host_stands_without_env yaml o configPath data decoded :
  configPath ≠ "" ->
  os.ReadFile o configPath = Some data ->
  yaml data DefaultConfig = inr decoded ->
  os.Getenv (os.environ o) "DB_HOST" = "" ->
  os.Getenv (os.environ o) "DATABASE_URL" = "" ->
  ∃ cfg, Load yaml o configPath = inr cfg
       ∧ DatabaseConfig.Host (Database cfg) = DatabaseConfig.Host (Database decoded).
Proof.
  intros Hpath Hread Hyaml Hhost Hurl.
  unfold Load. rewrite Hread, Hyaml. case_decide; [contradiction|].
  eexists. split; [reflexivity|].
  unfold LoadFromEnv. cbv zeta.
  peel_overrides (fun c => DatabaseConfig.Host (Database c)).
  rewrite (override_skips _ "DB_HOST") by assumption.
  rewrite (override_skips _ "DATABASE_URL") by assumption.
  peel_overrides (fun c => DatabaseConfig.Host (Database c)).
  reflexivity.
Qed.

(** ... and without a file, the built-in default. *)
Lemma default_host_stands_without_file yaml o :
  os.Getenv (os.environ o) "DB_HOST" = "" ->
  os.Getenv (os.environ o) "DATABASE_URL" = "" ->
  ∃ cfg, Load yaml o "" = inr cfg
       ∧ DatabaseConfig.Host (Database cfg) = "localhost".
Proof.
  intros Hhost Hurl. unfold Load. simpl.
  eexists. split; [reflexivity|].
  unfold LoadFromEnv. cbv zeta.
  peel_overrides (fun c => DatabaseConfig.Host (Database c)).
  rewrite (override_skips _ "DB_HOST") by assumption.
  rewrite (override_skips _ "DATABASE_URL") by assumption.
  peel_overrides (fun c => DatabaseConfig.Host (Database c)).
  reflexivity.
Qed.

End Precedence.

(** ** Package middleware: CORS preflight *)

Section Preflight.
Context {B W : Type}.
Implicit Types (c : gin.Context B) (w : W)
  (handlers : list (gin.HandlerFunc B W)) (config : middleware.CORSConfig).

Lemma SetHeader_keeps c key value :
  gin.Request_ (gin.SetHeader c key value) = gin.Request_ c
  ∧ gin.index (gin.SetHeader c key value) = gin.index c
  ∧ gin.status (gin.Writer (gin.SetHeader c key value)) = gin.status (gin.Writer c)
  ∧ gin.written (gin.Writer (gin.SetHeader c key value)) = gin.written (gin.Writer c)
  ∧ gin.body (gin.Writer (gin.SetHeader c key value)) = gin.body (gin.Writer c).
Proof. repeat split. Qed.

(** What the middleware does to a preflight request. *)
Lemma CORS_preflight config next c w :
  gin.Method (gin.Request_ c) = "OPTIONS" ->
  let out := middleware.CORS config next (c, w) in
  gin.index out.1 = gin.abortIndex
  ∧ gin.written (gin.Writer out.1) = true
  ∧ gin.body (gin.Writer out.1) = gin.body (gin.Writer c)
  ∧ (gin.written (gin.Writer c) = false -> gin.code out.1 = 204)
  ∧ out.2 = w
  ∧ ∀ next', middleware.CORS config next' (c, w) = out.
Proof.
  intros Hmethod. unfold middleware.CORS. simpl.
  set (c1 := gin.SetHeader c _ _).
  set (c2 := gin.SetHeader c1 _ _).
  set (c3 := gin.SetHeader c2 _ _).
  set (c4 := gin.SetHeader c3 _ _).
  set (c5 := if middleware.AllowCredentials config then _ else c4).
  assert (H5 : gin.Request_ c5 = gin.Request_ c
               ∧ gin.status (gin.Writer c5) = gin.status (gin.Writer c)
               ∧ gin.written (gin.Writer c5) = gin.written (gin.Writer c)
               ∧ gin.body (gin.Writer c5) = gin.body (gin.Writer c)).
  { subst c5. destruct (middleware.AllowCredentials config); repeat split. }
  destruct H5 as (Hreq & Hstatus & Hwritten & Hbody).
  rewrite Hreq, Hmethod. simpl.
  split; [reflexivity|]. split; [apply WriteHeaderNow_written|].
  split; [rewrite WriteHeaderNow_body, WriteHeader_body; assumption|].
  split; [|split; [reflexivity|]].
  - intros Hfresh. unfold gin.code. simpl.
    rewrite WriteHeaderNow_status. apply WriteHeader_status; [|lia].
    rewrite Hwritten. assumption.
  - intros next'. reflexivity.
Qed.

Lemma Next_S depth handlers (s : gin.Context B * W) :
  gin.Next (S depth) handlers s
  = gin.loop (gin.Next depth handlers) handlers (S (length handlers)) (gin.bump s).
Proof. reflexivity. Qed.

Lemma loop_S next handlers rounds (s : gin.Context B * W) :
  gin.loop next handlers (S rounds) s
  = if gin.index s.1 <? gin.int8 (Z.of_nat (length handlers)) then
      match gin.handler_at handlers (gin.index s.1) with
      | Some h => gin.loop next handlers rounds (gin.bump (h next s))
      | None => s
      end
    else s.
Proof. reflexivity. Qed.

Lemma int8_small (x : Z) : -128 <= x < 128 -> gin.int8 x = x.
Proof.
  intros Hx. unfold gin.int8, go.wrap.
  change (2 ^ (8 - 1)) with 128. change (2 ^ 8) with 256.
  rewrite Z.mod_small; lia.
Qed.

Lemma index_bump (s : gin.Context B * W) :
  gin.index (gin.bump s).1 = gin.int8 (gin.index s.1 + 1).
Proof. reflexivity. Qed.

(** The engine's loop stops behind an aborted context. *)
Lemma loop_aborted next handlers rounds (s : gin.Context B * W) :
  gin.int8 (Z.of_nat (length handlers)) <= gin.index s.1 ->
  gin.loop next handlers rounds s = s.
Proof.
  intros Hpast. destruct rounds as [|rounds]; [reflexivity|].
  rewrite loop_S.
  destruct (Z.ltb_spec (gin.index s.1) (gin.int8 (Z.of_nat (length handlers))));
    [lia|reflexivity].
Qed.

(** The chain, entered just before the CORS middleware at position [i]. *)
Lemma Next_reaches_CORS_preflight config handlers (i : nat) c w depth :
  Z.of_nat (length handlers) < gin.abortIndex ->
  handlers !! i = Some (middleware.CORS config) ->
  gin.Method (gin.Request_ c) = "OPTIONS" ->
  gin.index c = Z.of_nat i - 1 ->
  gin.Next (S depth) handlers (c, w)
  = gin.bump
      (middleware.CORS config (fun s => s) (gin.with_index c (Z.of_nat i), w)).
Proof.
  intros Hshort Hat Hmethod Hindex.
  pose proof (lookup_lt_Some _ _ _ Hat) as Hlt.
  unfold gin.abortIndex in Hshort.
  assert (Hlen : gin.int8 (Z.of_nat (length handlers)) = Z.of_nat (length handlers))
    by (apply int8_small; lia).
  assert (Hbump : gin.bump (c, w) = (gin.with_index c (Z.of_nat i), w)).
  { unfold gin.bump. simpl. rewrite Hindex, int8_small by lia. do 2 f_equal. lia. }
  rewrite Next_S, Hbump, loop_S, Hlen. simpl gin.index.
  destruct (Z.ltb_spec (Z.of_nat i) (Z.of_nat (length handlers))); [|lia].
  unfold gin.handler_at.
  destruct (Z.ltb_spec (Z.of_nat i) 0); [lia|].
  rewrite Nat2Z.id.
  match goal with
  | |- context [@lookup ?K ?A ?M ?L i handlers] =>
      change (@lookup K A M L i handlers) with (handlers !! i)
  end.
  rewrite Hat.
  destruct (CORS_preflight config (gin.Next depth handlers)
              (gin.with_index c (Z.of_nat i)) w Hmethod)
    as (Hidx & _ & _ & _ & _ & Hnext).
  rewrite (Hnext (fun s => s)).
  apply loop_aborted. rewrite index_bump, Hidx, Hlen.
  change (gin.int8 (gin.abortIndex + 1)) with 64. lia.
Qed.

(** C8: a request with method OPTIONS that reaches the CORS middleware is
    answered there: status 204, nothing written to the body, the chain
    aborted; whatever handlers the chain holds elsewhere, none behind the
    middleware runs (the answer and the world do not depend on them). *)
Theorem CORS_preflight_is_terminal config handlers (i : nat) c w depth :
  Z.of_nat (length handlers) < gin.abortIndex ->
  handlers !! i = Some (middleware.CORS config) ->
  gin.Method (gin.Request_ c) = "OPTIONS" ->
  gin.index c = Z.of_nat i - 1 ->
  gin.written (gin.Writer c) = false ->
  let out := gin.Next (S depth) handlers (c, w) in
  gin.code out.1 = 204
  ∧ gin.body (gin.Writer out.1) = gin.body (gin.Writer c)
  ∧ gin.written (gin.Writer out.1) = true
  ∧ gin.IsAborted out.1 = true
  ∧ out.2 = w
  ∧ ∀ handlers' depth',
      Z.of_nat (length handlers') < gin.abortIndex ->
      handlers' !! i = Some (middleware.CORS config) ->
      gin.Next (S depth') handlers' (c, w) = out.
Proof.
  intros Hshort Hat Hmethod Hindex Hfresh out. subst out.
  rewrite (Next_reaches_CORS_preflight config handlers i c w depth)
    by assumption.
  destruct (CORS_preflight config (fun s => s)
              (gin.with_index c (Z.of_nat i)) w Hmethod)
    as (Hidx & Hwritten & Hbody & Hcode & Hworld & _).
  split; [apply Hcode; assumption|].
  split; [exact Hbody|]. split; [exact Hwritten|].
  split; [unfold gin.IsAborted; rewrite index_bump, Hidx; reflexivity|].
  split; [exact Hworld|].
  intros handlers' depth' Hshort' Hat'.
  apply Next_reaches_CORS_preflight; assumption.
Qed.

(** Served by the engine with the middleware first in the chain, every
    OPTIONS request gets 204 and an empty body, whatever comes behind. *)
Lemma ServeHTTP_preflight config (downstream : list (gin.HandlerFunc B W))
    (req : gin.Request) w :
  Z.of_nat (S (length downstream)) < gin.abortIndex ->
  gin.Method req = "OPTIONS" ->
  let out := gin.ServeHTTP (middleware.CORS config :: downstream) req w in
  gin.code out.1 = 204 ∧ gin.body (gin.Writer out.1) = [] ∧ out.2 = w.
Proof.
  intros Hshort Hmethod. unfold gin.ServeHTTP.
  rewrite (Next_reaches_CORS_preflight config _ 0 (gin.fresh req) w)
    by (assumption || reflexivity).
  destruct (CORS_preflight config (fun s => s)
              (gin.with_index (gin.fresh req) (Z.of_nat 0)) w Hmethod)
    as (_ & _ & Hbody & Hcode & Hworld & _).
  unfold gin.code, gin.bump in *. simpl in *.
  rewrite WriteHeaderNow_status.
  split; [apply Hcode; reflexivity|]. split; [|assumption].
  rewrite WriteHeaderNow_body. assumption.
Qed.

End Preflight.

(** * The properties at concrete inputs *)

Lemma Paginated_95_by_20 :
  0 < 20 ∧ go.is_int 20 ∧ 0 <= 95 ∧ go.is_int64 95
  ∧ response.totalPages_of
      (response.Paginated (gin.fresh (sample.request "GET")) go.any_nil 1 20 95 (0 : Z))
    = Some 5.
Proof.
  assert (H20 : go.is_int 20) by (split; discriminate).
  assert (H95 : go.is_int64 95) by (split; discriminate).
  split; [lia|]. split; [exact H20|]. split; [lia|]. split; [exact H95|].
  exact (proj1 (Paginated_totalPages_is_ceiling
                  (gin.fresh (sample.request "GET")) go.any_nil 1 20 95 (0 : Z)
                  ltac:(lia) H20 ltac:(lia) H95)).
Defined.

Lemma sample_registry_is_unhealthy :
  Forall health.known
    (health.reported_statuses sample.registry (gin.fresh (sample.request "GET")) 0)
  ∧ ∃ r, gin.reply (health.ReadyHandler sample.registry
                      (gin.fresh (sample.request "GET")) 0).1 = Some r
       ∧ health.HealthResponse.Status r = "unhealthy".
Proof.
  assert (Hknown : Forall health.known
            (health.reported_statuses sample.registry
               (gin.fresh (sample.request "GET")) 0)).
  { constructor; [left; reflexivity|].
    constructor; [right; left; reflexivity|].
    constructor; [right; right; reflexivity|]. constructor. }
  split; [exact Hknown|].
  destruct (ReadyHandler_overall_is_max_severity sample.registry
              (gin.fresh (sample.request "GET")) 0 Hknown) as (r & Hr & Hstatus & _).
  exists r. split; [exact Hr|]. rewrite Hstatus. reflexivity.
Defined.

Lemma sample_registry_answers_503 :
  gin.written (gin.Writer (gin.fresh (B := health.HealthResponse.t)
                             (sample.request "GET"))) = false
  ∧ health.StatusUnhealthy
      ∈ health.reported_statuses sample.registry (gin.fresh (sample.request "GET")) 0
  ∧ gin.code (health.ReadyHandler sample.registry
                (gin.fresh (sample.request "GET")) 0).1 = 503
  ∧ (health.StatusUnhealthy
       ∉ health.reported_statuses sample.registry_without_store
           (gin.fresh (sample.request "GET")) 0)
  ∧ gin.code (health.ReadyHandler sample.registry_without_store
                (gin.fresh (sample.request "GET")) 0).1 = 200.
Proof.
  assert (Hreported :
            health.StatusUnhealthy
              ∈ health.reported_statuses sample.registry
                  (gin.fresh (sample.request "GET")) 0)
    by (apply (list_elem_of_lookup_2 _ 2%nat); reflexivity).
  assert (Hnone :
            health.StatusUnhealthy
              ∉ health.reported_statuses sample.registry_without_store
                  (gin.fresh (sample.request "GET")) 0).
  { change (health.StatusUnhealthy ∉ ["healthy"; "degraded"]).
    rewrite !not_elem_of_cons. repeat split; [discriminate..|].
    apply not_elem_of_nil. }
  split; [reflexivity|]. split; [exact Hreported|].
  destruct (ReadyHandler_503_iff_unhealthy sample.registry
              (gin.fresh (sample.request "GET")) 0 eq_refl)
    as (r & _ & _ & _ & _ & _ & Hcode & _).
  split; [apply Hcode; exact Hreported|]. split; [exact Hnone|].
  destruct (ReadyHandler_503_iff_unhealthy sample.registry_without_store
              (gin.fresh (sample.request "GET")) 0 eq_refl)
    as (r' & _ & _ & _ & _ & _ & _ & Hother).
  exact (Hother Hnone).
Defined.

Lemma redis_down_is_reported :
  health.errors_with (health.RedisChecker_Checker sample.redis_down)
    (health.probe_context (gin.fresh (sample.request "GET")) 0) 0 sample.refused
  ∧ (health.Check (health.RedisChecker_Checker sample.redis_down)
       (health.probe_context (gin.fresh (sample.request "GET")) 0) 0).1
    = health.ComponentCheck.mk "unhealthy" "Redis ping failed: connection refused" ""
  ∧ gin.code (health.ReadyHandler
                (health.mkHandler [health.RedisChecker_Checker sample.redis_down])
                (gin.fresh (sample.request "GET")) 0).1 = 503.
Proof.
  assert (Herr : health.errors_with (health.RedisChecker_Checker sample.redis_down)
            (health.probe_context (gin.fresh (sample.request "GET")) 0) 0
            sample.refused)
    by (eapply health.redis_ping_error; reflexivity).
  split; [exact Herr|].
  destruct (failing_checker_is_reported_unhealthy _ _ _ _ Herr)
    as (Hstatus & _ & _ & Hprobe).
  split; [reflexivity|].
  destruct (Hprobe [] [] (gin.fresh (sample.request "GET")) 0
              eq_refl eq_refl eq_refl) as (r & _ & Hcode & _).
  exact Hcode.
Defined.

Lemma liveness_ignores_sample_registry :
  gin.written (gin.Writer (gin.fresh (B := health.HealthResponse.t)
                             (sample.request "GET"))) = false
  ∧ gin.code (health.HealthHandler sample.registry
                (gin.fresh (sample.request "GET")) 0).1 = 200
  ∧ (health.HealthHandler sample.registry
       (gin.fresh (sample.request "GET")) 0).2 = 0.
Proof.
  split; [reflexivity|].
  destruct (HealthHandler_always_healthy sample.registry
              (gin.fresh (sample.request "GET")) 0 eq_refl)
    as (_ & Hcode & Hworld & _).
  split; assumption.
Defined.



Lemma full_env_individual_variables_win :
  os.Getenv sample.full_env "DATABASE_URL" ≠ ""
  ∧ config.DatabaseConfig.Host
      (config.Database (config.LoadFromEnv sample.full_env config.DefaultConfig))
    = "db.internal"
  ∧ config.DatabaseConfig.DBName
      (config.Database (config.LoadFromEnv sample.full_env config.DefaultConfig))
    = "orders".
Proof.
  assert (Hurl : os.Getenv sample.full_env "DATABASE_URL" ≠ "") by discriminate.
  split; [exact Hurl|].
  destruct (individual_DB_variables_win_over_DATABASE_URL sample.full_env
              config.DefaultConfig Hurl) as (Hhost & _ & _ & _ & Hname).
  split; [apply Hhost; discriminate|apply Hname; discriminate].
Defined.

Lemma machine_b_loads_host_b :
  "config.yaml" ≠ ""
  ∧ os.ReadFile (sample.machine "b") "config.yaml" = Some sample.yaml_document
  ∧ os.environ (sample.machine "b") !! "DB_HOST" = Some "b"
  ∧ "b" ≠ ""
  ∧ config.loaded_host
      (config.Load config.decode_database_host (sample.machine "b") "config.yaml")
    = Some "b".
Proof.
  split; [discriminate|]. split; [reflexivity|]. split; [reflexivity|].
  split; [discriminate|].
  destruct (nonempty_DB_HOST_wins_over_yaml config.decode_database_host
              (sample.machine "b") "config.yaml" sample.yaml_document
              (config.in_Database (config.DatabaseConfig.set_Host "a")
                 config.DefaultConfig) "a" "b"
              ltac:(discriminate) eq_refl eq_refl eq_refl eq_refl
              ltac:(discriminate)) as (cfg & Hload & Hhost).
  rewrite Hload. simpl. rewrite Hhost. reflexivity.
Defined.

(** C6 as stated fails where [DB_HOST] is set to the empty string: the YAML
    file sets the host to [a], [DB_HOST] is set (to [b = ""]), and the
    loaded host is [a], not [b]. *)
Lemma empty_DB_HOST_leaves_yaml_host :
  os.ReadFile (sample.machine "") "config.yaml" = Some sample.yaml_document
  ∧ config.loaded_host
      (config.decode_database_host sample.yaml_document config.DefaultConfig)
    = Some "a"
  ∧ os.environ (sample.machine "") !! "DB_HOST" = Some ""
  ∧ config.loaded_host
      (config.Load config.decode_database_host (sample.machine "") "config.yaml")
    = Some "a"
  ∧ config.loaded_host
      (config.Load config.decode_database_host (sample.machine "") "config.yaml")
    ≠ Some "".
Proof.
  assert (Hload : config.loaded_host
            (config.Load config.decode_database_host (sample.machine "")
               "config.yaml") = Some "a") by (vm_compute; reflexivity).
  split; [reflexivity|]. split; [vm_compute; reflexivity|].
  split; [reflexivity|]. split; [exact Hload|].
  rewrite Hload. discriminate.
Qed.

Lemma preflight_stops_before_downstream :
  Z.of_nat (length [middleware.CORS middleware.DefaultCORSConfig; sample.downstream])
    < gin.abortIndex
  ∧ gin.Method (gin.Request_ (gin.fresh (B := string) (sample.request "OPTIONS")))
    = "OPTIONS"
  ∧ gin.written (gin.Writer (gin.fresh (B := string) (sample.request "OPTIONS")))
    = false
  ∧ gin.code (gin.Next 2 [middleware.CORS middleware.DefaultCORSConfig;
                           sample.downstream]
                (gin.fresh (sample.request "OPTIONS"), 0)).1 = 204
  ∧ gin.body (gin.Writer
                (gin.Next 2 [middleware.CORS middleware.DefaultCORSConfig;
                             sample.downstream]
                   (gin.fresh (sample.request "OPTIONS"), 0)).1) = []
  ∧ (gin.Next 2 [middleware.CORS middleware.DefaultCORSConfig; sample.downstream]
       (gin.fresh (sample.request "OPTIONS"), 0)).2 = 0.
Proof.
  assert (Hshort : Z.of_nat (length [middleware.CORS (B := string) (W := Z)
                                       middleware.DefaultCORSConfig;
                                     sample.downstream]) < gin.abortIndex)
    by reflexivity.
  split; [exact Hshort|]. split; [reflexivity|]. split; [reflexivity|].
  destruct (CORS_preflight_is_terminal middleware.DefaultCORSConfig
              [middleware.CORS middleware.DefaultCORSConfig; sample.downstream]
              0 (gin.fresh (sample.request "OPTIONS")) 0 1
              Hshort eq_refl eq_refl eq_refl eq_refl)
    as (Hcode & Hbody & _ & _ & Hworld & _).
  split; [exact Hcode|]. split; [exact Hbody|]. exact Hworld.
Defined.

(** The same chain on a request that is not a preflight: the handler behind
    the middleware does run. *)
Example GET_reaches_downstream :
  gin.body (gin.Writer
              (gin.ServeHTTP [middleware.CORS middleware.DefaultCORSConfig;
                              sample.downstream]
                 (sample.request "GET") 0).1) = ["handled"]
  ∧ (gin.ServeHTTP [middleware.CORS middleware.DefaultCORSConfig; sample.downstream]
       (sample.request "GET") 0).2 = 1.
Proof. split; reflexivity. Qed.

(** A registry without an unhealthy checker: degraded overall, and 200. *)
Example degraded_registry_answers_200 :
  let h := health.mkHandler
             [sample.constant_checker "cache" health.StatusHealthy;
              sample.constant_checker "queue" health.StatusDegraded] in
  let out := health.ReadyHandler h (gin.fresh (sample.request "GET")) 0 in
  gin.code out.1 = 200
  ∧ health.HealthResponse.Status <$> gin.reply out.1 = Some "degraded"
  ∧ out.2 = 2.
Proof. repeat split. Qed.

(** The sample registry: every check is in the response under its name. *)
Example sample_registry_checks :
  let out := health.ReadyHandler sample.registry (gin.fresh (sample.request "GET")) 0 in
  (r ← gin.reply out.1;
   check ← health.HealthResponse.Checks r !! "queue";
   Some (health.ComponentCheck.Status check)) = Some "degraded"
  ∧ (size <$> (health.HealthResponse.Checks <$> gin.reply out.1)) = Some 3%nat.
Proof. split; vm_compute; reflexivity. Qed.

(** * Further properties of the packages *)

(** ** Package config: what the environment does to a configuration *)

Section Environment.
Import config.
Implicit Types (env : gmap string string) (c : Config) (o : os.OS).

#[local] Arguments override : simpl never.

Lemma override_cases {A : Type} (P : Config -> A) env key assign c (x : A) :
  (os.Getenv env key = "" -> P c = x) ->
  (os.Getenv env key ≠ "" -> P (assign (os.Getenv env key) c) = x) ->
  P (override env key assign c) = x.
Proof. intros Hskip Hset. unfold override. case_decide; auto. Qed.

(** [parseDatabaseURL] assigns to six fields of the database settings and to
    nothing else. *)
Lemma parseDatabaseURL_frame {A : Type} (P : Config -> A) raw c (x : A) :
  (∀ v c', P (in_Database (DatabaseConfig.set_User v) c') = P c') ->
  (∀ v c', P (in_Database (DatabaseConfig.set_Password v) c') = P c') ->
  (∀ v c', P (in_Database (DatabaseConfig.set_Host v) c') = P c') ->
  (∀ v c', P (in_Database (DatabaseConfig.set_Port v) c') = P c') ->
  (∀ v c', P (in_Database (DatabaseConfig.set_DBName v) c') = P c') ->
  (∀ v c', P (in_Database (DatabaseConfig.set_SSLMode v) c') = P c') ->
  P c = x ->
  P (parseDatabaseURL raw c) = x.
Proof.
  intros HUser HPassword HHost HPort HDBName HSSLMode <-.
  unfold parseDatabaseURL.
  destruct (url.Parse raw) as [u|]; [|reflexivity].
  destruct (url.User u); repeat case_decide;
    destruct (strings.Contains (url.Host u) ":");
    rewrite ?HSSLMode, ?HDBName, ?HPort, ?HHost, ?HPassword, ?HUser;
    reflexivity.
Qed.

End Environment.

(** Steps over the overrides of [LoadFromEnv] that cannot change what [P]
    reads, the URL parser included. *)
Ltac keeps P :=
  intros ? ?;
  first [ reflexivity
        | apply (if_number_keeps P); reflexivity
        | repeat case_decide; reflexivity
        | apply (parseDatabaseURL_frame P); reflexivity ].

Ltac peel P := repeat (apply (override_keeps P); [keeps P|]).

Section EnvironmentProperties.
Import config.
Implicit Types (env : gmap string string) (c : Config) (o : os.OS).

(** X1: an environment in which none of the variables [LoadFromEnv] reads is
    set (a variable set to the empty string counts as not set) leaves the
    configuration as it is, whatever else the environment holds. *)
Theorem LoadFromEnv_nothing_set env c :
  Forall (λ key, os.Getenv env key = "") variables ->
  LoadFromEnv env c = c.
Proof.
  intros Hunset. unfold variables in Hunset.
  repeat (apply Forall_cons in Hunset as [? Hunset]).
  unfold LoadFromEnv. cbv zeta.
  rewrite !override_skips by assumption. reflexivity.
Qed.

(** X2: [Load] returns an error exactly when a path is given, the file can
    be read and its content does not parse; the error wraps the parser's.
    A file that cannot be read is not an error. *)
Theorem Load_fails_iff_file_malformed yaml o configPath (msg : string) :
  Load yaml o configPath = inl msg
  ↔ configPath ≠ ""
    ∧ ∃ data err, os.ReadFile o configPath = Some data
                  ∧ yaml data DefaultConfig = inl err
                  ∧ msg = "failed to parse config file: " +:+ err.
Proof.
  unfold Load. split.
  - case_decide as Hpath; [discriminate|].
    destruct (os.ReadFile o configPath) as [data|]; [|discriminate].
    destruct (yaml data DefaultConfig) as [err|decoded] eqn:Hyaml;
      [|discriminate].
    intros [= <-]. split; [assumption|]. eauto.
  - intros (Hpath & data & err & -> & -> & ->).
    case_decide; [contradiction|reflexivity].
Qed.

(** X3: the server mode after [LoadFromEnv]: [ENV] (with [dev] standing for
    [debug] and [prod] for [release]) beats [GIN_MODE], which beats
    [SERVER_MODE]; with none of them set the mode stays. *)
Theorem server_mode_precedence env c :
  ServerConfig.Mode (Server (LoadFromEnv env c))
  = if decide (os.Getenv env "ENV" = "") then
      if decide (os.Getenv env "GIN_MODE" = "") then
        if decide (os.Getenv env "SERVER_MODE" = "") then
          ServerConfig.Mode (Server c)
        else os.Getenv env "SERVER_MODE"
      else os.Getenv env "GIN_MODE"
    else mode_of_ENV (os.Getenv env "ENV").
Proof.
  unfold LoadFromEnv. cbv zeta.
  peel (fun c => ServerConfig.Mode (Server c)).
  apply (override_cases (fun c => ServerConfig.Mode (Server c))); intros HENV.
  - apply (override_cases (fun c => ServerConfig.Mode (Server c))); intros HGIN.
    + apply (override_cases (fun c => ServerConfig.Mode (Server c))); intros HMODE.
      * peel (fun c => ServerConfig.Mode (Server c)).
        repeat case_decide; done.
      * repeat case_decide; done.
    + repeat case_decide; done.
  - unfold mode_of_ENV. repeat case_decide; done.
Qed.

(** X4: the server port after [LoadFromEnv]: [SERVER_PORT] beats [PORT], and
    a value that is not a number (or is out of range) is passed over as if
    the variable were not set. *)
Theorem server_port_precedence env c :
  ServerConfig.Port (Server (LoadFromEnv env c))
  = match strconv.Atoi (os.Getenv env "SERVER_PORT") with
    | Some p => p
    | None =>
        match strconv.Atoi (os.Getenv env "PORT") with
        | Some p => p
        | None => ServerConfig.Port (Server c)
        end
    end.
Proof.
  assert (Hempty : ∀ s, s = "" -> strconv.Atoi s = None) by (intros s ->; reflexivity).
  unfold LoadFromEnv. cbv zeta.
  peel (fun c => ServerConfig.Port (Server c)).
  apply (override_cases (fun c => ServerConfig.Port (Server c))); intros HSERVER_PORT.
  - rewrite (Hempty _ HSERVER_PORT).
    apply (override_cases (fun c => ServerConfig.Port (Server c))); intros HPORT.
    + rewrite (Hempty _ HPORT). reflexivity.
    + unfold if_number. destruct (strconv.Atoi _); reflexivity.
  - unfold if_number. destruct (strconv.Atoi (os.Getenv env "SERVER_PORT"));
      [reflexivity|].
    apply (override_cases (fun c => ServerConfig.Port (Server c))); intros HPORT.
    + rewrite (Hempty _ HPORT). reflexivity.
    + destruct (strconv.Atoi _); reflexivity.
Qed.

(** X5: of two variables for one setting the one read later wins:
    [SECRET_KEY] over [JWT_SECRET], and [CORS_ALLOWED_ORIGINS] over
    [CORS_ORIGINS]. *)
Theorem later_alias_wins env c :
  JWTConfig.Secret (JWT (LoadFromEnv env c))
  = (if decide (os.Getenv env "SECRET_KEY" = "") then
       if decide (os.Getenv env "JWT_SECRET" = "") then JWTConfig.Secret (JWT c)
       else os.Getenv env "JWT_SECRET"
     else os.Getenv env "SECRET_KEY")
  ∧ CORSConfig.AllowedOrigins (CORS (LoadFromEnv env c))
    = (if decide (os.Getenv env "CORS_ALLOWED_ORIGINS" = "") then
         if decide (os.Getenv env "CORS_ORIGINS" = "") then
           CORSConfig.AllowedOrigins (CORS c)
         else os.Getenv env "CORS_ORIGINS"
       else os.Getenv env "CORS_ALLOWED_ORIGINS").
Proof.
  unfold LoadFromEnv. cbv zeta. split.
  - peel (fun c => JWTConfig.Secret (JWT c)).
    apply (override_cases (fun c => JWTConfig.Secret (JWT c))); intros H2; [apply (override_cases (fun c => JWTConfig.Secret (JWT c))); intros H1|].
    + peel (fun c => JWTConfig.Secret (JWT c)). repeat case_decide; done.
    + repeat case_decide; done.
    + repeat case_decide; done.
  - peel (fun c => CORSConfig.AllowedOrigins (CORS c)).
    apply (override_cases (fun c => CORSConfig.AllowedOrigins (CORS c))); intros H2; [apply (override_cases (fun c => CORSConfig.AllowedOrigins (CORS c))); intros H1|].
    + peel (fun c => CORSConfig.AllowedOrigins (CORS c)). repeat case_decide; done.
    + repeat case_decide; done.
    + repeat case_decide; done.
Qed.

(** X6: no environment variable reaches the timeouts, the pool sizes, the
    Redis database number and TLS flag, the token lifetime or the logger's
    output path: [LoadFromEnv] never changes them. *)
Theorem LoadFromEnv_never_changes_tuning env c :
  ServerConfig.ReadTimeout (Server (LoadFromEnv env c)) = ServerConfig.ReadTimeout (Server c)
  ∧ ServerConfig.WriteTimeout (Server (LoadFromEnv env c)) = ServerConfig.WriteTimeout (Server c)
  ∧ ServerConfig.ShutdownTimeout (Server (LoadFromEnv env c))
    = ServerConfig.ShutdownTimeout (Server c)
  ∧ DatabaseConfig.MaxOpenConns (Database (LoadFromEnv env c))
    = DatabaseConfig.MaxOpenConns (Database c)
  ∧ DatabaseConfig.MaxIdleConns (Database (LoadFromEnv env c))
    = DatabaseConfig.MaxIdleConns (Database c)
  ∧ DatabaseConfig.ConnMaxLifetime (Database (LoadFromEnv env c))
    = DatabaseConfig.ConnMaxLifetime (Database c)
  ∧ RedisConfig.DB (Redis (LoadFromEnv env c)) = RedisConfig.DB (Redis c)
  ∧ RedisConfig.TLS (Redis (LoadFromEnv env c)) = RedisConfig.TLS (Redis c)
  ∧ JWTConfig.ExpireTime (JWT (LoadFromEnv env c)) = JWTConfig.ExpireTime (JWT c)
  ∧ ServicesConfig.Timeout (Services (LoadFromEnv env c))
    = ServicesConfig.Timeout (Services c)
  ∧ LoggerConfig.OutputPath (Logger (LoadFromEnv env c))
    = LoggerConfig.OutputPath (Logger c).
Proof.
  unfold LoadFromEnv. cbv zeta.
  repeat split.
  - peel (fun c => ServerConfig.ReadTimeout (Server c)). reflexivity.
  - peel (fun c => ServerConfig.WriteTimeout (Server c)). reflexivity.
  - peel (fun c => ServerConfig.ShutdownTimeout (Server c)). reflexivity.
  - peel (fun c => DatabaseConfig.MaxOpenConns (Database c)). reflexivity.
  - peel (fun c => DatabaseConfig.MaxIdleConns (Database c)). reflexivity.
  - peel (fun c => DatabaseConfig.ConnMaxLifetime (Database c)). reflexivity.
  - peel (fun c => RedisConfig.DB (Redis c)). reflexivity.
  - peel (fun c => RedisConfig.TLS (Redis c)). reflexivity.
  - peel (fun c => JWTConfig.ExpireTime (JWT c)). reflexivity.
  - peel (fun c => ServicesConfig.Timeout (Services c)). reflexivity.
  - peel (fun c => LoggerConfig.OutputPath (Logger c)). reflexivity.
Qed.

(** X7: with [DATABASE_URL] set, the connection string [GetDSN] gives for
    the loaded settings is that URL, verbatim: whether it parses or not, and
    whatever the individual variables made of host, port, user, password and
    database name. *)
Theorem GetDSN_is_DATABASE_URL env c :
  os.Getenv env "DATABASE_URL" ≠ "" ->
  GetDSN (Database (LoadFromEnv env c)) = os.Getenv env "DATABASE_URL".
Proof.
  intros Hset.
  assert (HURL : DatabaseConfig.URL (Database (LoadFromEnv env c))
                 = os.Getenv env "DATABASE_URL").
  { unfold LoadFromEnv. cbv zeta.
    peel (fun c => DatabaseConfig.URL (Database c)).
    rewrite override_sets by assumption.
    apply (parseDatabaseURL_frame (fun c => DatabaseConfig.URL (Database c)));
      reflexivity. }
  unfold GetDSN. rewrite HURL. case_decide; [contradiction|reflexivity].
Qed.

End EnvironmentProperties.

Section Idempotence.
Import config.
Implicit Types (env : gmap string string) (c : Config).

(** Two configurations with the same fields are the same. *)
Lemma Config_ext c c' :
  ServerConfig.Port (Server c) = ServerConfig.Port (Server c') ->
  ServerConfig.Mode (Server c) = ServerConfig.Mode (Server c') ->
  ServerConfig.BasePath (Server c) = ServerConfig.BasePath (Server c') ->
  ServerConfig.ReadTimeout (Server c) = ServerConfig.ReadTimeout (Server c') ->
  ServerConfig.WriteTimeout (Server c) = ServerConfig.WriteTimeout (Server c') ->
  ServerConfig.ShutdownTimeout (Server c) = ServerConfig.ShutdownTimeout (Server c') ->
  DatabaseConfig.Host (Database c) = DatabaseConfig.Host (Database c') ->
  DatabaseConfig.Port (Database c) = DatabaseConfig.Port (Database c') ->
  DatabaseConfig.User (Database c) = DatabaseConfig.User (Database c') ->
  DatabaseConfig.Password (Database c) = DatabaseConfig.Password (Database c') ->
  DatabaseConfig.DBName (Database c) = DatabaseConfig.DBName (Database c') ->
  DatabaseConfig.SSLMode (Database c) = DatabaseConfig.SSLMode (Database c') ->
  DatabaseConfig.URL (Database c) = DatabaseConfig.URL (Database c') ->
  DatabaseConfig.MaxOpenConns (Database c) = DatabaseConfig.MaxOpenConns (Database c') ->
  DatabaseConfig.MaxIdleConns (Database c) = DatabaseConfig.MaxIdleConns (Database c') ->
  DatabaseConfig.ConnMaxLifetime (Database c) = DatabaseConfig.ConnMaxLifetime (Database c') ->
  RedisConfig.Host (Redis c) = RedisConfig.Host (Redis c') ->
  RedisConfig.Port (Redis c) = RedisConfig.Port (Redis c') ->
  RedisConfig.Password (Redis c) = RedisConfig.Password (Redis c') ->
  RedisConfig.DB (Redis c) = RedisConfig.DB (Redis c') ->
  RedisConfig.URL (Redis c) = RedisConfig.URL (Redis c') ->
  RedisConfig.TLS (Redis c) = RedisConfig.TLS (Redis c') ->
  JWTConfig.Secret (JWT c) = JWTConfig.Secret (JWT c') ->
  JWTConfig.ExpireTime (JWT c) = JWTConfig.ExpireTime (JWT c') ->
  ServicesConfig.AuthServiceURL (Services c) = ServicesConfig.AuthServiceURL (Services c') ->
  ServicesConfig.UserServiceURL (Services c) = ServicesConfig.UserServiceURL (Services c') ->
  ServicesConfig.BoardServiceURL (Services c) = ServicesConfig.BoardServiceURL (Services c') ->
  ServicesConfig.ChatServiceURL (Services c) = ServicesConfig.ChatServiceURL (Services c') ->
  ServicesConfig.NotiServiceURL (Services c) = ServicesConfig.NotiServiceURL (Services c') ->
  ServicesConfig.StorageServiceURL (Services c) = ServicesConfig.StorageServiceURL (Services c') ->
  ServicesConfig.VideoServiceURL (Services c) = ServicesConfig.VideoServiceURL (Services c') ->
  ServicesConfig.Timeout (Services c) = ServicesConfig.Timeout (Services c') ->
  CORSConfig.AllowedOrigins (CORS c) = CORSConfig.AllowedOrigins (CORS c') ->
  S3Config.Bucket (S3 c) = S3Config.Bucket (S3 c') ->
  S3Config.Region (S3 c) = S3Config.Region (S3 c') ->
  S3Config.AccessKey (S3 c) = S3Config.AccessKey (S3 c') ->
  S3Config.SecretKey (S3 c) = S3Config.SecretKey (S3 c') ->
  S3Config.Endpoint (S3 c) = S3Config.Endpoint (S3 c') ->
  LoggerConfig.Level (Logger c) = LoggerConfig.Level (Logger c') ->
  LoggerConfig.OutputPath (Logger c) = LoggerConfig.OutputPath (Logger c') ->
  c = c'.
Proof.
  destruct c as [[] [] [] [] [] [] [] []], c' as [[] [] [] [] [] [] [] []].
  simpl. intros. subst. reflexivity.
Qed.

Lemma override_settled {A : Type} (P : Config -> A) env key assign c c' X X' :
  (∀ v, (∀ Y, P (assign v Y) = P Y) ∨ (∀ Y Y', P (assign v Y) = P (assign v Y'))) ->
  settled P c c' X X' ->
  settled P c c' (override env key assign X) (override env key assign X').
Proof.
  intros Hlocal HX. unfold override. case_decide; [assumption|].
  destruct (Hlocal (os.Getenv env key)) as [Hkeeps|Hsets].
  - unfold settled in *. rewrite !Hkeeps. assumption.
  - left. apply Hsets.
Qed.

Lemma settled_twice {A : Type} (P : Config -> A) (g : Config -> Config) c :
  settled P c (g c) (g c) (g (g c)) -> P (g (g c)) = P (g c).
Proof. intros [Heq|[_ Heq]]; congruence. Qed.

End Idempotence.

(** Every assignment of [LoadFromEnv] gives the field [P] reads a value that
    the variable alone decides, or leaves it alone. *)
Ltac decided_by_variable P :=
  first [ left; intros; reflexivity | right; intros; reflexivity ].

Ltac local_step P :=
  intros ?v;
  first [ decided_by_variable P
        | unfold config.if_number; destruct (strconv.Atoi _); decided_by_variable P
        | repeat case_decide; decided_by_variable P
        | unfold config.parseDatabaseURL;
          destruct (url.Parse _) as [?u|]; [|decided_by_variable P];
          destruct (url.User _); repeat case_decide;
          try destruct (strings.Contains _ ":"); decided_by_variable P ].

Ltac settle P :=
  unfold config.LoadFromEnv; cbv zeta;
  repeat (apply (override_settled P); [local_step P|]);
  right; split; reflexivity.

Section IdempotenceTheorem.
Import config.
Implicit Types (env : gmap string string) (c : Config).

(** X8: [LoadFromEnv] is idempotent: loading the same environment into a
    configuration a second time changes nothing. *)
Theorem LoadFromEnv_idempotent env c :
  LoadFromEnv env (LoadFromEnv env c) = LoadFromEnv env c.
Proof.
  apply Config_ext;
    match goal with
    | |- ?lhs = _ =>
        let abstracted := eval pattern (LoadFromEnv env (LoadFromEnv env c)) in lhs in
        match abstracted with
        | ?P _ => apply (settled_twice P (LoadFromEnv env)); settle P
        end
    end.
Qed.

End IdempotenceTheorem.

(** ** Package config: host and port out of a connection URL *)

Section HostPort.
Import config.

Lemma Split_first (s : string) :
  at_index (strings.Split s ":") 0 = (strings.Cut s ":").1.1.
Proof.
  unfold strings.Split, strings.Cut.
  destruct (strings.find s ":") as [i|] eqn:Hfind.
  - destruct s as [|a s]; [discriminate|].
    change (strings.len (String a s)) with (S (strings.len s)).
    simpl. rewrite Hfind. reflexivity.
  - destruct (strings.len s); simpl; rewrite ?Hfind; reflexivity.
Qed.

Lemma Split_second (s : string) (i : nat) :
  strings.find s ":" = Some i ->
  at_index (strings.Split s ":") 1
  = (strings.Cut (strings.drop (i + strings.len ":") s) ":").1.1.
Proof.
  intros Hfind. unfold strings.Split.
  destruct s as [|a s]; [discriminate|].
  change (strings.len (String a s)) with (S (strings.len s)).
  simpl strings.split_at. rewrite Hfind.
  destruct (strings.len s) as [|n] eqn:Hlen.
  - destruct s; [|discriminate Hlen].
    unfold strings.find in Hfind. cbn [String.index] in Hfind.
    destruct (String.prefix _ _); [|discriminate].
    injection Hfind as <-. reflexivity.
  - simpl. unfold strings.Cut.
    destruct (strings.find (strings.drop _ _) ":"); reflexivity.
Qed.

(** X9: out of the host part of a URL that parses, [parseDatabaseURL] takes
    for the host what stands before the first colon, and for the port what
    stands between the first colon and the second; without a colon the port
    is [5432].  (So an IPv6 literal is cut at its first colon.) *)
Theorem parseDatabaseURL_host_and_port raw u c :
  url.Parse raw = Some u ->
  url.Host u ≠ "" ->
  DatabaseConfig.Host (Database (parseDatabaseURL raw c))
  = (strings.Cut (url.Host u) ":").1.1
  ∧ DatabaseConfig.Port (Database (parseDatabaseURL raw c))
    = if (strings.Cut (url.Host u) ":").2
      then (strings.Cut (strings.Cut (url.Host u) ":").1.2 ":").1.1
      else "5432".
Proof.
  intros Hparse Hhost. unfold parseDatabaseURL. rewrite Hparse.
  pose proof (Split_first (url.Host u)) as Hfirst.
  pose proof (Split_second (url.Host u)) as Hsecond.
  unfold strings.Contains, strings.Cut in *.
  destruct (strings.find (url.Host u) ":") as [i|] eqn:Hfind.
  - specialize (Hsecond i eq_refl).
    destruct (url.User u); repeat case_decide; try contradiction;
      simpl; rewrite Hfirst, Hsecond; split; reflexivity.
  - destruct (url.User u); repeat case_decide; try contradiction;
      simpl; split; reflexivity.
Qed.

End HostPort.

(** ** Package health: what a readiness probe reports *)

Section Readiness.
Context {W : Type} {platform : Platform W}.
Implicit Types (h : health.Handler W) (c : gin.Context health.HealthResponse.t)
  (w : W) (ctx : health.context) (checker : health.Checker W).

Lemma runCheckers_dom checkers ctx checks overall w :
  dom (health.runCheckers checkers ctx checks overall w).1.1
  = dom checks ∪ list_to_set (health.Name <$> checkers).
Proof.
  revert checks overall w.
  induction checkers as [|checker rest IH]; intros checks overall w; simpl.
  - rewrite (right_id_L ∅ (∪)). reflexivity.
  - destruct (health.Check checker ctx w) as [check w'].
    rewrite IH, dom_insert_L.
    rewrite (comm_L (∪) {[health.Name checker]} (dom checks)).
    rewrite <- (assoc_L (∪)). reflexivity.
Qed.

(** X10: a readiness probe runs every registered checker, once and in
    registration order, also after one has reported unhealthy: the response
    has a check for every registered name and for no other, and the world is
    the one the checkers leave one after the other. *)
Theorem ReadyHandler_runs_every_checker h c w :
  ∃ r, gin.reply (health.ReadyHandler h c w).1 = Some r
     ∧ dom (health.HealthResponse.Checks r)
       = list_to_set (health.Name <$> health.checkers h)
     ∧ (health.ReadyHandler h c w).2
       = health.world_after (health.checkers h) (health.probe_context c w) w.
Proof.
  eexists. split; [apply ReadyHandler_reply|]. simpl. split.
  - rewrite runCheckers_dom, dom_empty_L, (left_id_L ∅ (∪)). reflexivity.
  - unfold health.ReadyHandler. fold (health.probe_context c w).
    rewrite <- (runCheckers_world _ _ ∅ health.StatusHealthy).
    destruct (health.runCheckers _ _ _ _ _) as [[checks overall] w'].
    reflexivity.
Qed.

(** X11: under a name, the response lists what the last checker registered
    under that name reported; an earlier checker of the same name still runs
    and still counts for the overall status, but its check is not listed. *)
Theorem ReadyHandler_lists_last_of_a_name before checker after c w :
  health.Name checker ∉ health.Name <$> after ->
  ∃ r, gin.reply
         (health.ReadyHandler (health.mkHandler (before ++ checker :: after)) c w).1
       = Some r
     ∧ health.HealthResponse.Checks r !! health.Name checker
       = Some (health.Check checker (health.probe_context c w)
                 (health.world_after before (health.probe_context c w) w)).1.
Proof.
  intros Hlast. eexists. split; [apply ReadyHandler_reply|]. simpl.
  set (ctx := health.probe_context c w).
  rewrite runCheckers_app. simpl. rewrite runCheckers_world.
  destruct (health.Check checker ctx (health.world_after before ctx w))
    as [check w'].
  rewrite runCheckers_lookup_other by assumption.
  apply lookup_insert_eq.
Qed.

Lemma escalate_never_improves overall check :
  (health.severity overall <= health.severity (health.escalate overall check))%nat.
Proof.
  assert (Hmost : ∀ s, (health.severity s <= 2)%nat)
    by (intros s; unfold health.severity; repeat case_decide; lia).
  unfold health.escalate. case_decide; [apply Hmost|].
  case_decide as Hdegraded; [|lia].
  destruct Hdegraded as [_ ->]. vm_compute. lia.
Qed.

(** X12: registering one more checker never improves a probe: the overall
    status with the new checker is the old one escalated by what the new
    checker reports, which is at least as severe. *)
Theorem AddChecker_never_improves h checker c w :
  ∃ r r', gin.reply (health.ReadyHandler h c w).1 = Some r
        ∧ gin.reply (health.ReadyHandler (health.AddChecker h checker) c w).1 = Some r'
        ∧ health.HealthResponse.Status r'
          = health.escalate (health.HealthResponse.Status r)
              (health.Check checker (health.probe_context c w)
                 (health.ReadyHandler h c w).2).1
        ∧ (health.severity (health.HealthResponse.Status r)
           <= health.severity (health.HealthResponse.Status r'))%nat.
Proof.
  do 2 eexists. split; [apply ReadyHandler_reply|].
  split; [apply ReadyHandler_reply|]. simpl.
  set (ctx := health.probe_context c w).
  assert (Hworld : (health.ReadyHandler h c w).2
                   = (health.runCheckers (health.checkers h) ctx ∅
                        health.StatusHealthy w).2).
  { unfold health.ReadyHandler. fold (health.probe_context c w). fold ctx.
    destruct (health.runCheckers _ _ _ _ _) as [[checks overall] w'].
    reflexivity. }
  rewrite Hworld, runCheckers_app. simpl.
  destruct (health.Check checker ctx _) as [check w'].
  split; [reflexivity|]. apply escalate_never_improves.
Qed.

End Readiness.

(** The most severe of a list does not depend on the order of the list. *)
Lemma more_severe_swap (a b m : health.Status) :
  health.known a -> health.known b -> health.known m ->
  health.more_severe a (health.more_severe b m)
  = health.more_severe b (health.more_severe a m).
Proof. intros [-> | [-> | ->]] [-> | [-> | ->]] [-> | [-> | ->]]; reflexivity. Qed.

Lemma max_severity_Permutation (l l' : list health.Status) :
  Forall health.known l -> l ≡ₚ l' ->
  health.max_severity l = health.max_severity l'.
Proof.
  intros Hknown Hperm. induction Hperm as [|x l l' Hperm IH|x y l|l l' l'' H1 IH1 H2 IH2].
  - reflexivity.
  - simpl. apply Forall_cons in Hknown as [_ Hknown]. rewrite IH; auto.
  - simpl. apply Forall_cons in Hknown as [Hy Hknown].
    apply Forall_cons in Hknown as [Hx Hknown].
    apply more_severe_swap; auto using max_severity_known.
  - rewrite IH1 by assumption. apply IH2. rewrite <- H1. assumption.
Qed.

Section ReadinessOrder.
Context {W : Type} `{Platform W}.
Implicit Types (h : health.Handler W) (c : gin.Context health.HealthResponse.t)
  (w : W).

Lemma ReadyHandler_overall h c w :
  health.HealthResponse.Status <$> gin.reply (health.ReadyHandler h c w).1
  = Some (health.max_severity
            (filter health.known (health.reported_statuses h c w))).
Proof.
  rewrite ReadyHandler_reply. simpl. f_equal.
  rewrite runCheckers_overall, foldl_escalate_ignores_unknown.
  unfold health.reported_statuses.
  set (reported := health.reports _ _ _).
  assert (Hfilter : filter health.known (health.ComponentCheck.Status <$> reported)
                    = health.ComponentCheck.Status
                        <$> filter (λ check, health.known (health.ComponentCheck.Status check))
                              reported).
  { clear. induction reported as [|check reported IH]; [reflexivity|].
    rewrite fmap_cons, !filter_cons. simpl.
    case_decide; rewrite ?fmap_cons, IH; reflexivity. }
  rewrite Hfilter.
  assert (Hknown : Forall health.known
            (health.ComponentCheck.Status
               <$> filter (λ check, health.known (health.ComponentCheck.Status check))
                     reported)).
  { apply Forall_fmap, Forall_forall. intros check Hin.
    apply list_elem_of_filter in Hin as [Hknown _]. exact Hknown. }
  rewrite foldl_escalate_known by (assumption || (left; reflexivity)).
  destruct (max_severity_known _ Hknown) as [-> | [-> | ->]]; reflexivity.
Qed.

(** X13: the overall status depends on which statuses are reported and how
    often, not on their order: two probes whose checkers report the same
    statuses in a different order answer with the same overall status. *)
Theorem overall_status_ignores_order h h' c c' w w' :
  health.reported_statuses h c w ≡ₚ health.reported_statuses h' c' w' ->
  health.HealthResponse.Status <$> gin.reply (health.ReadyHandler h c w).1
  = health.HealthResponse.Status <$> gin.reply (health.ReadyHandler h' c' w').1.
Proof.
  intros Hperm. rewrite !ReadyHandler_overall. f_equal.
  apply max_severity_Permutation.
  - apply Forall_forall. intros s Hin.
    apply list_elem_of_filter in Hin as [Hknown _]. exact Hknown.
  - rewrite Hperm. reflexivity.
Qed.

(** X14: the two checkers of the package report healthy exactly when the
    operation under them returns no error, and unhealthy (never degraded)
    when it returns one, then with an empty latency; the database checker
    does not ping when it got no connection. *)
Theorem package_checkers_healthy_iff_no_error ctx w :
  (∀ d : health.DatabaseChecker W,
      let out := health.DatabaseChecker_Check d ctx w in
      (health.ComponentCheck.Status out.1 = health.StatusHealthy
       ↔ ∃ sqlDB w1, health.DB (health.db d) w = (inr sqlDB, w1)
                     ∧ (health.PingContext sqlDB ctx w1).1 = None)
      ∧ (health.ComponentCheck.Status out.1 ≠ health.StatusHealthy ->
         health.ComponentCheck.Status out.1 = health.StatusUnhealthy
         ∧ health.ComponentCheck.Latency out.1 = "")
      ∧ (∀ err w1, health.DB (health.db d) w = (inl err, w1) -> out.2 = w1))
  ∧ (∀ r : health.RedisChecker W,
      let out := health.RedisChecker_Check r ctx w in
      (health.ComponentCheck.Status out.1 = health.StatusHealthy
       ↔ (health.pingFunc r ctx w).1 = None)
      ∧ (health.ComponentCheck.Status out.1 ≠ health.StatusHealthy ->
         health.ComponentCheck.Status out.1 = health.StatusUnhealthy
         ∧ health.ComponentCheck.Latency out.1 = "")).
Proof.
  split.
  - intros d. unfold health.DatabaseChecker_Check. simpl.
    destruct (health.DB (health.db d) w) as [[err|sqlDB] w1] eqn:Hdb.
    + simpl. split; [|split].
      * split; [discriminate|]. intros (? & ? & [=] & _).
      * intros _. split; reflexivity.
      * intros ? ? [= <- <-]. reflexivity.
    + destruct (health.PingContext sqlDB ctx w1) as [[err|] w2] eqn:Hping; simpl.
      * split; [|split].
        -- split; [discriminate|].
           intros (? & ? & [= <- <-] & Hnone). rewrite Hping in Hnone. discriminate.
        -- intros _. split; reflexivity.
        -- intros ? ? [=].
      * split; [|split].
        -- split; [|reflexivity]. intros _. exists sqlDB, w1.
           rewrite Hping. split; reflexivity.
        -- intros Hne. contradiction.
        -- intros ? ? [=].
  - intros r. unfold health.RedisChecker_Check. simpl.
    destruct (health.pingFunc r ctx w) as [[err|] w1]; simpl.
    + split; [split; discriminate|]. intros _. split; reflexivity.
    + split; [split; reflexivity|]. intros Hne. contradiction.
Qed.

End ReadinessOrder.

(** ** Package middleware: what CORS does to a request *)

Section CORSHeaders.
Context {B W : Type}.
Implicit Types (c : gin.Context B) (w : W) (config : middleware.CORSConfig).

Lemma SetHeader_Get c key value :
  gin.Header_Get (gin.header (gin.Writer (gin.SetHeader c key value))) key = value.
Proof.
  unfold gin.SetHeader, gin.Header_Get, gin.Header_Set, gin.Header_Del. simpl.
  case_decide as Hvalue.
  - rewrite lookup_delete_eq. congruence.
  - rewrite lookup_insert_eq. reflexivity.
Qed.

Lemma SetHeader_lookup c key value :
  gin.header (gin.Writer (gin.SetHeader c key value)) !! key
  = if decide (value = "") then None else Some [value].
Proof.
  unfold gin.SetHeader, gin.Header_Set, gin.Header_Del. simpl.
  case_decide; [apply lookup_delete_eq|apply lookup_insert_eq].
Qed.

Lemma SetHeader_other c key value key' :
  key ≠ key' ->
  gin.header (gin.Writer (gin.SetHeader c key value)) !! key'
  = gin.header (gin.Writer c) !! key'.
Proof.
  intros Hne. unfold gin.SetHeader, gin.Header_Set, gin.Header_Del. simpl.
  case_decide; [apply lookup_delete_ne|apply lookup_insert_ne]; assumption.
Qed.

Lemma listed_elem_of (origins : list string) (origin : string) :
  middleware.listed origins origin = bool_decide (origin ∈ origins).
Proof.
  induction origins as [|allowed rest IH]; cbn [middleware.listed].
  - rewrite bool_decide_eq_false_2 by apply not_elem_of_nil. reflexivity.
  - destruct (decide (allowed = origin)) as [->|Hne].
    + rewrite bool_decide_eq_true_2 by left. reflexivity.
    + rewrite IH. apply bool_decide_ext. rewrite elem_of_cons.
      split; [intros Hin; right; exact Hin|].
      intros [Heq | Hin]; [congruence|exact Hin].
Qed.

Lemma SetHeader_differs keys c key value :
  key ∈ keys -> middleware.differs_in_headers keys c (gin.SetHeader c key value).
Proof.
  intros Hkey. repeat split; try reflexivity.
  intros key' Hkey'. apply SetHeader_other. intros ->. contradiction.
Qed.

Lemma differs_in_headers_trans keys c1 c2 c3 :
  middleware.differs_in_headers keys c1 c2 ->
  middleware.differs_in_headers keys c2 c3 ->
  middleware.differs_in_headers keys c1 c3.
Proof.
  intros (?&?&?&?&?&?&H12) (?&?&?&?&?&?&H23).
  repeat split; try congruence.
  intros key Hkey. rewrite H23, H12 by assumption. reflexivity.
Qed.

Lemma differs_in_headers_refl keys c : middleware.differs_in_headers keys c c.
Proof. repeat split; reflexivity. Qed.

(** What the middleware has done to the context by the time it looks at the
    method: the five headers are set, nothing else has changed, and the
    allow-origin header holds the value the allow-list yields; [c.Header]
    drops a header it is given no value for. *)
Lemma CORS_prepares config next c w :
  ∃ c',
    middleware.CORS config next (c, w)
    = (if decide (gin.Method (gin.Request_ c) = "OPTIONS")
       then (gin.AbortWithStatus c' 204, w) else next (c', w))
    ∧ middleware.differs_in_headers middleware.CORS_headers c c'
    ∧ gin.header (gin.Writer c') !! "Access-Control-Allow-Origin"
      = let origin := gin.Header_Get (gin.Header (gin.Request_ c)) "Origin" in
        let allowOrigin :=
          if decide (middleware.open_to_all config)
          then (if decide (origin = "") then "*" else origin)
          else if bool_decide (origin ∈ middleware.AllowedOrigins config)
               then origin else "*" in
        if decide (allowOrigin = "") then None else Some [allowOrigin].
Proof.
  unfold middleware.CORS.
  set (origin := gin.Header_Get (gin.Header (gin.Request_ c)) "Origin").
  match goal with
  | |- context [gin.SetHeader c "Access-Control-Allow-Origin" ?v] =>
      set (allowOrigin := v)
  end.
  set (c1 := gin.SetHeader c "Access-Control-Allow-Origin" allowOrigin).
  set (c2 := gin.SetHeader c1 "Access-Control-Allow-Methods" _).
  set (c3 := gin.SetHeader c2 "Access-Control-Allow-Headers" _).
  set (c4 := gin.SetHeader c3 "Access-Control-Expose-Headers" _).
  set (c5 := if middleware.AllowCredentials config
             then gin.SetHeader c4 "Access-Control-Allow-Credentials" "true"
             else c4).
  assert (H15 : middleware.differs_in_headers middleware.CORS_headers c c5
                ∧ gin.header (gin.Writer c5) !! "Access-Control-Allow-Origin"
                  = gin.header (gin.Writer c1) !! "Access-Control-Allow-Origin").
  { assert (H14 : middleware.differs_in_headers middleware.CORS_headers c c4
                  ∧ gin.header (gin.Writer c4) !! "Access-Control-Allow-Origin"
                    = gin.header (gin.Writer c1)
                        !! "Access-Control-Allow-Origin").
    { split.
      - repeat (eapply differs_in_headers_trans;
                [|apply SetHeader_differs; unfold middleware.CORS_headers;
                  set_solver]).
        apply differs_in_headers_refl.
      - subst c4 c3 c2.
        rewrite !SetHeader_other by discriminate. reflexivity. }
    subst c5. destruct (middleware.AllowCredentials config); [|exact H14].
    destruct H14 as [Hd Hh]. split.
    - eapply differs_in_headers_trans; [exact Hd|].
      apply SetHeader_differs. unfold middleware.CORS_headers. set_solver.
    - rewrite SetHeader_other by discriminate. exact Hh. }
  destruct H15 as [Hd Hh].
  exists c5. split; [|split].
  - destruct Hd as (Hreq & _). rewrite Hreq. reflexivity.
  - exact Hd.
  - rewrite Hh. clear Hd Hh c5 c4 c3 c2.
    subst c1. rewrite SetHeader_lookup.
    assert (Hvalue : allowOrigin
                     = if decide (middleware.open_to_all config)
                       then (if decide (origin = "") then "*" else origin)
                       else if bool_decide (origin ∈ middleware.AllowedOrigins config)
                            then origin else "*").
    { subst allowOrigin. rewrite listed_elem_of.
      destruct (decide (middleware.open_to_all config)) as [Hopen|Hopen];
        unfold middleware.open_to_all in Hopen;
        destruct (middleware.AllowedOrigins config) as [|first rest].
      - reflexivity.
      - rewrite decide_True by assumption. reflexivity.
      - contradiction.
      - rewrite decide_False by assumption. reflexivity. }
    cbv zeta. rewrite <- Hvalue. reflexivity.
Qed.

(** X15: the allow-list of the CORS middleware refuses no origin.  With no
    allow-list, or one that starts with the wildcard, the
    Access-Control-Allow-Origin header echoes the request's Origin (the
    wildcard when there is none); with an allow-list it echoes an Origin
    that is on the list and answers the wildcard to every other one.  The
    header is left out in one case only: the request carries no Origin and
    the allow-list, not starting with the wildcard, holds an empty entry. *)
Theorem CORS_allow_list_refuses_no_origin config next c w :
  let origin := gin.Header_Get (gin.Header (gin.Request_ c)) "Origin" in
  let allowOrigin :=
    if decide (middleware.open_to_all config)
    then (if decide (origin = "") then "*" else origin)
    else if bool_decide (origin ∈ middleware.AllowedOrigins config)
         then origin else "*" in
  ∃ c',
    middleware.CORS config next (c, w)
    = (if decide (gin.Method (gin.Request_ c) = "OPTIONS")
       then (gin.AbortWithStatus c' 204, w) else next (c', w))
    ∧ gin.header (gin.Writer c') !! "Access-Control-Allow-Origin"
      = (if decide (allowOrigin = "") then None else Some [allowOrigin])
    ∧ (gin.header (gin.Writer c') !! "Access-Control-Allow-Origin" = None
       ↔ ¬ middleware.open_to_all config
         ∧ origin = ""
         ∧ "" ∈ middleware.AllowedOrigins config)
    ∧ (origin ≠ "" ->
       origin ∉ middleware.AllowedOrigins config ->
       ¬ middleware.open_to_all config ->
       gin.header (gin.Writer c') !! "Access-Control-Allow-Origin" = Some ["*"]).
Proof.
  intros origin allowOrigin.
  destruct (CORS_prepares config next c w) as (c' & Hrun & _ & Hallow).
  fold origin in Hallow. cbv zeta in Hallow. fold allowOrigin in Hallow.
  exists c'. split; [exact Hrun|]. split; [exact Hallow|].
  rewrite Hallow. subst allowOrigin. split.
  - destruct (decide (middleware.open_to_all config)) as [Hopen|Hopen].
    + destruct (decide (origin = "")) as [Hnone|Hsome].
      * rewrite decide_False by discriminate.
        split; [discriminate|intros [Hno _]; contradiction].
      * rewrite decide_False by assumption.
        split; [discriminate|intros [Hno _]; contradiction].
    + destruct (bool_decide (origin ∈ middleware.AllowedOrigins config))
        eqn:Hlisted.
      * apply bool_decide_eq_true in Hlisted.
        destruct (decide (origin = "")) as [Hnone|Hsome].
        -- split; [intros _|reflexivity].
           split; [assumption|]. split; [assumption|].
           rewrite <- Hnone. exact Hlisted.
        -- split; [discriminate|intros (_ & Hnone & _); contradiction].
      * apply bool_decide_eq_false in Hlisted.
        rewrite decide_False by discriminate.
        split; [discriminate|]. intros (_ & Hnone & Hempty).
        exfalso. apply Hlisted. rewrite Hnone. exact Hempty.
  - intros Hsome Hnot Hclosed.
    rewrite (decide_False (P := middleware.open_to_all config)) by assumption.
    rewrite bool_decide_eq_false_2 by assumption.
    rewrite decide_False by discriminate. reflexivity.
Qed.

(** X16: a request whose method is not OPTIONS is handed to the rest of
    the chain exactly once, in the same world, with nothing changed but the
    five CORS response headers; the result of the chain is returned as it
    is. *)
Theorem CORS_hands_on_other_methods config next c w :
  gin.Method (gin.Request_ c) ≠ "OPTIONS" ->
  ∃ c',
    middleware.CORS config next (c, w) = next (c', w)
    ∧ middleware.differs_in_headers middleware.CORS_headers c c'.
Proof.
  intros Hmethod.
  destruct (CORS_prepares config next c w) as (c' & Hrun & Hd & _).
  exists c'. split; [|exact Hd].
  rewrite Hrun. rewrite decide_False by assumption. reflexivity.
Qed.

End CORSHeaders.

(** ** Package middleware: an allow-list given as one string *)

Section SplitJoin.

Lemma append_cons (a : Ascii.ascii) (s t : string) :
  String a s +:+ t = String a (s +:+ t).
Proof. reflexivity. Qed.

Lemma append_empty (t : string) : "" +:+ t = t.
Proof. reflexivity. Qed.

Lemma find_comma_cons (a : Ascii.ascii) (s : string) :
  strings.find (String a s) ","
  = if decide (a = ","%char) then Some 0%nat
    else S <$> strings.find s ",".
Proof.
  unfold strings.find. cbn [String.index String.prefix].
  destruct (Ascii.ascii_dec "," a) as [Heq|Hne].
  - rewrite decide_True by congruence. destruct s; reflexivity.
  - rewrite decide_False by congruence.
    destruct (String.index 0 "," s); reflexivity.
Qed.

Lemma find_comma_after (e rest : string) :
  strings.find e "," = None ->
  strings.find (e +:+ "," +:+ rest) "," = Some (strings.len e).
Proof.
  induction e as [|a e IH]; intros Hfree.
  - rewrite append_empty, append_cons, find_comma_cons.
    rewrite decide_True by reflexivity. reflexivity.
  - rewrite find_comma_cons in Hfree. rewrite append_cons, find_comma_cons.
    destruct (decide (a = ","%char)); [discriminate|].
    destruct (strings.find e ",") eqn:He; [discriminate|].
    rewrite IH by reflexivity. reflexivity.
Qed.

Lemma take_append (e rest : string) : strings.take (strings.len e) (e +:+ rest) = e.
Proof.
  unfold strings.take, strings.len.
  induction e as [|a e IH].
  - destruct rest; reflexivity.
  - rewrite append_cons. cbn [String.length String.substring]. rewrite IH.
    reflexivity.
Qed.

Lemma substring_all (s : string) : String.substring 0 (String.length s) s = s.
Proof.
  induction s as [|a s IH]; [reflexivity|].
  cbn [String.length String.substring]. rewrite IH. reflexivity.
Qed.

Lemma drop_append (e : string) (a : Ascii.ascii) (rest : string) :
  strings.drop (strings.len e + 1) (e +:+ String a rest) = rest.
Proof.
  unfold strings.drop, strings.len.
  induction e as [|b e IH].
  - rewrite append_empty. cbn [String.length Nat.add String.substring].
    replace (S (String.length rest) - 1)%nat with (String.length rest) by lia.
    apply substring_all.
  - rewrite append_cons. cbn [String.length Nat.add String.substring].
    replace (S (String.length (e +:+ String a rest)) - S (String.length e + 1))%nat
      with (String.length (e +:+ String a rest) - (String.length e + 1))%nat
      by lia.
    exact IH.
Qed.

Lemma Join_cons (e e' : string) (elems : list string) (sep : string) :
  strings.Join (e :: e' :: elems) sep
  = e +:+ sep +:+ strings.Join (e' :: elems) sep.
Proof. reflexivity. Qed.

Lemma split_at_Join (elems : list string) :
  Forall (λ e, strings.find e "," = None) elems ->
  ∀ budget e,
    (length elems <= budget)%nat ->
    strings.split_at budget (strings.Join (e :: elems) ",") ","
    = e :: elems ∨ strings.find e "," ≠ None.
Proof.
  induction 1 as [|e' elems He' Helems IH]; intros budget e Hbudget.
  - destruct (strings.find e ",") eqn:He; [right; discriminate|left].
    change (strings.Join [e] ",") with e.
    destruct budget; cbn [strings.split_at]; rewrite ?He; reflexivity.
  - destruct (strings.find e ",") eqn:He; [right; discriminate|left].
    destruct budget as [|budget]; [simpl in Hbudget; lia|].
    rewrite Join_cons. cbn [strings.split_at].
    rewrite find_comma_after by exact He.
    rewrite take_append.
    change ("," +:+ strings.Join (e' :: elems) ",")
      with (String ","%char (strings.Join (e' :: elems) ",")).
    change (strings.len ",") with 1%nat.
    rewrite drop_append.
    destruct (IH budget e') as [-> | Hno]; [simpl in Hbudget; lia|reflexivity|].
    contradiction.
Qed.

Lemma len_append (s t : string) :
  strings.len (s +:+ t) = (strings.len s + strings.len t)%nat.
Proof.
  unfold strings.len. induction s as [|a s IH]; [reflexivity|].
  rewrite append_cons. cbn [String.length]. rewrite IH. reflexivity.
Qed.

Lemma len_Join (e : string) (elems : list string) :
  (length elems <= strings.len (strings.Join (e :: elems) ","))%nat.
Proof.
  revert e. induction elems as [|e' elems IH]; intros e; [simpl; lia|].
  rewrite Join_cons, !len_append. specialize (IH e').
  change (strings.len ",") with 1%nat. simpl length. lia.
Qed.

(** Splitting on the comma undoes joining with it, for pieces that hold no
    comma. *)
Lemma Split_Join (elems : list string) :
  elems ≠ [] ->
  Forall (λ e, strings.find e "," = None) elems ->
  strings.Split (strings.Join elems ",") "," = elems.
Proof.
  intros Hne Hfree. destruct elems as [|e elems]; [contradiction|].
  apply Forall_cons in Hfree as [He Hfree].
  unfold strings.Split.
  destruct (split_at_Join elems Hfree
              (strings.len (strings.Join (e :: elems) ",")) e (len_Join e elems))
    as [Hsplit | Hno]; [exact Hsplit|contradiction].
Qed.

End SplitJoin.

Section AllowList.
Context {B W : Type}.

(** X17: [CORSWithOrigins] reads its argument as the comma-separated list
    of allowed origins, each with the white space around it removed: given
    the entries joined by commas, it is the CORS middleware whose allow-list
    is the trimmed entries, the other settings being the defaults.  The
    empty string and the lone wildcard stand for the default
    configuration. *)
Theorem CORSWithOrigins_reads_joined_list (entries : list string) :
  entries ≠ [] ->
  Forall (λ e, strings.find e "," = None) entries ->
  middleware.CORSWithOrigins (B := B) (W := W) (strings.Join entries ",")
  = if decide (strings.Join entries "," = "" ∨ strings.Join entries "," = "*")
    then middleware.DefaultCORS
    else middleware.CORS
           (middleware.mkCORSConfig (strings.TrimSpace <$> entries)
              (middleware.AllowedMethods middleware.DefaultCORSConfig)
              (middleware.AllowedHeaders middleware.DefaultCORSConfig)
              (middleware.ExposedHeaders middleware.DefaultCORSConfig)
              (middleware.AllowCredentials middleware.DefaultCORSConfig)
              (middleware.MaxAge middleware.DefaultCORSConfig)).
Proof.
  intros Hne Hfree. unfold middleware.CORSWithOrigins.
  destruct (decide (strings.Join entries "," ≠ "" ∧ strings.Join entries "," ≠ "*"))
    as [[H1 H2]|Hdefault].
  - rewrite decide_False by (intros [? | ?]; contradiction).
    rewrite Split_Join by assumption. reflexivity.
  - rewrite decide_True; [reflexivity|].
    destruct (decide (strings.Join entries "," = "")); [left; assumption|].
    destruct (decide (strings.Join entries "," = "*")); [right; assumption|].
    exfalso. apply Hdefault. split; assumption.
Qed.

End AllowList.

(** ** gin's response writer: headers and bodies *)

Section GinHeaders.
Context {B : Type}.
Implicit Types (c : gin.Context B) (obj : B).

Lemma WriteHeaderNow_header (writer : gin.ResponseWriter B) :
  gin.header (gin.WriteHeaderNow writer) = gin.header writer.
Proof. unfold gin.WriteHeaderNow. destruct (gin.written writer); reflexivity. Qed.

Lemma WriteHeader_header (writer : gin.ResponseWriter B) code :
  gin.header (gin.WriteHeader writer code) = gin.header writer.
Proof.
  unfold gin.WriteHeader.
  destruct ((0 <? code) && negb (gin.status writer =? code)); [|reflexivity].
  destruct (gin.written writer); reflexivity.
Qed.

Lemma AbortWithStatus_header c code :
  gin.header (gin.Writer (gin.AbortWithStatus c code)) = gin.header (gin.Writer c).
Proof.
  unfold gin.AbortWithStatus, gin.Abort, gin.Status.
  cbn [gin.with_index gin.with_Writer gin.Writer].
  rewrite WriteHeaderNow_header. apply WriteHeader_header.
Qed.

Lemma writeContentType_body (writer : gin.ResponseWriter B) value :
  gin.body (gin.writeContentType writer value) = gin.body writer.
Proof.
  unfold gin.writeContentType.
  destruct (gin.header writer !! "Content-Type") as [[|? ?]|]; reflexivity.
Qed.

Lemma writeContentType_other (writer : gin.ResponseWriter B)
    value key :
  key ≠ "Content-Type" ->
  gin.header (gin.writeContentType writer value) !! key = gin.header writer !! key.
Proof.
  intros Hkey. unfold gin.writeContentType.
  destruct (gin.header writer !! "Content-Type") as [[|? ?]|];
    try reflexivity; cbn [gin.header]; apply lookup_insert_ne; congruence.
Qed.

Lemma JSON_body c code obj :
  gin.body (gin.Writer (gin.JSON c code obj))
  = (gin.body (gin.Writer c)
     ++ if gin.bodyAllowedForStatus code then [obj] else [])%list.
Proof.
  unfold gin.JSON, gin.Status.
  destruct (gin.bodyAllowedForStatus code);
    cbn [gin.with_Writer gin.Writer gin.Write gin.body];
    rewrite ?WriteHeaderNow_body, writeContentType_body, WriteHeader_body;
    [reflexivity|rewrite app_nil_r; reflexivity].
Qed.

Lemma JSON_other_header c code obj key :
  key ≠ "Content-Type" ->
  gin.header (gin.Writer (gin.JSON c code obj)) !! key
  = gin.header (gin.Writer c) !! key.
Proof.
  intros Hkey. unfold gin.JSON, gin.Status.
  destruct (gin.bodyAllowedForStatus code);
    cbn [gin.with_Writer gin.Writer gin.Write gin.header];
    rewrite WriteHeaderNow_header, writeContentType_other, WriteHeader_header
      by assumption; reflexivity.
Qed.

End GinHeaders.

(** ** Package middleware: request logging *)

Section RequestLogging.
Context {B W : Type} {platform : Platform W} {details : gin.Details B}.
Implicit Types (c : gin.Context B) (w : W) (logger : zap.Logger W).

(** The context [Logger] hands to the rest of the chain. *)
Lemma Logger_run logger next c w :
  let id := (uuid_NewString w).1 in
  let w1 := (uuid_NewString w).2 in
  let c1 := gin.SetHeader (gin.Set_ c middleware.RequestIDKey (go.any_string id))
              "X-Request-ID" id in
  let out := next (c1, w1) in
  let statusCode := gin.status (gin.Writer out.1) in
  ∃ entry,
    middleware.Logger logger next (c, w) = (out.1, zap.write logger entry out.2)
    ∧ zap.level entry
      = (if 500 <=? statusCode then zap.ErrorLevel
         else if 400 <=? statusCode then zap.WarnLevel else zap.InfoLevel)
    ∧ zap.fields entry !! 0%nat = Some ("request_id", go.any_string id)
    ∧ zap.fields entry !! 2%nat
      = Some ("path", go.any_string (gin.URL_Path (gin.Request_ c)))
    ∧ zap.fields entry !! 4%nat = Some ("status", go.any_int statusCode)
    ∧ zap.fields entry !! 5%nat
      = Some ("duration", go.any_int (time_Now out.2 - time_Now w1)).
Proof.
  unfold middleware.Logger.
  destruct (uuid_NewString w) as [id w1]. cbn [fst snd].
  destruct (next _) as [c2 w2]. cbn [fst snd].
  destruct (gin.Get c2 "user_id"), (gin.Errors c2);
    destruct (500 <=? gin.status (gin.Writer c2));
    destruct (400 <=? gin.status (gin.Writer c2));
    eexists; (split; [reflexivity|]); repeat split.
Qed.


(** X19: [Logger] writes one log entry per request, after the rest of the
    chain has returned: at level error for a status of 500 and above, at
    level warn from 400 to 499, at level info below.  The entry carries the
    identifier drawn, the status the chain left, the path as it was before
    the chain ran, and the time the chain took. *)
Theorem Logger_logs_once_by_status logger next c w :
  let id := (uuid_NewString w).1 in
  let w1 := (uuid_NewString w).2 in
  ∃ c1 entry,
    let out := next (c1, w1) in
    let statusCode := gin.status (gin.Writer out.1) in
    (middleware.Logger logger next (c, w)).2 = zap.write logger entry out.2
    ∧ (middleware.Logger logger next (c, w)).1 = out.1
    ∧ zap.level entry
      = (if 500 <=? statusCode then zap.ErrorLevel
         else if 400 <=? statusCode then zap.WarnLevel else zap.InfoLevel)
    ∧ ("request_id", go.any_string id) ∈ zap.fields entry
    ∧ ("status", go.any_int statusCode) ∈ zap.fields entry
    ∧ ("path", go.any_string (gin.URL_Path (gin.Request_ c))) ∈ zap.fields entry
    ∧ ("duration", go.any_int (time_Now out.2 - time_Now w1)) ∈ zap.fields entry.
Proof.
  intros id w1.
  destruct (Logger_run logger next c w)
    as (entry & Hrun & Hlevel & Hid & Hpath & Hstatus & Hduration).
  eexists. exists entry. cbv zeta. rewrite Hrun.
  split; [reflexivity|]. split; [reflexivity|]. split; [exact Hlevel|].
  split; [eapply list_elem_of_lookup_2; exact Hid|].
  split; [eapply list_elem_of_lookup_2; exact Hstatus|].
  split; [eapply list_elem_of_lookup_2; exact Hpath|].
  eapply list_elem_of_lookup_2; exact Hduration.
Qed.

Lemma skipMap_lookup (skipPaths : list string) (path : string) :
  default false
    (foldl (fun (m : gmap string bool) p => <[p := true]> m) ∅ skipPaths !! path)
  = bool_decide (path ∈ skipPaths).
Proof.
  assert (Hgen : ∀ (m : gmap string bool),
            default false (foldl (fun m p => <[p := true]> m) m skipPaths !! path)
            = default false (m !! path) || bool_decide (path ∈ skipPaths)).
  { induction skipPaths as [|p rest IH]; intros m; cbn [foldl].
    - rewrite (bool_decide_eq_false_2 (path ∈ [])) by apply not_elem_of_nil.
      rewrite orb_false_r. reflexivity.
    - rewrite IH. destruct (decide (p = path)) as [->|Hne].
      + rewrite lookup_insert_eq.
        rewrite (bool_decide_eq_true_2 (path ∈ path :: rest)) by left.
        rewrite orb_true_r. reflexivity.
      + rewrite lookup_insert_ne by assumption. f_equal.
        apply bool_decide_ext. rewrite elem_of_cons.
        split; [intros Hin; right; exact Hin|].
        intros [Heq | Hin]; [congruence|exact Hin]. }
  rewrite Hgen, lookup_empty. reflexivity.
Qed.

(** X20: [SkipPathLogger] leaves a request alone when its path is one of
    the paths to skip: the rest of the chain runs on the context as it is,
    no identifier is drawn and nothing is logged.  Every other request is
    treated as by [Logger]. *)
Theorem SkipPathLogger_skips_exactly_the_listed_paths logger
    (skipPaths : list string) next (s : gin.Context B * W) :
  middleware.SkipPathLogger logger skipPaths next s
  = if bool_decide (gin.URL_Path (gin.Request_ s.1) ∈ skipPaths)
    then next s
    else middleware.Logger logger next s.
Proof.
  unfold middleware.SkipPathLogger. cbv zeta.
  rewrite skipMap_lookup. reflexivity.
Qed.

(** Behind [Logger], whatever the chain holds in front of the CORS
    middleware at position 1, a preflight request is answered 204 and
    logged. *)
Lemma Logger_then_CORS config logger (rest : list (gin.HandlerFunc B W))
    (req : gin.Request) w :
  Z.of_nat (S (S (length rest))) < gin.abortIndex ->
  gin.Method req = "OPTIONS" ->
  let id := (uuid_NewString w).1 in
  let w1 := (uuid_NewString w).2 in
  let out :=
    gin.ServeHTTP (middleware.Logger logger :: middleware.CORS config :: rest)
      req w in
  ∃ entry,
    out.2 = zap.write logger entry w1
    ∧ zap.level entry = zap.InfoLevel
    ∧ zap.fields entry !! 4%nat = Some ("status", go.any_int 204)
    ∧ gin.code out.1 = 204
    ∧ gin.body (gin.Writer out.1) = []
    ∧ gin.Header_Get (gin.header (gin.Writer out.1)) "X-Request-ID" = id.
Proof.
  intros Hshort Hmethod id w1 out. subst out.
  set (handlers := middleware.Logger logger :: middleware.CORS config :: rest).
  assert (Hlength : length handlers = S (S (length rest))) by reflexivity.
  unfold gin.abortIndex in Hshort.
  assert (Hlen : gin.int8 (Z.of_nat (length handlers)) = Z.of_nat (length handlers))
    by (apply int8_small; lia).
  unfold gin.ServeHTTP. rewrite Next_S.
  change (gin.bump (gin.fresh req, w))
    with (gin.with_index (gin.fresh (B := B) req) (gin.int8 (-1 + 1)), w).
  change (gin.int8 (-1 + 1)) with 0.
  rewrite loop_S, Hlen. cbn [fst gin.index gin.with_index].
  destruct (Z.ltb_spec 0 (Z.of_nat (length handlers))); [|lia].
  change (gin.handler_at handlers 0) with (Some (middleware.Logger (B := B) logger)).
  destruct (Logger_run logger (gin.Next (length handlers) handlers)
              (gin.with_index (gin.fresh req) 0) w)
    as (entry & Hrun & Hlevel & _ & _ & Hstatus & _).
  fold id w1 in Hrun, Hlevel, Hstatus.
  set (c1 := gin.SetHeader
               (gin.Set_ (gin.with_index (gin.fresh req) 0)
                  middleware.RequestIDKey (go.any_string id))
               "X-Request-ID" id) in *.
  rewrite Hrun. clear Hrun.
  assert (Hnext : gin.Next (length handlers) handlers (c1, w1)
                  = gin.bump (middleware.CORS config (fun s => s)
                                (gin.with_index c1 (Z.of_nat 1), w1))).
  { apply (Next_reaches_CORS_preflight config handlers 1 c1 w1 (S (length rest)));
      try reflexivity; [|assumption].
    rewrite Hlength. unfold gin.abortIndex. lia. }
  rewrite Hnext in Hlevel, Hstatus |- *.
  destruct (CORS_prepares config (fun s => s) (gin.with_index c1 (Z.of_nat 1)) w1)
    as (c' & Hcors & Hd & _).
  destruct (CORS_preflight config (fun s => s)
              (gin.with_index c1 (Z.of_nat 1)) w1 Hmethod)
    as (Hidx & Hwritten & Hbody & Hcode & Hworld & _).
  specialize (Hcode eq_refl). unfold gin.code in Hcode.
  set (done := middleware.CORS config (fun s => s)
                 (gin.with_index c1 (Z.of_nat 1), w1)) in *.
  assert (Hstatus204 : gin.status (gin.Writer (gin.bump done).1) = 204)
    by exact Hcode.
  rewrite Hstatus204 in Hlevel, Hstatus.
  rewrite loop_aborted.
  2:{ rewrite index_bump. cbn [fst]. rewrite index_bump, Hidx, Hlen.
      change (gin.int8 (gin.int8 (gin.abortIndex + 1) + 1)) with 65. lia. }
  rewrite decide_True in Hcors by exact Hmethod.
  clearbody done. subst done. cbn [fst snd] in *.
  exists entry. unfold gin.bump, gin.code.
  cbn [fst snd gin.with_index gin.with_Writer gin.Writer].
  rewrite WriteHeaderNow_status, WriteHeaderNow_body.
  split; [reflexivity|].
  split; [exact Hlevel|]. split; [exact Hstatus|].
  split; [exact Hcode|]. split; [exact Hbody|].
  unfold gin.Header_Get. rewrite WriteHeaderNow_header.
  rewrite AbortWithStatus_header.
  destruct Hd as (_ & _ & _ & _ & _ & _ & Hheaders).
  rewrite Hheaders.
  - fold (gin.Header_Get (gin.header (gin.Writer (gin.with_index c1 (Z.of_nat 1))))
            "X-Request-ID").
    apply SetHeader_Get.
  - unfold middleware.CORS_headers. rewrite !elem_of_cons, elem_of_nil.
    intros [? | [? | [? | [? | [? | []]]]]]; discriminate.
Qed.

(** X21: with [Logger] first and the CORS middleware second in the chain,
    a preflight request is answered 204 with an empty body by the CORS
    middleware and still logged, once, at level info with status 204; the
    answer carries the [X-Request-ID] drawn for it, and no handler behind
    the two runs. *)
Theorem preflight_behind_Logger_is_logged config logger
    (rest : list (gin.HandlerFunc B W)) (req : gin.Request) w :
  Z.of_nat (S (S (length rest))) < gin.abortIndex ->
  gin.Method req = "OPTIONS" ->
  let out :=
    gin.ServeHTTP (middleware.Logger logger :: middleware.CORS config :: rest)
      req w in
  gin.code out.1 = 204
  ∧ gin.body (gin.Writer out.1) = []
  ∧ gin.Header_Get (gin.header (gin.Writer out.1)) "X-Request-ID"
    = (uuid_NewString w).1
  ∧ ∃ entry,
      out.2 = zap.write logger entry (uuid_NewString w).2
      ∧ zap.level entry = zap.InfoLevel
      ∧ ("status", go.any_int 204) ∈ zap.fields entry.
Proof.
  intros Hshort Hmethod out.
  destruct (Logger_then_CORS config logger rest req w Hshort Hmethod)
    as (entry & Hworld & Hlevel & Hstatus & Hcode & Hbody & Hheader).
  split; [exact Hcode|]. split; [exact Hbody|]. split; [exact Hheader|].
  exists entry. split; [exact Hworld|]. split; [exact Hlevel|].
  eapply list_elem_of_lookup_2. exact Hstatus.
Qed.

End RequestLogging.

(** ** Packages middleware and response: one identifier per request *)

Section Envelopes.
Context {W : Type} {platform : Platform W} {details : gin.Details response.Body}.
Implicit Types (c : gin.Context response.Body) (w : W) (logger : zap.Logger W).

(** A handler that answers with one of the package's envelopes, behind
    [Logger]. *)
Lemma Logger_then_envelope logger (mk : string -> response.Body) statusCode c w :
  let id := (uuid_NewString w).1 in
  let w1 := (uuid_NewString w).2 in
  let out :=
    middleware.Logger logger
      (fun s => let '(requestID, w') := response.getRequestID s.1 s.2 in
                (gin.JSON s.1 statusCode (mk requestID), w'))
      (c, w) in
  gin.body (gin.Writer out.1)
  = (gin.body (gin.Writer c)
     ++ if gin.bodyAllowedForStatus statusCode then [mk id] else [])%list
  ∧ gin.Header_Get (gin.header (gin.Writer out.1)) "X-Request-ID" = id
  ∧ ∃ entry, out.2 = zap.write logger entry w1.
Proof.
  intros id w1 out. subst out.
  match goal with
  | |- context [middleware.Logger logger ?f (c, w)] => set (next := f)
  end.
  destruct (Logger_run logger next c w) as (entry & Hrun & _).
  fold id w1 in Hrun. rewrite Hrun. clear Hrun.
  set (c1 := gin.SetHeader (gin.Set_ c middleware.RequestIDKey (go.any_string id))
               "X-Request-ID" id).
  assert (Hget : response.getRequestID c1 w1 = (id, w1)).
  { unfold response.getRequestID, gin.Get. subst c1.
    cbn [gin.SetHeader gin.with_Writer gin.Keys gin.Set_].
    unfold middleware.RequestIDKey. rewrite lookup_insert_eq. reflexivity. }
  assert (Hnext : next (c1, w1) = (gin.JSON c1 statusCode (mk id), w1)).
  { subst next. cbn [fst snd]. rewrite Hget. reflexivity. }
  rewrite Hnext. cbn [fst snd].
  split; [rewrite JSON_body; reflexivity|].
  split; [|exists entry; reflexivity].
  unfold gin.Header_Get. rewrite JSON_other_header by discriminate.
  fold (gin.Header_Get (gin.header (gin.Writer c1)) "X-Request-ID").
  apply SetHeader_Get.
Qed.

(** X22: behind [Logger], the envelopes of package response carry the
    identifier [Logger] drew: the [requestId] of what [Success], [Error]
    and [ErrorWithDetails] write is the value of the [X-Request-ID]
    response header, and no second identifier is drawn.  (Nothing is written
    for a status that allows no body.) *)
Theorem envelopes_carry_the_Logger_id logger c w statusCode data code message
    details' :
  let id := (uuid_NewString w).1 in
  let w1 := (uuid_NewString w).2 in
  let served (respond : gin.Context response.Body -> W ->
                        gin.Context response.Body * W) :=
    middleware.Logger logger (fun s => respond s.1 s.2) (c, w) in
  let answered (respond : gin.Context response.Body -> W ->
                          gin.Context response.Body * W) :=
    drop (length (gin.body (gin.Writer c))) (gin.body (gin.Writer (served respond).1)) in
  Forall
    (fun respond =>
       Forall (fun b => response.requestId b = id) (answered respond)
       ∧ length (answered respond)
         = (if gin.bodyAllowedForStatus statusCode then 1 else 0)%nat
       ∧ gin.Header_Get (gin.header (gin.Writer (served respond).1)) "X-Request-ID"
         = id
       ∧ ∃ entry, (served respond).2 = zap.write logger entry w1)
    [ (fun c w => response.Success c statusCode data w);
      (fun c w => response.Error c statusCode code message w);
      (fun c w => response.ErrorWithDetails c statusCode code message details' w) ].
Proof.
  intros id w1 served answered.
  repeat apply Forall_cons_2; [| | |apply Forall_nil_2].
  - destruct (Logger_then_envelope logger
                (fun rid => response.SuccessBody (response.mkSuccess data rid))
                statusCode c w) as (Hbody & Hheader & Hworld).
    subst answered served. cbv beta.
    unfold response.Success.
    fold id w1 in Hbody, Hheader, Hworld.
    rewrite Hbody, drop_app_length.
    split; [|split; [|split; [exact Hheader|exact Hworld]]];
      destruct (gin.bodyAllowedForStatus statusCode); try reflexivity;
      repeat constructor.
  - destruct (Logger_then_envelope logger
                (fun rid => response.ErrorBody
                              (response.mkError
                                 (response.mkErrorDetail code message go.any_nil)
                                 rid))
                statusCode c w) as (Hbody & Hheader & Hworld).
    subst answered served. cbv beta.
    unfold response.Error.
    fold id w1 in Hbody, Hheader, Hworld.
    rewrite Hbody, drop_app_length.
    split; [|split; [|split; [exact Hheader|exact Hworld]]];
      destruct (gin.bodyAllowedForStatus statusCode); try reflexivity;
      repeat constructor.
  - destruct (Logger_then_envelope logger
                (fun rid => response.ErrorBody
                              (response.mkError
                                 (response.mkErrorDetail code message details')
                                 rid))
                statusCode c w) as (Hbody & Hheader & Hworld).
    subst answered served. cbv beta.
    unfold response.ErrorWithDetails.
    fold id w1 in Hbody, Hheader, Hworld.
    rewrite Hbody, drop_app_length.
    split; [|split; [|split; [exact Hheader|exact Hworld]]];
      destruct (gin.bodyAllowedForStatus statusCode); try reflexivity;
      repeat constructor.
Qed.

End Envelopes.

(** ** Package middleware: recovery from panics *)

Section Recovery.
Context {W : Type} {platform : Platform W} {runtime : middleware.Runtime W}
  {details : gin.Details go.any}.
Implicit Types (c : gin.Context go.any) (w : W) (logger : zap.Logger W)
  (err : go.any).

(** What the deferred function does with a panic. *)
Lemma Recovery_on_panic logger next s err c w :
  next s = gin.Panic err (c, w) ->
  err ≠ go.any_nil ->
  let requestID := (middleware.GetRequestID c w).1 in
  let w1 := (middleware.GetRequestID c w).2 in
  middleware.Recovery logger next s
  = gin.Done
      (gin.AbortWithStatusJSON c 500 (middleware.internal_error requestID),
       zap.write logger
         (zap.mkEntry zap.ErrorLevel "Panic recovered"
            [("request_id", go.any_string requestID);
             ("error", err);
             ("stack", go.any_string (middleware.debug_Stack w1));
             ("path", go.any_string (gin.URL_Path (gin.Request_ c)));
             ("method", go.any_string (gin.Method (gin.Request_ c)))])
         w1).
Proof.
  intros Hpanic Herr requestID w1. subst requestID w1.
  unfold middleware.Recovery. rewrite Hpanic.
  destruct (middleware.GetRequestID c w) as [requestID w1]. cbn [fst snd].
  destruct err; [contradiction|..]; reflexivity.
Qed.

Lemma AbortWithStatusJSON_index c code obj :
  gin.index (gin.AbortWithStatusJSON c code obj) = gin.abortIndex.
Proof.
  unfold gin.AbortWithStatusJSON, gin.JSON.
  destruct (gin.bodyAllowedForStatus code); reflexivity.
Qed.

(** X23: a panic below [Recovery] that happens before the response has
    started is answered with status 500 and the package's internal-error
    body, whose [requestId] is the identifier of the request (the one stored
    in the context, a fresh one otherwise); the chain is aborted and the
    panic is logged once, at level error, with the value it carried. *)
Theorem Recovery_answers_a_panic_with_500 logger next s err c w :
  next s = gin.Panic err (c, w) ->
  err ≠ go.any_nil ->
  gin.written (gin.Writer c) = false ->
  let requestID := (middleware.GetRequestID c w).1 in
  ∃ c' entry,
    middleware.Recovery logger next s
    = gin.Done (c', zap.write logger entry (middleware.GetRequestID c w).2)
    ∧ gin.code c' = 500
    ∧ gin.reply c' = Some (middleware.internal_error requestID)
    ∧ gin.IsAborted c' = true
    ∧ zap.level entry = zap.ErrorLevel
    ∧ ("request_id", go.any_string requestID) ∈ zap.fields entry
    ∧ ("error", err) ∈ zap.fields entry.
Proof.
  intros Hpanic Herr Hfresh requestID.
  pose proof (Recovery_on_panic logger next s err c w Hpanic Herr) as Hrun.
  cbv zeta in Hrun.
  eexists. eexists. split; [exact Hrun|].
  split; [apply (JSON_code (gin.Abort c)); [exact Hfresh|lia]|].
  split; [apply (JSON_reply (gin.Abort c)); reflexivity|].
  split; [unfold gin.IsAborted; rewrite AbortWithStatusJSON_index; reflexivity|].
  split; [reflexivity|].
  split; [apply (list_elem_of_lookup_2 _ 0%nat)|apply (list_elem_of_lookup_2 _ 1%nat)];
    reflexivity.
Qed.

(** X24: no panic gets past [Recovery]: whatever the rest of the chain
    does, [Recovery] returns, and when the rest of the chain returned it
    hands back the very context and world the chain left, without logging
    or answering anything. *)
Theorem Recovery_lets_no_panic_escape logger next s :
  ∃ s',
    middleware.Recovery logger next s = gin.Done s'
    ∧ match next s with
      | gin.Done s0 => s' = s0
      | gin.Panic _ _ => True
      end.
Proof.
  unfold middleware.Recovery.
  destruct (next s) as [s0|err [c w]].
  - exists s0. split; reflexivity.
  - destruct (middleware.GetRequestID c w) as [requestID w1].
    destruct err; eexists; (split; [reflexivity|exact I]).
Qed.


Lemma panicking_loop_S (next : gin.Context go.any * W -> gin.run (gin.Context go.any * W))
    handlers rounds (s : gin.Context go.any * W) :
  gin.panicking_loop next handlers (S rounds) s
  = if gin.index s.1 <? gin.int8 (Z.of_nat (length handlers)) then
      match gin.panicking_at handlers (gin.index s.1) with
      | Some h =>
          match h next s with
          | gin.Done s' => gin.panicking_loop next handlers rounds (gin.bump s')
          | gin.Panic value s' => gin.Panic value s'
          end
      | None => gin.Done s
      end
    else gin.Done s.
Proof. reflexivity. Qed.

Lemma panicking_loop_aborted
    (next : gin.Context go.any * W -> gin.run (gin.Context go.any * W))
    handlers rounds (s : gin.Context go.any * W) :
  gin.int8 (Z.of_nat (length handlers)) <= gin.index s.1 ->
  gin.panicking_loop next handlers rounds s = gin.Done s.
Proof.
  intros Hpast. destruct rounds as [|rounds]; [reflexivity|].
  rewrite panicking_loop_S.
  destruct (Z.ltb_spec (gin.index s.1) (gin.int8 (Z.of_nat (length handlers))));
    [lia|reflexivity].
Qed.

(** [Recovery] first in the chain, when the chain behind it panics. *)
Lemma Recovery_first logger (rest : list (gin.PanickingFunc go.any W))
    (req : gin.Request) w err c2 w2 depth :
  Z.of_nat (S (length rest)) < gin.abortIndex ->
  gin.panicking_Next depth (middleware.Recovery logger :: rest)
    (gin.with_index (gin.fresh req) 0, w)
  = gin.Panic err (c2, w2) ->
  err ≠ go.any_nil ->
  gin.panicking_Next (S depth) (middleware.Recovery logger :: rest)
    (gin.fresh req, w)
  = match middleware.Recovery logger (fun _ => gin.Panic err (c2, w2))
            (gin.fresh req, w) with
    | gin.Done s' => gin.Done (gin.bump s')
    | gin.Panic value s' => gin.Panic value s'
    end.
Proof.
  intros Hshort Hbelow Herr.
  set (handlers := middleware.Recovery logger :: rest) in *.
  assert (Hlength : length handlers = S (length rest)) by reflexivity.
  unfold gin.abortIndex in Hshort.
  assert (Hlen : gin.int8 (Z.of_nat (length handlers)) = Z.of_nat (length handlers))
    by (apply int8_small; lia).
  pose proof (Recovery_on_panic logger (gin.panicking_Next depth handlers)
                (gin.with_index (gin.fresh req) 0, w) err c2 w2 Hbelow Herr)
    as Hrun.
  pose proof (Recovery_on_panic logger (fun _ => gin.Panic err (c2, w2))
                (gin.fresh req, w) err c2 w2 eq_refl Herr) as Hsame.
  cbv zeta in Hrun, Hsame. rewrite Hsame.
  change (gin.panicking_Next (S depth) handlers (gin.fresh req, w))
    with (gin.panicking_loop (gin.panicking_Next depth handlers)
            handlers (S (length handlers))
            (gin.with_index (gin.fresh (B := go.any) req) (gin.int8 (-1 + 1)), w)).
  change (gin.int8 (-1 + 1)) with 0.
  rewrite panicking_loop_S, Hlen. cbn [fst gin.index gin.with_index].
  destruct (Z.ltb_spec 0 (Z.of_nat (length handlers))); [|lia].
  change (gin.panicking_at handlers 0) with (Some (middleware.Recovery logger)).
  cbv iota beta. rewrite Hrun.
  apply panicking_loop_aborted.
  rewrite index_bump. cbn [fst]. rewrite AbortWithStatusJSON_index, Hlen.
  change (gin.int8 (gin.abortIndex + 1)) with 64. lia.
Qed.

(** The chain [Recovery, h, ...] on a fresh request, when [h] panics. *)
Lemma Recovery_chain logger (h : gin.PanickingFunc go.any W)
    (rest : list (gin.PanickingFunc go.any W)) (req : gin.Request) w err c2 w2 :
  Z.of_nat (S (S (length rest))) < gin.abortIndex ->
  (∀ next, h next (gin.with_index (gin.fresh req) 1, w) = gin.Panic err (c2, w2)) ->
  err ≠ go.any_nil ->
  gin.panicking_Next (S (S (S (length rest))))
    (middleware.Recovery logger :: h :: rest) (gin.fresh req, w)
  = match middleware.Recovery logger (fun _ => gin.Panic err (c2, w2))
            (gin.fresh req, w) with
    | gin.Done s' => gin.Done (gin.bump s')
    | gin.Panic value s' => gin.Panic value s'
    end.
Proof.
  intros Hshort Hpanics Herr.
  apply Recovery_first; [exact Hshort| |exact Herr].
  set (handlers := middleware.Recovery logger :: h :: rest).
  assert (Hlength : length handlers = S (S (length rest))) by reflexivity.
  unfold gin.abortIndex in Hshort.
  assert (Hlen : gin.int8 (Z.of_nat (length handlers)) = Z.of_nat (length handlers))
    by (apply int8_small; lia).
  cbn [gin.panicking_Next].
  change (gin.bump (gin.with_index (gin.fresh req) 0, w))
    with (gin.with_index (gin.fresh (B := go.any) req) (gin.int8 (0 + 1)), w).
  change (gin.int8 (0 + 1)) with 1.
  rewrite panicking_loop_S, Hlen. cbn [fst gin.index gin.with_index].
  destruct (Z.ltb_spec 1 (Z.of_nat (length handlers))); [|lia].
  change (gin.panicking_at handlers 1) with (Some h).
  cbv iota beta. rewrite Hpanics. reflexivity.
Qed.

(** X26: with [Recovery] first in the chain, a request whose handler
    panics (before anything was written) is answered 500 with the
    internal-error body, and the engine goes on: the chain returns, aborted,
    and no handler behind the one that panicked runs (the outcome does not
    depend on them). *)
Theorem panic_behind_Recovery_is_answered logger
    (h : gin.PanickingFunc go.any W) (rest : list (gin.PanickingFunc go.any W))
    (req : gin.Request) w err c2 w2 :
  Z.of_nat (S (S (length rest))) < gin.abortIndex ->
  (∀ next, h next (gin.with_index (gin.fresh req) 1, w) = gin.Panic err (c2, w2)) ->
  err ≠ go.any_nil ->
  gin.written (gin.Writer c2) = false ->
  ∃ c' w',
    gin.panicking_Next (S (S (S (length rest))))
      (middleware.Recovery logger :: h :: rest) (gin.fresh req, w)
    = gin.Done (c', w')
    ∧ gin.code c' = 500
    ∧ gin.reply c'
      = Some (middleware.internal_error (middleware.GetRequestID c2 w2).1)
    ∧ gin.IsAborted c' = true
    ∧ ∀ rest' : list (gin.PanickingFunc go.any W),
        Z.of_nat (S (S (length rest'))) < gin.abortIndex ->
        gin.panicking_Next (S (S (S (length rest'))))
          (middleware.Recovery logger :: h :: rest') (gin.fresh req, w)
        = gin.Done (c', w').
Proof.
  intros Hshort Hpanics Herr Hfresh.
  pose proof (Recovery_on_panic logger (fun _ => gin.Panic err (c2, w2))
                (gin.fresh req, w) err c2 w2 eq_refl Herr) as Hsame.
  cbv zeta in Hsame.
  eexists. eexists. split; [|split; [|split; [|split]]].
  - rewrite (Recovery_chain logger h rest req w err c2 w2) by assumption.
    rewrite Hsame. reflexivity.
  - apply (JSON_code (gin.Abort c2)); [exact Hfresh|lia].
  - apply (JSON_reply (gin.Abort c2)). reflexivity.
  - unfold gin.IsAborted. cbn [gin.with_index gin.index fst].
    rewrite AbortWithStatusJSON_index. reflexivity.
  - intros rest' Hshort'.
    rewrite (Recovery_chain logger h rest' req w err c2 w2) by assumption.
    rewrite Hsame. reflexivity.
Qed.

End Recovery.

(** ** Package middleware: metrics *)

Section Metrics.
Context {B W : Type} {platform : Platform W} {details : gin.Details B}.
Implicit Types (c : gin.Context B) (w : W) (m : middleware.Collectors).

(** X27: a request whose path is not [/metrics] and whose chain returns is
    counted once, after the chain: the counter of its labels goes up by one,
    one duration is observed under the same labels, the gauge of requests in
    flight, raised for the time of the chain, goes down again, and no other
    series changes.  The labels are the method, the status the chain left
    and the route that matched; a request that matched no route is counted
    under the path [unknown], never under its own path. *)
Theorem Metrics_counts_a_served_request next c m w c' m' w' :
  gin.URL_Path (gin.Request_ c) ≠ "/metrics" ->
  next (c, (middleware.Gauge_Inc m, w)) = gin.Done (c', (m', w')) ->
  let labels :=
    (gin.Method (gin.Request_ c'),
     (if decide (gin.FullPath c' = "") then "unknown" else gin.FullPath c'),
     strconv.Itoa (gin.status (gin.Writer c'))) in
  ∃ m'',
    middleware.Metrics next (c, (m, w)) = gin.Done (c', (m'', w'))
    ∧ middleware.httpRequestsInFlight m'' = middleware.httpRequestsInFlight m' - 1
    ∧ middleware.httpRequestsTotal m'' !! labels
      = Some (default 0 (middleware.httpRequestsTotal m' !! labels) + 1)
    ∧ middleware.httpRequestDuration m'' !! labels
      = Some (default [] (middleware.httpRequestDuration m' !! labels)
              ++ [time_Now w' - time_Now w])%list
    ∧ ∀ other, other ≠ labels ->
        middleware.httpRequestsTotal m'' !! other
        = middleware.httpRequestsTotal m' !! other
        ∧ middleware.httpRequestDuration m'' !! other
          = middleware.httpRequestDuration m' !! other.
Proof.
  intros Hpath Hnext labels.
  unfold middleware.Metrics. rewrite decide_False by exact Hpath.
  rewrite Hnext.
  assert (Hlabel : (if decide (middleware.normalizePath (gin.FullPath c') = "")
                    then gin.URL_Path (gin.Request_ c')
                    else middleware.normalizePath (gin.FullPath c'))
                   = (if decide (gin.FullPath c' = "") then "unknown"
                      else gin.FullPath c')).
  { unfold middleware.normalizePath.
    destruct (decide (gin.FullPath c' = "")) as [Hnone|Hroute].
    - rewrite decide_False by discriminate. reflexivity.
    - rewrite decide_False by exact Hroute. reflexivity. }
  cbv zeta. rewrite Hlabel. fold labels.
  eexists. split; [reflexivity|].
  cbn [middleware.httpRequestsInFlight middleware.httpRequestsTotal
       middleware.httpRequestDuration middleware.Histogram_Observe
       middleware.Counter_Inc middleware.Gauge_Dec].
  split; [reflexivity|].
  split; [apply lookup_insert_eq|].
  split; [apply lookup_insert_eq|].
  intros other Hother.
  split; apply lookup_insert_ne; congruence.
Qed.

End Metrics.

Section MetricsBehindRecovery.
Context {W : Type} {platform : Platform W} {runtime : middleware.Runtime W}
  {details : gin.Details go.any}.
Implicit Types (c : gin.Context go.any) (w : W) (m : middleware.Collectors)
  (logger : zap.Logger W).

#[local] Existing Instance middleware.platform_beside.
#[local] Existing Instance middleware.runtime_beside.

Lemma GetRequestID_beside c m w :
  (middleware.GetRequestID c (m, w)).2.1 = m.
Proof.
  unfold middleware.GetRequestID.
  destruct (gin.Get c middleware.RequestIDKey) as [requestID|].
  - destruct (go.as_string requestID); [reflexivity|].
    cbn. destruct (uuid_NewString w). reflexivity.
  - cbn. destruct (uuid_NewString w). reflexivity.
Qed.

(** X28: a request whose handler panics is never counted.  With
    [Recovery] first and [Metrics] second in the chain, the panic of a
    handler behind them passes [Metrics] on its way up: the request gets its
    answer from [Recovery], but the counter and the durations are as before
    the request, and the gauge of requests in flight, raised before the
    chain ran, is not lowered again. *)
Theorem panicking_request_is_never_counted logger
    (h : gin.PanickingFunc go.any (middleware.Collectors * W))
    (rest : list (gin.PanickingFunc go.any (middleware.Collectors * W)))
    (req : gin.Request) m w err c2 w2 :
  Z.of_nat (S (S (S (length rest)))) < gin.abortIndex ->
  gin.URL_Path req ≠ "/metrics" ->
  (∀ next m0,
     h next (gin.with_index (gin.fresh req) 2, (m0, w))
     = gin.Panic err (c2, (m0, w2))) ->
  err ≠ go.any_nil ->
  ∃ c' m' w',
    gin.panicking_Next (S (S (S (S (length rest)))))
      (middleware.Recovery (middleware.logger_beside logger)
       :: middleware.Metrics :: h :: rest)
      (gin.fresh req, (m, w))
    = gin.Done (c', (m', w'))
    ∧ gin.IsAborted c' = true
    ∧ middleware.httpRequestsTotal m' = middleware.httpRequestsTotal m
    ∧ middleware.httpRequestDuration m' = middleware.httpRequestDuration m
    ∧ middleware.httpRequestsInFlight m' = middleware.httpRequestsInFlight m + 1.
Proof.
  intros Hshort Hpath Hpanics Herr.
  set (handlers := middleware.Recovery (middleware.logger_beside logger)
                   :: middleware.Metrics :: h :: rest).
  assert (Hlength : length handlers = S (S (S (length rest)))) by reflexivity.
  assert (Hlen : gin.int8 (Z.of_nat (length handlers)) = Z.of_nat (length handlers))
    by (apply int8_small; unfold gin.abortIndex in Hshort; lia).
  assert (Hbelow :
            gin.panicking_Next (S (S (S (length rest)))) handlers
              (gin.with_index (gin.fresh req) 0, (m, w))
            = gin.Panic err (c2, (middleware.Gauge_Inc m, w2))).
  { cbn [gin.panicking_Next].
    change (gin.bump (gin.with_index (gin.fresh req) 0, (m, w)))
      with (gin.with_index (gin.fresh (B := go.any) req) (gin.int8 (0 + 1)), (m, w)).
    change (gin.int8 (0 + 1)) with 1.
    rewrite panicking_loop_S, Hlen. cbn [fst gin.index gin.with_index].
    destruct (Z.ltb_spec 1 (Z.of_nat (length handlers))); [|lia].
    change (gin.panicking_at handlers 1)
      with (Some (middleware.Metrics (B := go.any) (W := W))).
    cbv iota beta.
    unfold middleware.Metrics at 1.
    cbn [gin.Request_ gin.with_index gin.fresh].
    rewrite decide_False by exact Hpath.
    cbn [gin.panicking_Next].
    match goal with
    | |- context [gin.panicking_loop ?nx handlers (S (length handlers))
                    (gin.bump (gin.with_index (gin.fresh req) 1, ?st))] =>
        assert (Hinner :
                  gin.panicking_loop nx handlers (S (length handlers))
                    (gin.bump (gin.with_index (gin.fresh req) 1, st))
                  = gin.Panic err (c2, (middleware.Gauge_Inc m, w2)))
    end.
    { change (gin.bump (gin.with_index (gin.fresh req) 1,
                        (middleware.Gauge_Inc m, w)))
        with (gin.with_index (gin.fresh (B := go.any) req) (gin.int8 (1 + 1)),
              (middleware.Gauge_Inc m, w)).
      change (gin.int8 (1 + 1)) with 2.
      rewrite panicking_loop_S, Hlen. cbn [fst gin.index gin.with_index].
      destruct (Z.ltb_spec 2 (Z.of_nat (length handlers))); [|lia].
      change (gin.panicking_at handlers 2) with (Some h).
      cbv iota beta.
      match goal with
      | |- context [h ?nx ?st] =>
          change (h nx st)
            with (h nx (gin.with_index (gin.fresh req) 2,
                        (middleware.Gauge_Inc m, w)))
      end.
      rewrite Hpanics. reflexivity. }
    rewrite Hinner. reflexivity. }
  pose proof (Recovery_first (middleware.logger_beside logger)
                (middleware.Metrics :: h :: rest) req (m, w) err c2
                (middleware.Gauge_Inc m, w2) (S (S (S (length rest))))
                Hshort Hbelow Herr) as Hrun.
  pose proof (Recovery_on_panic (middleware.logger_beside logger)
                (fun _ => gin.Panic err (c2, (middleware.Gauge_Inc m, w2)))
                (gin.fresh req, (m, w)) err c2 (middleware.Gauge_Inc m, w2)
                eq_refl Herr) as Hsame.
  cbv zeta in Hsame. rewrite Hsame in Hrun. clear Hsame.
  pose proof (GetRequestID_beside c2 (middleware.Gauge_Inc m) w2) as Hkept.
  destruct (middleware.GetRequestID c2 (middleware.Gauge_Inc m, w2))
    as [requestID [m1 w1]].
  cbn [fst snd] in Hkept, Hrun. subst m1.
  eexists. eexists. eexists. split; [exact Hrun|].
  split.
  - unfold gin.IsAborted. cbn [gin.with_index gin.index fst].
    rewrite AbortWithStatusJSON_index. reflexivity.
  - repeat split.
Qed.

End MetricsBehindRecovery.

(** ** Package logger *)

Section LoggerPackage.
Context {W : Type} {files : logger.Files W}.

(** X29: [New] fails only when it has to open a file and cannot: the
    error is the one of [os.OpenFile], asked for the output path as it is
    written in the configuration.  An output path that reads [stdout],
    [stderr] (in any case of letters) or nothing never fails. *)
Theorem New_fails_iff_the_file_cannot_be_opened (cfg : logger.Config) (w w' : W)
    (err : string) :
  logger.New cfg w = (inl err, w')
  ↔ (strings.ToLower (logger.OutputPath cfg) ∉ ["stdout"; ""; "stderr"])
    ∧ logger.os_OpenFile (logger.OutputPath cfg) w = (Some err, w').
Proof.
  assert (Hin : strings.ToLower (logger.OutputPath cfg) ∈ ["stdout"; ""; "stderr"]
                ↔ (strings.ToLower (logger.OutputPath cfg) = "stdout"
                   ∨ strings.ToLower (logger.OutputPath cfg) = "")
                  ∨ strings.ToLower (logger.OutputPath cfg) = "stderr")
    by (rewrite !elem_of_cons, elem_of_nil; tauto).
  rewrite Hin. clear Hin.
  unfold logger.New.
  destruct (decide (logger.Format cfg = "console")); cbv zeta beta iota.
  all: (destruct (decide (strings.ToLower (logger.OutputPath cfg) = "stdout"
                          ∨ strings.ToLower (logger.OutputPath cfg) = ""));
        [split; [discriminate|tauto]|]).
  all: (destruct (decide (strings.ToLower (logger.OutputPath cfg) = "stderr"));
        [split; [discriminate|tauto]|]).
  all: destruct (logger.os_OpenFile (logger.OutputPath cfg) w) as [[err'|] w1].
  all: split;
    [intros Heq;
     first [discriminate
           |injection Heq as -> ->; split; [tauto|reflexivity]]|].
  all: intros [_ Heq]; congruence.
Qed.

Lemma New_core (cfg : logger.Config) (w w' : W) (core : logger.Core) :
  logger.New cfg w = (inr core, w') ->
  logger.encoder core
  = (if decide (logger.Format cfg = "console")
     then logger.ConsoleEncoder else logger.JSONEncoder)
  ∧ logger.level core = logger.parseLevel (logger.Level cfg).
Proof.
  unfold logger.New.
  destruct (decide (logger.Format cfg = "console")); cbv zeta beta iota.
  all: (destruct (decide (strings.ToLower (logger.OutputPath cfg) = "stdout"
                          ∨ strings.ToLower (logger.OutputPath cfg) = ""));
        [intros Heq; injection Heq as <- <-; split; reflexivity|]).
  all: (destruct (decide (strings.ToLower (logger.OutputPath cfg) = "stderr"));
        [intros Heq; injection Heq as <- <-; split; reflexivity|]).
  all: (destruct (logger.os_OpenFile (logger.OutputPath cfg) w) as [[err'|] w1];
        [discriminate|intros Heq; injection Heq as <- <-; split; reflexivity]).
Qed.

(** X30: the logger [FromEnv] builds writes for the console exactly when
    [ENV] is [dev] or [development], or [LOG_FORMAT] is [console] (in these
    very letters); [ENV] wins over any [LOG_FORMAT].  Its level is what
    [parseLevel] makes of [LOG_LEVEL], and of [info] when the variable is
    unset. *)
Theorem FromEnv_format_and_level (env : gmap string string) (w w' : W)
    (core : logger.Core) :
  logger.FromEnv env w = (inr core, w') ->
  (logger.encoder core = logger.ConsoleEncoder
   ↔ os.Getenv env "ENV" = "dev" ∨ os.Getenv env "ENV" = "development"
     ∨ os.Getenv env "LOG_FORMAT" = "console")
  ∧ logger.level core
    = logger.parseLevel
        (if decide (os.Getenv env "LOG_LEVEL" = "") then "info"
         else os.Getenv env "LOG_LEVEL").
Proof.
  unfold logger.FromEnv. cbv zeta. intros Hbuilt.
  apply New_core in Hbuilt as [-> ->].
  destruct (decide (os.Getenv env "LOG_LEVEL" = "")) as [Hlevel|Hlevel];
    [rewrite (decide_False (P := os.Getenv env "LOG_LEVEL" ≠ ""))
       by (intros Hne; apply Hne; exact Hlevel)
    |rewrite (decide_True (P := os.Getenv env "LOG_LEVEL" ≠ "")) by exact Hlevel];
    destruct (decide (os.Getenv env "LOG_OUTPUT" ≠ ""));
    destruct (decide (os.Getenv env "LOG_FORMAT" ≠ "")) as [Hformat|Hformat];
    destruct (decide (os.Getenv env "ENV" = "dev"
                      ∨ os.Getenv env "ENV" = "development")) as [Henv|Henv];
    cbn [logger.Level logger.OutputPath logger.Format logger.DefaultConfig].
  all: split; [|reflexivity].
  all: try (rewrite decide_True by reflexivity; split; [tauto|reflexivity]).
  all: try (rewrite decide_False by discriminate;
            split; [discriminate|intros [? | [? | Hconsole]]; [tauto|tauto|];
                    exfalso; apply Hformat; intros _;
                    apply Hformat; rewrite Hconsole; discriminate]).
  all: destruct (decide (os.Getenv env "LOG_FORMAT" = "console")) as [Hc|Hc];
    (split; [intros Henc; try discriminate; tauto|]);
    intros [? | [? | ?]]; try reflexivity; tauto.
Qed.

End LoggerPackage.

(** * The further properties at concrete inputs *)

Lemma unrelated_env_changes_nothing :
  Forall (λ key, os.Getenv sample.unrelated_env key = "") config.variables
  ∧ config.LoadFromEnv sample.unrelated_env config.DefaultConfig
    = config.DefaultConfig.
Proof.
  assert (Hunset : Forall (λ key, os.Getenv sample.unrelated_env key = "")
                     config.variables) by (repeat constructor).
  split; [exact Hunset|].
  exact (LoadFromEnv_nothing_set sample.unrelated_env config.DefaultConfig Hunset).
Defined.

Lemma full_env_DSN_is_the_URL :
  os.Getenv sample.full_env "DATABASE_URL" ≠ ""
  ∧ config.GetDSN
      (config.Database (config.LoadFromEnv sample.full_env config.DefaultConfig))
    = config.example_DATABASE_URL.
Proof.
  assert (Hurl : os.Getenv sample.full_env "DATABASE_URL" ≠ "") by discriminate.
  split; [exact Hurl|].
  rewrite (GetDSN_is_DATABASE_URL sample.full_env config.DefaultConfig Hurl).
  reflexivity.
Defined.

Lemma ipv6_literal_is_cut_at_its_first_colon :
  (∃ u, url.Parse sample.ipv6_DATABASE_URL = Some u ∧ url.Host u = "[::1]:5432")
  ∧ config.DatabaseConfig.Host
      (config.Database
         (config.parseDatabaseURL sample.ipv6_DATABASE_URL config.DefaultConfig))
    = "["
  ∧ config.DatabaseConfig.Port
      (config.Database
         (config.parseDatabaseURL sample.ipv6_DATABASE_URL config.DefaultConfig))
    = "".
Proof.
  assert (Hparsed : ∃ u, url.Parse sample.ipv6_DATABASE_URL = Some u
                         ∧ url.Host u = "[::1]:5432")
    by (eexists; split; reflexivity).
  split; [exact Hparsed|].
  destruct Hparsed as (u & Hparse & Hhost).
  assert (Hne : url.Host u ≠ "") by (rewrite Hhost; discriminate).
  destruct (parseDatabaseURL_host_and_port sample.ipv6_DATABASE_URL u
              config.DefaultConfig Hparse Hne) as [Hh Hp].
  rewrite Hh, Hp, Hhost. split; reflexivity.
Defined.

Lemma same_name_twice_lists_the_second :
  (health.Name (sample.constant_checker "db" health.StatusHealthy)
     ∉ (health.Name <$> ([] : list (health.Checker Z))))
  ∧ ∃ r,
      gin.reply (health.ReadyHandler sample.same_name_twice
                   (gin.fresh (sample.request "GET")) 0).1 = Some r
      ∧ health.ComponentCheck.Status
          <$> (health.HealthResponse.Checks r !! "db") = Some "healthy"
      ∧ health.HealthResponse.Status r = "unhealthy".
Proof.
  assert (Hlast : health.Name (sample.constant_checker "db" health.StatusHealthy)
                    ∉ (health.Name <$> ([] : list (health.Checker Z))))
    by apply not_elem_of_nil.
  split; [exact Hlast|].
  destruct (ReadyHandler_lists_last_of_a_name
              [sample.constant_checker "db" health.StatusUnhealthy]
              (sample.constant_checker "db" health.StatusHealthy) []
              (gin.fresh (sample.request "GET")) 0 Hlast) as (r & Hr & Hcheck).
  exists r. split; [exact Hr|]. split.
  - change (health.Name (sample.constant_checker "db" health.StatusHealthy))
      with "db" in Hcheck.
    rewrite Hcheck. reflexivity.
  - injection Hr as <-. reflexivity.
Defined.

Lemma reversed_registry_answers_the_same :
  health.reported_statuses sample.registry (gin.fresh (sample.request "GET")) 0
    ≡ₚ health.reported_statuses sample.registry_reversed
         (gin.fresh (sample.request "GET")) 0
  ∧ health.HealthResponse.Status
      <$> gin.reply (health.ReadyHandler sample.registry
                       (gin.fresh (sample.request "GET")) 0).1
    = health.HealthResponse.Status
        <$> gin.reply (health.ReadyHandler sample.registry_reversed
                         (gin.fresh (sample.request "GET")) 0).1.
Proof.
  assert (Hperm :
            health.reported_statuses sample.registry
              (gin.fresh (sample.request "GET")) 0
              ≡ₚ health.reported_statuses sample.registry_reversed
                   (gin.fresh (sample.request "GET")) 0)
    by exact (Permutation_rev ["healthy"; "degraded"; "unhealthy"]).
  split; [exact Hperm|].
  exact (overall_status_ignores_order _ _ _ _ _ _ Hperm).
Defined.

Lemma empty_entry_leaves_the_header_out :
  ∃ c',
    middleware.CORSWithOrigins "https://a.example," (sample.downstream (fun s => s))
      (gin.fresh (sample.request "GET"), 0)
    = sample.downstream (fun s => s) (c', 0)
    ∧ gin.header (gin.Writer c') !! "Access-Control-Allow-Origin" = None.
Proof.
  destruct (CORS_allow_list_refuses_no_origin
              (middleware.mkCORSConfig ["https://a.example"; ""]
                 (middleware.AllowedMethods middleware.DefaultCORSConfig)
                 (middleware.AllowedHeaders middleware.DefaultCORSConfig)
                 (middleware.ExposedHeaders middleware.DefaultCORSConfig)
                 true 86400)
              (sample.downstream (fun s => s))
              (gin.fresh (sample.request "GET")) 0)
    as (c' & Hrun & _ & Habsent & _).
  exists c'. split.
  - rewrite decide_False in Hrun by discriminate. exact Hrun.
  - apply Habsent. split; [intros Hopen; discriminate Hopen|].
    split; [reflexivity|]. apply (list_elem_of_lookup_2 _ 1%nat). reflexivity.
Defined.

Lemma GET_is_handed_on :
  gin.Method (gin.Request_ (gin.fresh (B := string) (sample.request "GET")))
    ≠ "OPTIONS"
  ∧ ∃ c',
      middleware.DefaultCORS (sample.downstream (fun s => s))
        (gin.fresh (sample.request "GET"), 0)
      = sample.downstream (fun s => s) (c', 0)
      ∧ middleware.differs_in_headers middleware.CORS_headers
          (gin.fresh (sample.request "GET")) c'.
Proof.
  assert (Hmethod : gin.Method (gin.Request_ (gin.fresh (B := string)
                                                (sample.request "GET")))
                    ≠ "OPTIONS") by discriminate.
  split; [exact Hmethod|].
  exact (CORS_hands_on_other_methods middleware.DefaultCORSConfig
           (sample.downstream (fun s => s)) (gin.fresh (sample.request "GET")) 0
           Hmethod).
Defined.

Lemma allow_list_is_read_back :
  sample.allow_list ≠ []
  ∧ Forall (λ e, strings.find e "," = None) sample.allow_list
  ∧ middleware.CORSWithOrigins (B := string) (W := Z)
      (strings.Join sample.allow_list ",")
    = middleware.CORS
        (middleware.mkCORSConfig
           ["https://a.example"; "https://b.example"; "https://c.example"]
           (middleware.AllowedMethods middleware.DefaultCORSConfig)
           (middleware.AllowedHeaders middleware.DefaultCORSConfig)
           (middleware.ExposedHeaders middleware.DefaultCORSConfig)
           true 86400).
Proof.
  assert (Hsome : sample.allow_list ≠ []) by discriminate.
  assert (Hfree : Forall (λ e, strings.find e "," = None) sample.allow_list)
    by (repeat constructor).
  split; [exact Hsome|]. split; [exact Hfree|].
  pose proof (CORSWithOrigins_reads_joined_list (B := string) (W := Z)
                sample.allow_list Hsome Hfree) as Hread.
  rewrite decide_False in Hread by (intros [Heq | Heq]; discriminate Heq).
  rewrite Hread. reflexivity.
Defined.

Lemma logged_preflight :
  Z.of_nat (S (S (length [sample.downstream]))) < gin.abortIndex
  ∧ gin.Method (sample.request "OPTIONS") = "OPTIONS"
  ∧ gin.code
      (gin.ServeHTTP
         [middleware.Logger (details := sample.details) sample.ticking;
          middleware.DefaultCORS; sample.downstream]
         (sample.request "OPTIONS") 0).1 = 204
  ∧ gin.Header_Get
      (gin.header
         (gin.Writer
            (gin.ServeHTTP
               [middleware.Logger (details := sample.details) sample.ticking;
                middleware.DefaultCORS; sample.downstream]
               (sample.request "OPTIONS") 0).1)) "X-Request-ID" = "uuid-0".
Proof.
  assert (Hshort : Z.of_nat (S (S (length [sample.downstream]))) < gin.abortIndex)
    by reflexivity.
  split; [exact Hshort|]. split; [reflexivity|].
  destruct (preflight_behind_Logger_is_logged (details := sample.details)
              middleware.DefaultCORSConfig sample.ticking [sample.downstream]
              (sample.request "OPTIONS") 0 Hshort eq_refl)
    as (Hcode & _ & Hheader & _).
  split; [exact Hcode|exact Hheader].
Defined.

Lemma boom_is_answered_500 :
  go.any_string "boom" ≠ go.any_nil
  ∧ gin.written (gin.Writer (gin.fresh (B := go.any) (sample.request "GET"))) = false
  ∧ ∃ c' w',
      middleware.Recovery (runtime := sample.runtime) (details := sample.details)
        sample.ticking (sample.boom (fun s => gin.Done s))
        (gin.fresh (sample.request "GET"), 0)
      = gin.Done (c', w')
      ∧ gin.code c' = 500.
Proof.
  assert (Herr : go.any_string "boom" ≠ go.any_nil) by discriminate.
  split; [exact Herr|]. split; [reflexivity|].
  destruct (Recovery_answers_a_panic_with_500 (runtime := sample.runtime)
              (details := sample.details) sample.ticking
              (sample.boom (fun s => gin.Done s))
              (gin.fresh (sample.request "GET"), 0) (go.any_string "boom")
              (gin.fresh (sample.request "GET")) 0 eq_refl Herr eq_refl)
    as (c' & entry & Hrun & Hcode & _).
  exists c'. eexists. split; [exact Hrun|exact Hcode].
Defined.


Lemma boom_behind_Recovery :
  Z.of_nat (S (S (length [sample.answering (W := Z)]))) < gin.abortIndex
  ∧ go.any_string "boom" ≠ go.any_nil
  ∧ ∃ c' w',
      gin.panicking_Next 4
        [middleware.Recovery (runtime := sample.runtime)
           (details := sample.details) sample.ticking;
         sample.boom; sample.answering]
        (gin.fresh (sample.request "GET"), 0)
      = gin.Done (c', w')
      ∧ gin.code c' = 500
      ∧ gin.IsAborted c' = true.
Proof.
  assert (Hshort : Z.of_nat (S (S (length [sample.answering (W := Z)])))
                   < gin.abortIndex) by reflexivity.
  assert (Herr : go.any_string "boom" ≠ go.any_nil) by discriminate.
  split; [exact Hshort|]. split; [exact Herr|].
  destruct (panic_behind_Recovery_is_answered (runtime := sample.runtime)
              (details := sample.details) sample.ticking sample.boom
              [sample.answering] (sample.request "GET") 0 (go.any_string "boom")
              (gin.with_index (gin.fresh (sample.request "GET")) 1) 0
              Hshort (fun _ => eq_refl) Herr eq_refl)
    as (c' & w' & Hrun & Hcode & _ & Haborted & _).
  exists c', w'. split; [exact Hrun|]. split; [exact Hcode|exact Haborted].
Defined.

Lemma served_GET_is_counted :
  gin.URL_Path (B := string) (Details := sample.details)
    (gin.Request_ (gin.fresh (B := string) (sample.request "GET"))) ≠ "/metrics"
  ∧ ∃ m'',
      middleware.Metrics (details := sample.details)
        (fun s => gin.Done (gin.JSON s.1 200 "handled", s.2))
        (gin.fresh (sample.request "GET"), (sample.no_metrics, 0))
      = gin.Done (gin.JSON (gin.fresh (sample.request "GET")) 200 "handled",
                  (m'', 0))
      ∧ middleware.httpRequestsInFlight m'' = 0
      ∧ middleware.httpRequestsTotal m'' !! ("GET", "/items", "200") = Some 1.
Proof.
  assert (Hpath : gin.URL_Path (B := string) (Details := sample.details)
                    (gin.Request_ (gin.fresh (B := string) (sample.request "GET")))
                  ≠ "/metrics") by discriminate.
  split; [exact Hpath|].
  destruct (Metrics_counts_a_served_request (details := sample.details)
              (fun s => gin.Done (gin.JSON s.1 200 "handled", s.2))
              (gin.fresh (sample.request "GET")) sample.no_metrics 0
              (gin.JSON (gin.fresh (sample.request "GET")) 200 "handled")
              (middleware.Gauge_Inc sample.no_metrics) 0 Hpath eq_refl)
    as (m'' & Hrun & Hgauge & Htotal & _).
  exists m''. split; [exact Hrun|]. split; [exact Hgauge|exact Htotal].
Defined.

Lemma boom_is_not_counted :
  Z.of_nat (S (S (S (length ([] : list (gin.PanickingFunc go.any
                                          (middleware.Collectors * Z)))))))
    < gin.abortIndex
  ∧ gin.URL_Path (B := go.any) (Details := sample.details) (sample.request "GET")
    ≠ "/metrics"
  ∧ go.any_string "boom" ≠ go.any_nil
  ∧ ∃ c' m' w',
      gin.panicking_Next 4
        [middleware.Recovery
           (platform := middleware.platform_beside clock_platform)
           (runtime := middleware.runtime_beside sample.runtime)
           (details := sample.details)
           (middleware.logger_beside sample.ticking);
         middleware.Metrics (details := sample.details); sample.boom]
        (gin.fresh (sample.request "GET"), (sample.no_metrics, 0))
      = gin.Done (c', (m', w'))
      ∧ middleware.httpRequestsTotal m' = ∅
      ∧ middleware.httpRequestsInFlight m' = 1.
Proof.
  assert (Hshort :
            Z.of_nat (S (S (S (length ([] : list (gin.PanickingFunc go.any
                                                    (middleware.Collectors * Z)))))))
            < gin.abortIndex) by reflexivity.
  assert (Hpath : gin.URL_Path (B := go.any) (Details := sample.details)
                    (sample.request "GET") ≠ "/metrics") by discriminate.
  assert (Herr : go.any_string "boom" ≠ go.any_nil) by discriminate.
  split; [exact Hshort|]. split; [exact Hpath|]. split; [exact Herr|].
  destruct (panicking_request_is_never_counted (runtime := sample.runtime)
              (details := sample.details) sample.ticking sample.boom []
              (sample.request "GET") sample.no_metrics 0 (go.any_string "boom")
              (gin.with_index (gin.fresh (sample.request "GET")) 2) 0
              Hshort Hpath (fun _ _ => eq_refl) Herr)
    as (c' & m' & w' & Hrun & _ & Htotal & _ & Hgauge).
  exists c', m', w'. split; [exact Hrun|]. split; [exact Htotal|exact Hgauge].
Defined.

Lemma dev_env_logs_to_the_console :
  ∃ core,
    logger.FromEnv (files := sample.files) sample.dev_env 0 = (inr core, 0)
    ∧ logger.encoder core = logger.ConsoleEncoder
    ∧ logger.level core = zap.InfoLevel.
Proof.
  eexists. split; [reflexivity|].
  destruct (FromEnv_format_and_level (files := sample.files) sample.dev_env 0 0 _
              eq_refl) as [Hencoder Hlevel].
  split; [apply Hencoder; left; reflexivity|rewrite Hlevel; reflexivity].
Defined.
